(** * DicoGIS: metadata readers and the folder-walk classifier

    A shallow embedding of the parts of DicoGIS that open a geospatial
    resource, fill the per-resource dictionaries and list the candidate files
    of every format:

    - [src/modules/InfosGDAL.py]               (class [InfosRasters])
    - [src/modules/georeaders/Infos_GeoPDF.py] (class [ReadGeoPDF] and the
                                                error handlers)
    - [src/modules/georeaders/geoutils.py]     (class [Utils])
    - [src/DicoShapes.py], [src/DicoGIS.py]    (methods [ligeofiles] and
                                                [savedico])

    Python dictionaries filled by the readers are [OrderedDict]s: they are
    association lists in insertion order.  Exceptions are values of a result
    type, mutation is explicit state passing, and what the operating system
    and the GDAL/OGR bindings answer is data handed to the functions.

    The program is Python 2.  The paths it is given and the names and
    texts that the operating system and the bindings answer are byte
    strings.  The literals of [DicoGIS.py], [DicoShapes.py],
    [Infos_GeoPDF.py] and [geoutils.py] are [unicode] objects (these files
    import [unicode_literals]), those of [InfosGDAL.py] are byte strings;
    where a byte string meets a [unicode] object in a concatenation, a
    format or a [replace], it is decoded with the ASCII codec, which raises
    [UnicodeDecodeError] on a byte above 127. *)

From Stdlib Require Import ZArith QArith String Ascii List Lia.
From stdpp Require Import base list strings gmap sorting pretty.

Set Warnings "-register-all".

Local Open Scope Z_scope.
Local Open Scope string_scope.

(* ===================================================================== *)
(** * Python: values, exceptions, ordered dictionaries, strings *)
(* ===================================================================== *)

Module Py.

(** The exceptions the modelled code can meet. *)
Inductive exn : Type :=
| UnboundLocalError
| AttributeError
| TypeError
| IndexError
| OSError
| UnicodeDecodeError
| UnicodeEncodeError
| RuntimeError.

Inductive result (A : Type) : Type :=
| Ok (a : A)
| Raise (e : exn).
Arguments Ok {A} a.
Arguments Raise {A} e.

(** Statements that mutate their arguments and may raise: the state [S]
    holds the mutated objects, and it is returned also when an exception
    leaves the statement (the caller's dictionaries keep what was written). *)
Definition M (S A : Type) : Type := S -> result A * S.

Definition ret {S A : Type} (a : A) : M S A := fun s => (Ok a, s).

Definition raise {S A : Type} (e : exn) : M S A := fun s => (Raise e, s).

Definition bind {S A B : Type} (m : M S A) (k : A -> M S B) : M S B :=
  fun s => match m s with
           | (Ok a, s') => k a s'
           | (Raise e, s') => (Raise e, s')
           end.

Definition modify {S : Type} (f : S -> S) : M S unit := fun s => (Ok tt, f s).

Definition gets {S A : Type} (f : S -> A) : M S A := fun s => (Ok (f s), s).

(** [lift r]: an expression without effect on the state. *)
Definition lift {S A : Type} (r : result A) : M S A := fun s => (r, s).

(** [try: body except e: handler] for one exception class. *)
Definition try_except {S A : Type} (body : M S A) (catches : exn -> bool)
    (handler : M S A) : M S A :=
  fun s => match body s with
           | (Ok a, s') => (Ok a, s')
           | (Raise e, s') => if catches e then handler s' else (Raise e, s')
           end.

(** [for x in xs: body x]. *)
Fixpoint for_each {S A : Type} (xs : list A) (body : A -> M S unit) : M S unit :=
  match xs with
  | [] => ret tt
  | x :: xs' => bind (body x) (fun _ => for_each xs' body)
  end.

(** [m] leaves the component [f] of the state as it was, whether it ends
    normally or raises. *)
Definition keeps {S T A : Type} (f : S -> T) (m : M S A) : Prop :=
  forall s, f (snd (m s)) = f s.

(** Values stored in the dictionaries.  A float is represented by the
    rational number it denotes. *)
Inductive pyval : Type :=
| VNone
| VInt (z : Z)
| VFloat (q : Q)
| VStr (s : string)
| VList (l : list pyval)
| VTuple (l : list pyval)
| VDict (d : list (string * pyval)).

(** An [OrderedDict] with string keys. *)
Definition odict : Type := list (string * pyval).

(** [d[k] = v]: replaces the value of an existing key in place, appends a
    new key at the end. *)
Fixpoint setitem (k : string) (v : pyval) (d : odict) : odict :=
  match d with
  | [] => [(k, v)]
  | (k', v') :: d' =>
      if String.eqb k' k then (k', v) :: d' else (k', v') :: setitem k v d'
  end.

(** [d.get(k)]. *)
Fixpoint get (k : string) (d : odict) : option pyval :=
  match d with
  | [] => None
  | (k', v') :: d' => if String.eqb k' k then Some v' else get k d'
  end.

(** [d.keys()]. *)
Definition keys (d : odict) : list string := map fst d.

(** [None] for an absent optional value. *)
Definition opt_val {A : Type} (f : A -> pyval) (o : option A) : pyval :=
  match o with
  | Some a => f a
  | None => VNone
  end.

(** [range(a, b)]. *)
Definition range (a b : Z) : list Z := seqZ a (b - a).

(** [s.lower()] on the letters A-Z. *)
Definition lower_ascii (c : ascii) : ascii :=
  let n := N_of_ascii c in
  if ((65 <=? n) && (n <=? 90))%N then ascii_of_N (n + 32) else c.

Fixpoint lower (s : string) : string :=
  match s with
  | EmptyString => EmptyString
  | String c s' => String (lower_ascii c) (lower s')
  end.

Fixpoint upper_ascii_string (s : string) : string :=
  match s with
  | EmptyString => EmptyString
  | String c s' =>
      let n := N_of_ascii c in
      String (if ((97 <=? n) && (n <=? 122))%N then ascii_of_N (n - 32) else c)
             (upper_ascii_string s')
  end.

(** [s[:-n]]: everything but the last [n] characters. *)
Definition drop_last (n : nat) (s : string) : string :=
  substring 0 (String.length s - n) s.

(** [s[i:j]] for [0 <= i <= j]. *)
Definition slice (i j : nat) (s : string) : string :=
  substring i (j - i) s.

(** [s.replace(a, b)] for single characters. *)
Fixpoint replace_char (a b : ascii) (s : string) : string :=
  match s with
  | EmptyString => EmptyString
  | String c s' => String (if Ascii.eqb c a then b else c) (replace_char a b s')
  end.

(** [s.capitalize()]: first letter upper case, the others lower case. *)
Definition capitalize (s : string) : string :=
  match s with
  | EmptyString => EmptyString
  | String c s' => upper_ascii_string (String c EmptyString) ++ lower s'
  end.

(** [s.rfind(c)]: the index of the last occurrence of [c], or -1. *)
Fixpoint rfind_from (c : ascii) (s : string) (i last : Z) : Z :=
  match s with
  | EmptyString => last
  | String a s' => rfind_from c s' (i + 1) (if Ascii.eqb a c then i else last)
  end.

Definition rfind (c : ascii) (s : string) : Z := rfind_from c s 0 (-1).

(** A byte string that is not pure ASCII cannot be turned into [unicode]
    by the implicit codec. *)
Fixpoint is_ascii (s : string) : bool :=
  match s with
  | EmptyString => true
  | String c s' => (N_of_ascii c <? 128)%N && is_ascii s'
  end.

(** [unicode(s)] for a byte string. *)
Definition unicode (s : string) : result string :=
  if is_ascii s then Ok s else Raise UnicodeDecodeError.

(** [s.decode('latin1')]: every byte becomes the character of the same
    code, so the sequence of codes is unchanged. *)
Definition decode_latin1 (s : string) : string := s.

(** A text is a byte string ([str]) or a [unicode] object.  The readers
    and the walk of a folder given as a byte string meet [unicode] objects
    only as literals of the program, as decoded byte strings and as what is
    built from these, so that the codes of their characters are below 256
    as the bytes of a byte string are. *)
Inductive text : Type :=
| Bytes (codes : string)
| Unicode (codes : string).

Definition codes (t : text) : string :=
  match t with
  | Bytes c => c
  | Unicode c => c
  end.

(** [u.lower()] on a [unicode] object: besides A-Z, the capital letters
    of Latin-1 (codes 192 to 222 but the multiplication sign 215). *)
Definition lower_unicode_char (c : ascii) : ascii :=
  let n := N_of_ascii c in
  if (((65 <=? n) && (n <=? 90))
      || ((192 <=? n) && (n <=? 222) && negb (n =? 215)))%N
  then ascii_of_N (n + 32) else c.

Fixpoint lower_unicode (s : string) : string :=
  match s with
  | EmptyString => EmptyString
  | String c s' => String (lower_unicode_char c) (lower_unicode s')
  end.

(** [t.lower()]. *)
Definition lowered (t : text) : text :=
  match t with
  | Bytes c => Bytes (lower c)
  | Unicode c => Unicode (lower_unicode c)
  end.

(** [t == l] for a [unicode] literal [l] in ASCII: a byte string that is
    not ASCII is unequal to every [unicode] object, and the comparison does
    not raise. *)
Definition eq_literal (t : text) (l : string) : bool := String.eqb (codes t) l.

(** [a and b], [a or b] on tests that may raise: [b] is evaluated only
    when [a] does not decide. *)
Definition and_then (a b : result bool) : result bool :=
  match a with
  | Ok true => b
  | Ok false => Ok false
  | Raise e => Raise e
  end.

Definition or_else (a b : result bool) : result bool :=
  match a with
  | Ok true => Ok true
  | Ok false => b
  | Raise e => Raise e
  end.

(** [unicode(x)] for an optional text, as returned by [dict.get] on the
    dictionary of localized texts or by an attribute lookup that may answer
    [None]. *)
Definition unicode_opt (o : option string) : result string :=
  match o with
  | Some s => unicode s
  | None => Ok "None"
  end.

(** [list.sort()] on paths: the ascending order of the code sequences. *)
Definition str_le (s1 s2 : string) : Prop := String.leb s1 s2 = true.

#[global] Instance str_le_dec (s1 s2 : string) : Decision (str_le s1 s2).
Proof. unfold str_le. apply _. Defined.

Definition sort (l : list string) : list string := merge_sort str_le l.

(** A list attribute that the code later turns into a tuple: [append] and
    [sort] exist on lists only. *)
Inductive pyseq : Type :=
| PyList (l : list string)
| PyTuple (l : list string).

Definition items (s : pyseq) : list string :=
  match s with
  | PyList l => l
  | PyTuple l => l
  end.

Definition seq_append (x : string) (s : pyseq) : result pyseq :=
  match s with
  | PyList l => Ok (PyList (l ++ [x]))
  | PyTuple _ => Raise AttributeError
  end.

Definition seq_sort (s : pyseq) : result pyseq :=
  match s with
  | PyList l => Ok (PyList (sort l))
  | PyTuple _ => Raise AttributeError
  end.

Definition tuple (s : pyseq) : pyseq := PyTuple (items s).

End Py.

Import Py.

Declare Scope py_scope.
Notation "'let*' x ':=' m 'in' k" := (Py.bind m (fun x => k))
  (at level 10, x name, m at level 100, k at level 200) : py_scope.
Notation "m ';;;' k" := (Py.bind m (fun _ => k))
  (at level 100, k at level 200, right associativity) : py_scope.
Local Open Scope py_scope.

(* ===================================================================== *)
(** * os.path (POSIX flavour) *)
(* ===================================================================== *)

Module posixpath.

(** [path.join(a, b)] for a relative [b]. *)
Definition join (a b : string) : string :=
  match b with
  | String "/" _ => b
  | _ =>
      if (String.eqb a "" || String.eqb (substring (String.length a - 1) 1 a) "/")%bool
      then a ++ b
      else a ++ "/" ++ b
  end.

(** [path.join(a, u)] for a byte string [a] and a [unicode] name [u]:
    adding [u] to [a] decodes [a] with the ASCII codec. *)
Definition join_unicode (a u : string) : result string :=
  match u with
  | String "/" _ => Ok u
  | _ => if is_ascii a then Ok (join a u) else Raise UnicodeDecodeError
  end.

(** [p.rstrip('/')]. *)
Fixpoint rstrip_slash (s : string) : string :=
  match s with
  | EmptyString => EmptyString
  | String c s' =>
      match rstrip_slash s' with
      | EmptyString => if Ascii.eqb c "/" then EmptyString else String c EmptyString
      | r => String c r
      end
  end.

(** [path.basename(p)]: what follows the last slash. *)
Definition basename (p : string) : string :=
  let i := Z.to_nat (rfind "/" p + 1) in
  substring i (String.length p - i) p.

(** [path.dirname(p)]: what precedes the last slash, without trailing
    slashes unless it consists of slashes only. *)
Definition dirname (p : string) : string :=
  let i := Z.to_nat (rfind "/" p + 1) in
  let head := substring 0 i p in
  if String.eqb (rstrip_slash head) "" then head else rstrip_slash head.

(** [path.splitext(p)]: the extension starts at the last dot of the last
    component, unless that component has only leading dots before it. *)
Definition splitext (p : string) : string * string :=
  let sepIndex := rfind "/" p in
  let dotIndex := rfind "." p in
  if (sepIndex <? dotIndex)%Z
  then
    let name_head := slice (Z.to_nat (sepIndex + 1)) (Z.to_nat dotIndex) p in
    if existsb (fun c => negb (Ascii.eqb c ".")) (list_ascii_of_string name_head)
    then (substring 0 (Z.to_nat dotIndex) p,
          substring (Z.to_nat dotIndex) (String.length p - Z.to_nat dotIndex) p)
    else (p, "")
  else (p, "").

End posixpath.

(* ===================================================================== *)
(** * What the GDAL/OGR bindings and the operating system answer *)
(* ===================================================================== *)

Module gdal.

(** An [osr.SpatialReference] after [AutoIdentifyEPSG]: the six category
    tests answer an integer, [GetAttrValue(name, child)] a byte string or
    [None]. *)
Record SpatialReference : Type := {
  IsCompound : Z;
  IsGeocentric : Z;
  IsGeographic : Z;
  IsLocal : Z;
  IsProjected : Z;
  IsVertical : Z;
  GetAttrValue : string -> Z -> option string
}.

(** A raster band.  [GetStatistics(True, True)] raises or answers a list;
    [GetColorTable] is represented by the table's [GetCount()]. *)
Record Band : Type := {
  DataType : Z;
  GetMinimum : option Q;
  GetMaximum : option Q;
  GetNoDataValue : option Q;
  GetStatistics : result (list Q);
  GetScale : option Q;
  GetUnitType : string;
  GetColorTable : option Z
}.

(** An opened raster dataset.  [GetSRS] is the spatial reference built
    from the dataset's projection string. *)
Record Dataset : Type := {
  GetFileList : list string;
  GetMetadata : gmap string string;
  GetDescription : string;
  RasterXSize : Z;
  RasterYSize : Z;
  RasterCount : Z;
  GetRasterBand : Z -> option Band;
  GetGeoTransform : list Q;
  GetSRS : SpatialReference;
  GetSubDatasets : list (string * string);
  GetGCPCount : Z
}.

(** [gdal.GetDataTypeName(code)]. *)
Definition GetDataTypeName (code : Z) : string :=
  match code with
  | 1 => "Byte" | 2 => "UInt16" | 3 => "Int16" | 4 => "UInt32"
  | 5 => "Int32" | 6 => "Float32" | 7 => "Float64" | 8 => "CInt16"
  | 9 => "CInt32" | 10 => "CFloat32" | 11 => "CFloat64"
  | _ => "Unknown"
  end.

(** What [gdal.Open] / [ogr.Open] does: raise (exceptions enabled), answer
    [None], or answer a handle. *)
Inductive opened (A : Type) : Type :=
| OpenRaises
| OpenNone
| Opened (a : A).
Arguments OpenRaises {A}.
Arguments OpenNone {A}.
Arguments Opened {A} a.

(** The handle bound by [h = Open(...)], which raises when [Open] does. *)
Definition open_result {A : Type} (o : opened A) : result (option A) :=
  match o with
  | OpenRaises => Raise RuntimeError
  | OpenNone => Ok None
  | Opened a => Ok (Some a)
  end.

End gdal.

Module ogr.

Record FieldDefn : Type := {
  fld_GetName : string;
  fld_GetTypeName : string
}.

(** A layer; [GetLayerDefn] is the ordered list of its field definitions. *)
Record Layer : Type := {
  lyr_GetName : string;
  GetFeatureCount : Z;
  GetLayerDefn : list FieldDefn
}.

Record DataSource : Type := {
  ds_GetName : string;
  ds_layers : list Layer
}.

Definition GetLayerCount (ds : DataSource) : Z := Z.of_nat (length (ds_layers ds)).

Definition GetLayerByIndex (ds : DataSource) (i : Z) : option Layer :=
  ds_layers ds !! Z.to_nat i.

End ogr.

Module os.

(** The file system as the program observes it.  Paths are byte strings:
    [getsize] answers [None] where Python raises [os.error]; [mtime fmt p]
    and [ctime fmt p] are [strftime(fmt, localtime(getmtime(p)))] and the
    same with [getctime]; [walk top] is the sequence of triples
    [(root, dirs, files)] that [os.walk(top)] yields for a byte string
    [top], whose names are byte strings; [chdir p] tells whether
    [os.chdir(p)] finds the folder [p] and enters it ([true]) or raises
    [os.error].

    The last three fields are what the interpreter does with a [unicode]
    object that is not ASCII, given as the codes of its characters: the file
    system encoding decides what file [isfile] looks for and whether the
    name can be encoded at all, and the encoding of the standard output
    decides whether [print] can write it. *)
Record OS : Type := {
  isfile : string -> bool;
  isdir : string -> bool;
  getsize : string -> option Z;
  abspath : string -> string;
  mtime : string -> string -> string;
  ctime : string -> string -> string;
  realpath : string -> string;
  walk : string -> list (string * list string * list string);
  chdir : string -> bool;
  isfile_unicode : string -> result bool;
  abspath_unicode : string -> result string;
  print_unicode : string -> result unit
}.

(** [os.chdir(p)] returns: the empty path names no folder. *)
Definition enters (env : OS) (p : string) : bool :=
  negb (String.eqb p "") && chdir env p.

(** [path.isfile(u)] for a [unicode] object: an ASCII name is encoded to
    the byte string of the same codes. *)
Definition isfile_u (env : OS) (u : string) : result bool :=
  if is_ascii u then Ok (isfile env u) else isfile_unicode env u.

(** [path.abspath(t)]. *)
Definition abspath_text (env : OS) (t : text) : result string :=
  match t with
  | Bytes p => Ok (abspath env p)
  | Unicode u => if is_ascii u then Ok (abspath env u) else abspath_unicode env u
  end.

(** [print t]: a byte string is written as it is. *)
Definition print_text (env : OS) (t : text) : result unit :=
  match t with
  | Bytes _ => Ok tt
  | Unicode u => if is_ascii u then Ok tt else print_unicode env u
  end.

End os.

(** Access to an attribute or method of a handle that may be [None]. *)
Definition attr {S A : Type} (o : option A) : M S A :=
  match o with
  | Some a => ret a
  | None => raise AttributeError
  end.

(** [l[i]] on a list or tuple. *)
Definition index {S A : Type} (l : list A) (i : nat) : M S A :=
  match l !! i with
  | Some a => ret a
  | None => raise IndexError
  end.

(** Reading a local variable that may not have been assigned. *)
Definition read_local {S A : Type} (v : option A) : M S A :=
  match v with
  | Some a => ret a
  | None => raise UnboundLocalError
  end.

(** [unicode(x)] where [x] is a localized text or [None]. *)
Definition unicode_text (o : option string) : string :=
  match o with
  | Some s => s
  | None => "None"
  end.

(** The table of category tests built by both readers, in source order:
    [[(srs.IsCompound(), txt.get('srs_comp')), ...]]. *)
Definition srsmetod (srs : gdal.SpatialReference) (txt : gmap string string)
    : list (Z * option string) :=
  [ (gdal.IsCompound srs, txt !! "srs_comp");
    (gdal.IsGeocentric srs, txt !! "srs_geoc");
    (gdal.IsGeographic srs, txt !! "srs_geog");
    (gdal.IsLocal srs, txt !! "srs_loca");
    (gdal.IsProjected srs, txt !! "srs_proj");
    (gdal.IsVertical srs, txt !! "srs_vert") ].

(** [for srsmet in srsmetod: if srsmet[0] == 1: typsrs = srsmet[1]
    else: continue].  The local [typsrs] is unbound ([None]) until an
    iteration assigns it; there is no [break]. *)
Definition srs_loop (table : list (Z * option string)) : option (option string) :=
  fold_left (fun typsrs srsmet => if (fst srsmet =? 1)%Z then Some (snd srsmet) else typsrs)
            table None.

(** The texts of the source's stand-alone test. *)
Definition textos : gmap string string :=
  <["srs_comp" := "Compound"]>
  (<["srs_geoc" := "Geocentric"]>
  (<["srs_geog" := "Geographic"]>
  (<["srs_loca" := "Local"]>
  (<["srs_proj" := "Projected"]>
  (<["srs_vert" := "Vertical"]>
  (<["geom_point" := "Point"]>
  (<["geom_ligne" := "Line"]>
  (<["geom_polyg" := "Polygon"]> ∅)))))))).

(* ===================================================================== *)
(** * modules/InfosGDAL.py: class InfosRasters *)
(* ===================================================================== *)

Module InfosGDAL.

(** The two dictionaries passed to the constructor and [self.alert]. *)
Record state : Type := {
  dico_raster : odict;
  dico_bands : odict;
  alert : Z
}.

Definition set_raster (k : string) (v : pyval) : M state unit :=
  modify (fun s => {| dico_raster := setitem k v (dico_raster s);
                      dico_bands := dico_bands s;
                      alert := alert s |}).

Definition set_band (k : string) (v : pyval) : M state unit :=
  modify (fun s => {| dico_raster := dico_raster s;
                      dico_bands := setitem k v (dico_bands s);
                      alert := alert s |}).

Definition set_alert (f : Z -> Z) : M state unit :=
  modify (fun s => {| dico_raster := dico_raster s;
                      dico_bands := dico_bands s;
                      alert := f (alert s) |}).

Section Reader.

Variable env : os.OS.
(** [self.rast], the answer of [gdal.Open]. *)
Variable rast : option gdal.Dataset.

Definition infos_basics (rasterpath : string) (txt : gmap string string)
    : M state unit :=
  set_raster "name" (VStr (posixpath.basename rasterpath)) ;;;
  set_raster "folder" (VStr (posixpath.dirname rasterpath)) ;;;
  set_raster "title"
    (VStr (capitalize (replace_char "_" " "
             (drop_last 4 (posixpath.basename rasterpath))))) ;;;
  let* ds := attr rast in
  set_raster "dependencies"
    (VList (map (fun f => VStr (posixpath.basename f))
                (filter (fun f => f <> rasterpath) (gdal.GetFileList ds)))) ;;;
  set_raster "compr_rate"
    (opt_val VStr (gdal.GetMetadata ds !! "COMPRESSION_RATE_TARGET")) ;;;
  set_raster "color_ref" (opt_val VStr (gdal.GetMetadata ds !! "COLORSPACE")) ;;;
  match gdal.GetMetadata ds !! "VERSION" with
  | Some (String c v) => set_raster "format_version" (VStr ("(v" ++ String c v ++ ")"))
  | _ => set_raster "format_version" (VStr "")
  end ;;;
  set_raster "num_cols" (VInt (gdal.RasterXSize ds)) ;;;
  set_raster "num_rows" (VInt (gdal.RasterYSize ds)) ;;;
  set_raster "num_bands" (VInt (gdal.RasterCount ds)) ;;;
  let* band1 := attr (gdal.GetRasterBand ds 1) in
  set_raster "data_type" (VStr (gdal.GetDataTypeName (gdal.DataType band1))) ;;;
  set_raster "date_actu" (VStr (os.mtime env "%Y-%m-%d" rasterpath)) ;;;
  set_raster "date_crea" (VStr (os.ctime env "%Y-%m-%d" rasterpath)).

(** The part of [infos_geom] that finds the category: the loop, then
    [unicode(typsrs)]. *)
Definition srs_type (srs : gdal.SpatialReference) (txt : gmap string string)
    : M state string :=
  let typsrs := srs_loop (srsmetod srs txt) in
  let* t := read_local typsrs in
  ret (unicode_text t).

Definition infos_geom (txt : gmap string string) : M state unit :=
  let* ds := attr rast in
  let geotransform := gdal.GetGeoTransform ds in
  let* g0 := index geotransform 0 in set_raster "xOrigin" (VFloat g0) ;;;
  let* g3 := index geotransform 3 in set_raster "yOrigin" (VFloat g3) ;;;
  let* g1 := index geotransform 1 in set_raster "pixelWidth" (VFloat g1) ;;;
  let* g5 := index geotransform 5 in set_raster "pixelHeight" (VFloat g5) ;;;
  let* g2 := index geotransform 2 in set_raster "orientation" (VFloat g2) ;;;
  let srs := gdal.GetSRS ds in
  let* t := srs_type srs txt in
  set_raster "srs_type" (VStr t) ;;;
  try_except
    (match gdal.GetAttrValue srs "PROJCS" 0 with
     | Some projcs =>
         let* u := lift (unicode projcs) in
         set_raster "srs" (VStr (replace_char "_" " " u))
     | None =>
         let* u := lift (unicode_opt (gdal.GetAttrValue srs "PROJECTION" 0)) in
         set_raster "srs" (VStr (replace_char "_" " " u))
     end)
    (fun e => match e with UnicodeDecodeError => true | _ => false end)
    (if bool_decide (gdal.GetAttrValue srs "PROJCS" 0 = Some "unnamed")
     then
       let* p := attr (gdal.GetAttrValue srs "PROJECTION" 0) in
       set_raster "srs" (VStr (replace_char "_" " " (decode_latin1 p)))
     else
       let* p := attr (gdal.GetAttrValue srs "PROJCS" 0) in
       set_raster "srs" (VStr (replace_char "_" " " (decode_latin1 p)))) ;;;
  let* epsg := lift (unicode_opt (gdal.GetAttrValue srs "AUTHORITY" 1)) in
  set_raster "EPSG" (VStr epsg).

Definition infos_bands (band : Z) : M state unit :=
  let* ds := attr rast in
  let* band_info := attr (gdal.GetRasterBand ds band) in
  set_band ("band" ++ pretty band ++ "_Min") (opt_val VFloat (gdal.GetMinimum band_info)) ;;;
  set_band ("band" ++ pretty band ++ "_Max") (opt_val VFloat (gdal.GetMaximum band_info)) ;;;
  set_band ("band" ++ pretty band ++ "_NoData")
    (opt_val VFloat (gdal.GetNoDataValue band_info)).

(** [range(1, dico_raster.get('num_bands'))]. *)
Definition band_range : M state (list Z) :=
  let* d := gets dico_raster in
  match get "num_bands" d with
  | Some (VInt n) => ret (range 1 n)
  | _ => raise TypeError
  end.

(** The constructor after [self.rast = gdal.Open(rasterpath, GA_ReadOnly)]. *)
Definition init_body (rasterpath tipo : string) (txt : gmap string string)
    : M state unit :=
  match rast with
  | None => set_alert (fun a => a + 1)
  | Some _ => ret tt
  end ;;;
  set_raster "format" (VStr tipo) ;;;
  infos_basics rasterpath txt ;;;
  infos_geom txt ;;;
  let* bands := band_range in
  for_each bands infos_bands.

End Reader.

(** [InfosRasters(rasterpath, dico_raster, dico_bands, tipo, text)]:
    [self.alert = 0], the call of [gdal.Open], then the body. *)
Definition __init__ (env : os.OS) (gdal_Open : gdal.opened gdal.Dataset)
    (rasterpath tipo : string) (txt : gmap string string) : M state unit :=
  set_alert (fun _ => 0) ;;;
  let* rast := lift (gdal.open_result gdal_Open) in
  init_body env rast rasterpath tipo txt.

(** [erratum(self, dicolayer, layerpath, mess)].  It reads [self.layer],
    an attribute that no method of the class assigns: [self_layer] is
    [None] on every instance the class itself builds. *)
Definition erratum (self_layer : option ogr.Layer) (layerpath : string)
    (mess : pyval) : M odict unit :=
  modify (setitem "name" (VStr (posixpath.basename layerpath))) ;;;
  modify (setitem "folder" (VStr (posixpath.dirname layerpath))) ;;;
  let* layer := attr self_layer in
  let def_couche := ogr.GetLayerDefn layer in
  modify (setitem "num_fields" (VInt (Z.of_nat (length def_couche)))) ;;;
  modify (setitem "error" mess).

End InfosGDAL.

(* ===================================================================== *)
(** * Size formatting shared by [ReadGeoPDF.sizeof] and [Utils.sizeof] *)
(* ===================================================================== *)

Module sizefmt.

(** Rounding to the nearest integer, ties to even. *)
Definition round_half_even (q : Q) : Z :=
  let n := Qnum q in
  let d := Z.pos (Qden q) in
  let fl := (n / d)%Z in
  match (2 * (n mod d) ?= d)%Z with
  | Lt => fl
  | Gt => (fl + 1)%Z
  | Eq => if Z.even fl then fl else (fl + 1)%Z
  end.

(** ["%3.1f" % q]. *)
Definition fmt_1f (q : Q) : string :=
  let t := round_half_even (q * 10) in
  (if (t <? 0)%Z then "-" else "") ++
  pretty (Z.abs t / 10)%Z ++ "." ++ pretty (Z.abs t mod 10)%Z.

(** The integer that the float nearest to the integer [n] denotes: [n]
    itself when it has at most 53 significant bits, else [n] rounded to 53
    significant bits, ties to the even mantissa.  (The sizes of files are
    far below 2^1023; the conversion overflows near 2^1024.) *)
Definition nearest_float (n : Z) : Z :=
  let a := Z.abs n in
  let e := Z.log2 a in
  if (e <? 53)%Z then n
  else
    let ulp := (2 ^ (e - 52))%Z in
    let q := (a / ulp)%Z in
    let r := (a mod ulp)%Z in
    let q' := match (2 * r ?= ulp)%Z with
              | Lt => q
              | Gt => (q + 1)%Z
              | Eq => if Z.even q then q else (q + 1)%Z
              end in
    (Z.sgn n * (q' * ulp))%Z.

(** The size in the loop: the integer that the caller passed, or the
    float that a division has made of it. *)
Inductive number : Type :=
| PyInt (n : Z)
| PyFloat (x : Q).

Definition value (size : number) : Q :=
  match size with
  | PyInt n => inject_Z n
  | PyFloat x => x
  end.

(** [float(size)]. *)
Definition float (size : number) : Q :=
  match size with
  | PyInt n => inject_Z (nearest_float n)
  | PyFloat x => x
  end.

(** The loop over the unit names: the size is compared with 1024.0 (the
    comparison of an integer with a float is exact) and printed as a
    float, or turned into a float and divided by 1024.0 (dividing a float
    by a power of two is exact). *)
Fixpoint prettify (units : list string) (size : number) : string :=
  match units with
  | [] => fmt_1f (float size) ++ " " ++ " To"
  | size_cat :: units' =>
      if negb (Qle_bool 1024 (value size))
      then fmt_1f (float size) ++ " " ++ size_cat
      else prettify units' (PyFloat (float size / 1024))
  end.

Definition units : list string := ["octets"; "Ko"; "Mo"; "Go"].

(** [sum([path.getsize(f) for f in files])]: [os.error] as soon as one size
    cannot be read. *)
Fixpoint sum_sizes (getsize : string -> option Z) (files : list string)
    : result Z :=
  match files with
  | [] => Ok 0%Z
  | f :: files' =>
      match getsize f with
      | None => Raise OSError
      | Some n =>
          match sum_sizes getsize files' with
          | Ok t => Ok (n + t)%Z
          | Raise e => Raise e
          end
      end
  end.

End sizefmt.

(* ===================================================================== *)
(** * modules/georeaders/Infos_GeoPDF.py: class ReadGeoPDF *)
(* ===================================================================== *)

Module Infos_GeoPDF.

(** Calls of the native library that open a view of the file. *)
Inductive call : Type :=
| gdal_Open (p : string)
| ogr_Open (p : string).

(** The dictionary passed to the constructor, [self.alert], and the opens
    performed so far. *)
Record state : Type := {
  dico_geopdf : odict;
  alert : Z;
  calls : list call
}.

Definition set_pdf (k : string) (v : pyval) : M state unit :=
  modify (fun s => {| dico_geopdf := setitem k v (dico_geopdf s);
                      alert := alert s;
                      calls := calls s |}).

Definition set_alert (f : Z -> Z) : M state unit :=
  modify (fun s => {| dico_geopdf := dico_geopdf s;
                      alert := f (alert s);
                      calls := calls s |}).

Definition log_call (c : call) : M state unit :=
  modify (fun s => {| dico_geopdf := dico_geopdf s;
                      alert := alert s;
                      calls := calls s ++ [c] |}).

(** A statement on a dictionary created for it ([dico_band = OrderedDict()],
    [dico_layer = OrderedDict()]): it answers the filled dictionary. *)
Definition on_fresh_dict {S : Type} (m : M odict unit) : M S odict :=
  fun s => match m [] with
           | (Ok _, d) => (Ok d, s)
           | (Raise e, _) => (Raise e, s)
           end.

(** [erratum(self, dico_geopdf, pdfpath, mess)] on the dictionary. *)
Definition erratum_dict (pdfpath : string) (mess : pyval) (d : odict) : odict :=
  setitem "error" mess
    (setitem "folder" (VStr (posixpath.dirname pdfpath))
       (setitem "name" (VStr (posixpath.basename pdfpath)) d)).

Definition erratum (pdfpath : string) (mess : pyval) : M state unit :=
  set_pdf "name" (VStr (posixpath.basename pdfpath)) ;;;
  set_pdf "folder" (VStr (posixpath.dirname pdfpath)) ;;;
  set_pdf "error" mess.

(** [sizeof(self, os_size)]. *)
Definition sizeof (os_size : Z) : string :=
  sizefmt.prettify sizefmt.units (sizefmt.PyInt os_size).

Section Reader.

(** Python's [round(x, ndigits)] on floats. *)
Variable round : Q -> Z -> Q.
Variable env : os.OS.

Definition raster_basics (geopdf : gdal.Dataset) (pdfpath : string)
    (txt : gmap string string) : M state unit :=
  set_pdf "name" (VStr (posixpath.basename pdfpath)) ;;;
  set_pdf "folder" (VStr (posixpath.dirname pdfpath)) ;;;
  (* the byte string is decoded before the replacement by literals that
     are unicode *)
  let* name := lift (unicode (drop_last 4 (posixpath.basename pdfpath))) in
  set_pdf "title" (VStr (capitalize (replace_char "_" " " name))) ;;;
  let dependencies :=
    map posixpath.basename
        (filter (fun f => f <> pdfpath) (gdal.GetFileList geopdf)) in
  set_pdf "dependencies" (VList (map VStr dependencies)) ;;;
  (* dependencies.append(pdfpath): the dictionary holds the same list *)
  set_pdf "dependencies" (VList (map VStr (dependencies ++ [pdfpath])%list)) ;;;
  let* total_size :=
    lift (sizefmt.sum_sizes (os.getsize env) (dependencies ++ [pdfpath])%list) in
  set_pdf "total_size" (VStr (sizeof total_size)) ;;;
  (* dependencies.pop(-1) *)
  set_pdf "dependencies" (VList (map VStr dependencies)) ;;;
  let geopdf_MD := gdal.GetMetadata geopdf in
  set_pdf "title" (opt_val VStr (geopdf_MD !! "TITLE")) ;;;
  let* creator := lift (unicode_opt (geopdf_MD !! "CREATOR")) in
  let* producer := lift (unicode_opt (geopdf_MD !! "PRODUCER")) in
  set_pdf "creator_prod" (VStr (creator ++ " - " ++ producer)) ;;;
  set_pdf "keywords" (opt_val VStr (geopdf_MD !! "KEYWORDS")) ;;;
  set_pdf "dpi" (opt_val VStr (geopdf_MD !! "DPI")) ;;;
  set_pdf "subject" (opt_val VStr (geopdf_MD !! "SUBJECT")) ;;;
  set_pdf "neatline" (opt_val VStr (geopdf_MD !! "NEATLINE")) ;;;
  set_pdf "description" (VStr (gdal.GetDescription geopdf)) ;;;
  let* creadate :=
    match geopdf_MD !! "CREATION_DATE" with
    | Some c => ret c
    | None => raise TypeError
    end in
  let* dd := lift (unicode (slice 8 10 creadate)) in
  let* mm := lift (unicode (slice 6 8 creadate)) in
  let* yy := lift (unicode (slice 2 6 creadate)) in
  set_pdf "date_crea" (VStr (dd ++ "/" ++ mm ++ "/" ++ yy)) ;;;
  set_pdf "num_cols" (VInt (gdal.RasterXSize geopdf)) ;;;
  set_pdf "num_rows" (VInt (gdal.RasterYSize geopdf)) ;;;
  set_pdf "num_bands" (VInt (gdal.RasterCount geopdf)) ;;;
  let* band1 := attr (gdal.GetRasterBand geopdf 1) in
  set_pdf "data_type" (VStr (gdal.GetDataTypeName (gdal.DataType band1))) ;;;
  set_pdf "subdatasets_count"
    (VInt (Z.of_nat (length (gdal.GetSubDatasets geopdf)))) ;;;
  set_pdf "gcp_count" (VInt (gdal.GetGCPCount geopdf)) ;;;
  set_pdf "date_actu" (VStr (os.mtime env "%d/%m/%Y" pdfpath)).

(** The part of [infos_geom] that finds the category: the loop, then
    [unicode(typsrs)] guarded by [except UnboundLocalError]. *)
Definition srs_type (srs : gdal.SpatialReference) (txt : gmap string string)
    : M state string :=
  let typsrs := srs_loop (srsmetod srs txt) in
  try_except
    (let* t := read_local typsrs in ret (unicode_text t))
    (fun e => match e with UnboundLocalError => true | _ => false end)
    (let typsrs := txt !! "srs_nr" in ret (unicode_text typsrs)).

(** The name of the reference: [unicode(first).replace('_', ' ')] when
    the attribute [first] is present, the attribute PROJECTION otherwise;
    the [latin1] decoding when [unicode] fails. *)
Definition srs_name (srs : gdal.SpatialReference) (first : string)
    : M state unit :=
  try_except
    (match gdal.GetAttrValue srs first 0 with
     | Some v =>
         let* u := lift (unicode v) in
         set_pdf "srs" (VStr (replace_char "_" " " u))
     | None =>
         let* u := lift (unicode_opt (gdal.GetAttrValue srs "PROJECTION" 0)) in
         set_pdf "srs" (VStr (replace_char "_" " " u))
     end)
    (fun e => match e with UnicodeDecodeError => true | _ => false end)
    (if bool_decide (gdal.GetAttrValue srs first 0 = Some "unnamed")
     then
       let* p := attr (gdal.GetAttrValue srs "PROJECTION" 0) in
       set_pdf "srs" (VStr (replace_char "_" " " (decode_latin1 p)))
     else
       let* p := attr (gdal.GetAttrValue srs first 0) in
       set_pdf "srs" (VStr (replace_char "_" " " (decode_latin1 p)))).

Definition infos_geom (geopdf : gdal.Dataset) (txt : gmap string string)
    : M state unit :=
  let geotransform := gdal.GetGeoTransform geopdf in
  let* g0 := index geotransform 0 in set_pdf "xOrigin" (VFloat g0) ;;;
  let* g3 := index geotransform 3 in set_pdf "yOrigin" (VFloat g3) ;;;
  let* g1 := index geotransform 1 in set_pdf "pixelWidth" (VFloat (round g1 3)) ;;;
  let* g5 := index geotransform 5 in set_pdf "pixelHeight" (VFloat (round g5 3)) ;;;
  let* g2 := index geotransform 2 in set_pdf "orientation" (VFloat g2) ;;;
  let srs := gdal.GetSRS geopdf in
  let* t := srs_type srs txt in
  set_pdf "srs_type" (VStr t) ;;;
  (if (gdal.IsProjected srs =? 0)%Z
   then srs_name srs "GEOGCS"
   else srs_name srs "PROJCS") ;;;
  let* epsg := lift (unicode_opt (gdal.GetAttrValue srs "AUTHORITY" 1)) in
  set_pdf "EPSG" (VStr epsg).

(** [infos_bands(self, band, dico_bands)]: a failure while getting the
    statistics ends the method ([except: return]). *)
Definition infos_bands (geopdf : gdal.Dataset) (band : Z) : M odict unit :=
  let key := fun suffix => "band" ++ pretty band ++ suffix in
  match gdal.GetRasterBand geopdf band with
  | None => ret tt
  | Some band_info =>
      match gdal.GetStatistics band_info with
      | Raise _ => ret tt
      | Ok stats =>
          match stats with
          | [] => ret tt
          | _ :: _ =>
              match gdal.GetMinimum band_info with
              | None =>
                  let* s0 := index stats 0 in modify (setitem (key "_Min") (VFloat s0))
              | Some m => modify (setitem (key "_Min") (VFloat m))
              end ;;;
              match gdal.GetMinimum band_info with
              | None =>
                  let* s1 := index stats 1 in modify (setitem (key "_Max") (VFloat s1))
              | Some _ =>
                  modify (setitem (key "_Max") (opt_val VFloat (gdal.GetMaximum band_info)))
              end ;;;
              let* s2 := index stats 2 in
              modify (setitem (key "_Mean") (VFloat (round s2 2))) ;;;
              let* s3 := index stats 3 in
              modify (setitem (key "_Sdev") (VFloat (round s3 2)))
          end ;;;
          modify (setitem (key "_NoData") (opt_val VFloat (gdal.GetNoDataValue band_info))) ;;;
          modify (setitem (key "_Scale") (opt_val VFloat (gdal.GetScale band_info))) ;;;
          modify (setitem (key "_UnitType") (VStr (gdal.GetUnitType band_info))) ;;;
          match gdal.GetColorTable band_info with
          | None => modify (setitem (key "_CTabCount") (VInt 0))
          | Some count => modify (setitem (key "_CTabCount") (VInt count))
          end
      end
  end.

(** [infos_fields(self, layer_def, dico_fields)]. *)
Definition infos_fields (layer_def : list ogr.FieldDefn) : M odict unit :=
  for_each layer_def
    (fun champomy =>
       modify (setitem (ogr.fld_GetName champomy)
                       (VStr (ogr.fld_GetTypeName champomy)))).

(** [vector_basics(self, layer_obj, dico_layer, txt)]. *)
Definition vector_basics (layer_obj : ogr.Layer) (txt : gmap string string)
    : M odict unit :=
  try_except
    (let* u := lift (unicode (ogr.lyr_GetName layer_obj)) in
     modify (setitem "title" (VStr u)))
    (fun e => match e with UnicodeDecodeError => true | _ => false end)
    (modify (setitem "title" (VStr (decode_latin1 (ogr.lyr_GetName layer_obj))))) ;;;
  modify (setitem "num_obj" (VInt (ogr.GetFeatureCount layer_obj))) ;;;
  let layer_def := ogr.GetLayerDefn layer_obj in
  modify (setitem "num_fields" (VInt (Z.of_nat (length layer_def)))) ;;;
  let* dico_fields := on_fresh_dict (infos_fields layer_def) in
  modify (setitem "fields" (VDict dico_fields)).

(** The loop over the bands of the constructor. *)
Definition bands_loop (geopdf : gdal.Dataset) : M state unit :=
  for_each (range 1 (gdal.RasterCount geopdf))
    (fun band_idx =>
       let* dico_band := on_fresh_dict (infos_bands geopdf band_idx) in
       set_pdf ("band_" ++ pretty band_idx) (VDict dico_band)).

(** The loop over the layers of the constructor, with its locals
    [li_layers_names], [li_layers_idx], [total_fields] and [total_objs];
    the two lists are the objects stored in the dictionary. *)
Fixpoint layers_loop (geopdf_v : ogr.DataSource) (txt : gmap string string)
    (idxs : list Z) (li_layers_names li_layers_idx : list pyval)
    (total_fields total_objs : Z) : M state (Z * Z) :=
  match idxs with
  | [] => ret (total_fields, total_objs)
  | layer_idx :: idxs' =>
      let parent_name := posixpath.basename (ogr.ds_GetName geopdf_v) in
      let* layer := attr (ogr.GetLayerByIndex geopdf_v layer_idx) in
      let li_layers_names := (li_layers_names ++ [VStr (ogr.lyr_GetName layer)])%list in
      set_pdf "layers_names" (VList li_layers_names) ;;;
      let li_layers_idx := (li_layers_idx ++ [VInt layer_idx])%list in
      set_pdf "layers_idx" (VList li_layers_idx) ;;;
      let* dico_layer :=
        on_fresh_dict (modify (setitem "parent_name" (VStr parent_name)) ;;;
                       vector_basics layer txt) in
      let title := match get "title" dico_layer with
                   | Some (VStr t) => t
                   | _ => "None"
                   end in
      set_pdf (pretty layer_idx ++ "_" ++ title) (VDict dico_layer) ;;;
      let* nf := match get "num_fields" dico_layer with
                 | Some (VInt n) => ret n
                 | _ => raise TypeError
                 end in
      let* no := match get "num_obj" dico_layer with
                 | Some (VInt n) => ret n
                 | _ => raise TypeError
                 end in
      layers_loop geopdf_v txt idxs' li_layers_names li_layers_idx
                  (total_fields + nf) (total_objs + no)
  end.

(** The raster part of the constructor, once [self.geopdf] is a dataset.
    [err_gdal] is the state of the error handler read after it. *)
Definition raster_view (geopdf : gdal.Dataset) (pdfpath tipo : string)
    (txt : gmap string string) (err_gdal : pyval * pyval) : M state unit :=
  set_pdf "format" (VStr tipo) ;;;
  raster_basics geopdf pdfpath txt ;;;
  infos_geom geopdf txt ;;;
  bands_loop geopdf ;;;
  set_pdf "err_gdal" (VTuple [fst err_gdal; snd err_gdal]).

(** The vector part of the constructor: [ogr.Open] and the layers. *)
Definition vector_view (ogr_open : gdal.opened ogr.DataSource)
    (pdfpath : string) (txt : gmap string string) : M state unit :=
  log_call (ogr_Open pdfpath) ;;;
  match ogr_open with
  | gdal.OpenRaises =>
      erratum pdfpath (VStr "err_corrupt") ;;;
      set_alert (fun a => a + 1)
  | gdal.OpenNone => raise AttributeError
  | gdal.Opened geopdf_v =>
      set_pdf "layers_count" (VInt (ogr.GetLayerCount geopdf_v)) ;;;
      set_pdf "layers_names" (VList []) ;;;
      set_pdf "layers_idx" (VList []) ;;;
      set_pdf "total_fields" (VInt 0) ;;;
      set_pdf "total_objs" (VInt 0) ;;;
      let* totals :=
        layers_loop geopdf_v txt (range 0 (ogr.GetLayerCount geopdf_v))
                    [] [] 0 0 in
      set_pdf "total_fields" (VInt (fst totals)) ;;;
      set_pdf "total_objs" (VInt (snd totals))
  end.

(** [ReadGeoPDF(pdfpath, dico_geopdf, tipo, txt)].  The working
    directory is changed to the folder of the file first, and [abspath] is
    asked afterwards. *)
Definition __init__ (gdal_open : gdal.opened gdal.Dataset)
    (ogr_open : gdal.opened ogr.DataSource) (err_gdal : pyval * pyval)
    (pdfpath tipo : string) (txt : gmap string string) : M state unit :=
  (if os.enters env (posixpath.dirname pdfpath) then ret tt else raise OSError) ;;;
  let pdfpath := os.abspath env pdfpath in
  set_alert (fun _ => 0) ;;;
  log_call (gdal_Open pdfpath) ;;;
  match gdal_open with
  | gdal.OpenRaises =>
      set_alert (fun a => a + 1) ;;;
      erratum pdfpath (VStr "err_incomp")
  | gdal.OpenNone =>
      set_alert (fun a => a + 1) ;;;
      erratum pdfpath (VStr "err_incomp")
  | gdal.Opened geopdf =>
      raster_view geopdf pdfpath tipo txt err_gdal ;;;
      vector_view ogr_open pdfpath txt
  end.

End Reader.

End Infos_GeoPDF.

(* ===================================================================== *)
(** * modules/georeaders/geoutils.py: class Utils *)
(* ===================================================================== *)

Module geoutils.

Section Utils.

Variable env : os.OS.

(** The files below a directory that [isfile] accepts, as the two nested
    loops of [sizeof] visit them. *)
Definition walked_files (top : string) : list string :=
  flat_map (fun chemins =>
              filter (fun chem_complete => os.isfile env chem_complete = true)
                     (map (posixpath.join (fst (fst chemins))) (snd chemins)))
           (os.walk env (os.realpath env top)).

(** [sizeof(self, source_path, dependencies)].  The state is the list
    object bound to [dependencies]: the caller's list, or the default list
    of the function, which every call without that argument shares. *)
Definition sizeof (source_path : string) : M (list string) (option string) :=
  if os.isfile env source_path then
    (* dependencies.append(source_path) *)
    modify (fun dependencies => (dependencies ++ [source_path])%list) ;;;
    let* dependencies := gets (fun d => d) in
    let* total_size := lift (sizefmt.sum_sizes (os.getsize env) dependencies) in
    (* dependencies.pop(-1) *)
    modify (fun dependencies => removelast dependencies) ;;;
    ret (Some (sizefmt.prettify sizefmt.units (sizefmt.PyInt total_size)))
  else if os.isdir env source_path then
    let* total_size :=
      lift (sizefmt.sum_sizes (os.getsize env) (walked_files source_path)) in
    ret (Some (sizefmt.prettify sizefmt.units (sizefmt.PyInt total_size)))
  else ret None.

End Utils.

(** [erratum(self, ctner, src, ds_lyr, mess_type, mess)]; [ds_type] is
    [self.ds_type].  It answers the container, or [None] for a type that is
    neither "flat" nor "postgis". *)
Definition erratum (ds_type : string) (src : string) (mess_type mess : pyval)
    : M odict bool :=
  if String.eqb ds_type "flat" then
    modify (setitem "name" (VStr (posixpath.basename src))) ;;;
    modify (setitem "folder" (VStr (posixpath.dirname src))) ;;;
    modify (setitem "error" mess) ;;;
    ret true
  else if String.eqb ds_type "postgis" then
    modify (setitem "name" mess_type) ;;;
    modify (setitem "error" mess) ;;;
    ret true
  else ret false.

End geoutils.

(* ===================================================================== *)
(** * DicoShapes.py: method ligeofiles *)
(* ===================================================================== *)

Module DicoShapes.

(** [self.li_shp] and [self.li_tab]: lists when the window is built,
    tuples once [ligeofiles] has run. *)
Record state : Type := {
  li_shp : pyseq;
  li_tab : pyseq
}.

(** The attributes as [__init__] sets them. *)
Definition fresh : state := {| li_shp := PyList []; li_tab := PyList [] |}.

(** The two lists of files. *)
Inductive kind : Type := Shp | Tab.

#[global] Instance kind_eq_dec : EqDecision kind.
Proof. solve_decision. Defined.

Definition append_shp (p : string) : M state unit :=
  fun s => match seq_append p (li_shp s) with
           | Ok l => (Ok tt, {| li_shp := l; li_tab := li_tab s |})
           | Raise e => (Raise e, s)
           end.

Definition append_tab (p : string) : M state unit :=
  fun s => match seq_append p (li_tab s) with
           | Ok l => (Ok tt, {| li_shp := li_shp s; li_tab := l |})
           | Raise e => (Raise e, s)
           end.

Definition sort_shp : M state unit :=
  fun s => match seq_sort (li_shp s) with
           | Ok l => (Ok tt, {| li_shp := tuple l; li_tab := li_tab s |})
           | Raise e => (Raise e, s)
           end.

Definition sort_tab : M state unit :=
  fun s => match seq_sort (li_tab s) with
           | Ok l => (Ok tt, {| li_shp := li_shp s; li_tab := tuple l |})
           | Raise e => (Raise e, s)
           end.

Section Classifier.

Variable env : os.OS.

(** [path.isfile(p[:-4] + ext)] for the byte string [p] and the
    [unicode] literal [ext]: the sum is a [unicode] object, made by decoding
    the byte string. *)
Definition companion (p ext : string) : result bool :=
  match unicode (drop_last 4 p) with
  | Ok base => os.isfile_u env (base ++ ext)
  | Raise e => Raise e
  end.

(** The test of the first branch. *)
Definition is_shp (p : string) : result bool :=
  and_then (Ok (String.eqb (snd (posixpath.splitext p)) ".shp"))
    (and_then (companion p ".dbf")
       (and_then (companion p ".shx") (companion p ".prj"))).

(** The test of the second branch. *)
Definition is_tab (p : string) : result bool :=
  and_then (Ok (String.eqb (snd (posixpath.splitext p)) ".tab"))
    (and_then (companion p ".dat")
       (and_then (companion p ".map") (companion p ".id"))).

(** The chain [if ... elif ...] on one file: the list the file goes to,
    if any. *)
Definition classify (p : string) : result (option kind) :=
  match is_shp p with
  | Raise e => Raise e
  | Ok true => Ok (Some Shp)
  | Ok false =>
      match is_tab p with
      | Raise e => Raise e
      | Ok true => Ok (Some Tab)
      | Ok false => Ok None
      end
  end.

(** The body of [for i in files]. *)
Definition file_step (root i : string) : M state unit :=
  let* k := lift (classify (posixpath.join root i)) in
  match k with
  | Some Shp => append_shp (posixpath.join root i)
  | Some Tab => append_tab (posixpath.join root i)
  | None => ret tt
  end.

Definition ligeofiles (foldertarget : string) : M state unit :=
  for_each (os.walk env foldertarget)
    (fun triple => for_each (snd triple) (file_step (fst (fst triple)))) ;;;
  sort_shp ;;;
  sort_tab.

End Classifier.

End DicoShapes.

(* ===================================================================== *)
(** * DicoGIS.py: method ligeofiles *)
(* ===================================================================== *)

Module DicoGIS.

(** The attributes [ligeofiles] reads or writes, and [self.dico_err]. *)
Record state : Type := {
  li_shp : pyseq;
  li_tab : pyseq;
  li_kml : pyseq;
  li_gml : pyseq;
  li_geoj : pyseq;
  li_raster : pyseq;
  li_gdb : pyseq;
  num_folders : Z;
  dico_err : odict
}.

(** The attributes as [__init__] sets them. *)
Definition fresh : state :=
  {| li_shp := PyList []; li_tab := PyList []; li_kml := PyList [];
     li_gml := PyList []; li_geoj := PyList []; li_raster := PyList [];
     li_gdb := PyList []; num_folders := 0; dico_err := [] |}.

(** [self.li_raster_formats]. *)
Definition li_raster_formats : list string := [".ecw"; ".tif"; ".jp2"].

(** The six per-format lists of files. *)
Inductive fmt : Type := Shp | Tab | Kml | Gml | Geoj | Raster.

#[global] Instance fmt_eq_dec : EqDecision fmt.
Proof. solve_decision. Defined.

Definition get_li (f : fmt) (s : state) : pyseq :=
  match f with
  | Shp => li_shp s
  | Tab => li_tab s
  | Kml => li_kml s
  | Gml => li_gml s
  | Geoj => li_geoj s
  | Raster => li_raster s
  end.

Definition set_li (f : fmt) (l : pyseq) (s : state) : state :=
  {| li_shp := match f with Shp => l | _ => li_shp s end;
     li_tab := match f with Tab => l | _ => li_tab s end;
     li_kml := match f with Kml => l | _ => li_kml s end;
     li_gml := match f with Gml => l | _ => li_gml s end;
     li_geoj := match f with Geoj => l | _ => li_geoj s end;
     li_raster := match f with Raster => l | _ => li_raster s end;
     li_gdb := li_gdb s;
     num_folders := num_folders s;
     dico_err := dico_err s |}.

(** [self.li_x.append(p)]. *)
Definition append_li (f : fmt) (p : string) : M state unit :=
  fun s => match seq_append p (get_li f s) with
           | Ok l => (Ok tt, set_li f l s)
           | Raise e => (Raise e, s)
           end.

(** [self.li_x.sort(); self.li_x = tuple(self.li_x)]. *)
Definition sort_li (f : fmt) : M state unit :=
  fun s => match seq_sort (get_li f s) with
           | Ok l => (Ok tt, set_li f (tuple l) s)
           | Raise e => (Raise e, s)
           end.

Definition append_gdb (p : string) : M state unit :=
  fun s => match seq_append p (li_gdb s) with
           | Ok l =>
               (Ok tt,
                {| li_shp := li_shp s; li_tab := li_tab s; li_kml := li_kml s;
                   li_gml := li_gml s; li_geoj := li_geoj s;
                   li_raster := li_raster s; li_gdb := l;
                   num_folders := num_folders s; dico_err := dico_err s |})
           | Raise e => (Raise e, s)
           end.

Definition add_folders (n : Z) : M state unit :=
  modify (fun s =>
            {| li_shp := li_shp s; li_tab := li_tab s; li_kml := li_kml s;
               li_gml := li_gml s; li_geoj := li_geoj s;
               li_raster := li_raster s; li_gdb := li_gdb s;
               num_folders := num_folders s + n; dico_err := dico_err s |}).

(** The six assignments that open the method; [self.li_gdb] and
    [self.num_folders] are not among them. *)
Definition reset : M state unit :=
  modify (fun s =>
            {| li_shp := PyList []; li_tab := PyList []; li_kml := PyList [];
               li_gml := PyList []; li_geoj := PyList []; li_raster := PyList [];
               li_gdb := li_gdb s; num_folders := num_folders s;
               dico_err := dico_err s |}).

Section Classifier.

Variable env : os.OS.

(** [try: unicode(path.join(root, f)); full_path = path.join(root, f)
    except UnicodeDecodeError, e:
      full_path = path.join(root, f.decode('latin1'));
      print unicode(full_path), e].
    The names [root] and [f] are byte strings.  In the handler the decoded
    name is a [unicode] object, and joining it to [root] decodes [root]
    with the ASCII codec: the exception that this raises, or that [print]
    raises, leaves the method. *)
Definition full_path (root f : string) : M state text :=
  try_except
    (lift (unicode (posixpath.join root f)) ;;;
     ret (Bytes (posixpath.join root f)))
    (fun e => match e with UnicodeDecodeError => true | _ => false end)
    (let* full_path := lift (posixpath.join_unicode root (decode_latin1 f)) in
     lift (os.print_text env (Unicode full_path)) ;;;
     ret (Unicode full_path)).

(** [t[-4:]]. *)
Definition last4 (t : text) : text :=
  match t with
  | Bytes c => Bytes (substring (String.length c - 4) 4 c)
  | Unicode c => Unicode (substring (String.length c - 4) 4 c)
  end.

(** [path.splitext(t)[1]]. *)
Definition ext (t : text) : text :=
  match t with
  | Bytes c => Bytes (snd (posixpath.splitext c))
  | Unicode c => Unicode (snd (posixpath.splitext c))
  end.

(** [full_path[:-4]] as the [unicode] object that ['%s.dbf' % full_path[:-4]]
    and [full_path[:-4] + '.dat'] make of it: a byte string is decoded
    with the ASCII codec. *)
Definition base (t : text) : result string :=
  match t with
  | Bytes c => unicode (drop_last 4 c)
  | Unicode c => Ok (drop_last 4 c)
  end.

(** [isfile(base + '.ext') or isfile(base + '.EXT')]. *)
Definition sidecar (t : text) (lo up : string) : result bool :=
  match base t with
  | Ok b => or_else (os.isfile_u env (b ++ lo)) (os.isfile_u env (b ++ up))
  | Raise e => Raise e
  end.

Definition is_shp (t : text) : result bool :=
  and_then (Ok (eq_literal (lowered (ext (lowered t))) ".shp"))
    (and_then (sidecar t ".dbf" ".DBF")
       (and_then (sidecar t ".shx" ".SHX") (sidecar t ".prj" ".PRJ"))).

Definition is_tab (t : text) : result bool :=
  and_then (Ok (eq_literal (ext (lowered t)) ".tab"))
    (and_then (sidecar t ".dat" ".DAT")
       (and_then (sidecar t ".map" ".MAP") (sidecar t ".id" ".ID"))).

(** The chain [if ... elif ... else: continue] on one file: the list the
    file goes to, if any. *)
Definition classify (t : text) : result (option fmt) :=
  match is_shp t with
  | Raise e => Raise e
  | Ok true => Ok (Some Shp)
  | Ok false =>
      match is_tab t with
      | Raise e => Raise e
      | Ok true => Ok (Some Tab)
      | Ok false =>
          Ok (if eq_literal (ext (lowered t)) ".kml" then Some Kml
              else if eq_literal (ext (lowered t)) ".gml" then Some Gml
              else if eq_literal (ext (lowered t)) ".geojson" then Some Geoj
              else if bool_decide (codes (ext (lowered t)) ∈ li_raster_formats)
                   then Some Raster
              else None)
      end
  end.

(** The body of [for d in dirs]. *)
Definition dir_step (root d : string) : M state unit :=
  let* full_path := full_path root d in
  if eq_literal (lowered (last4 full_path)) ".gdb"
  then
    let* absolute := lift (os.abspath_text env full_path) in
    append_gdb absolute ;;;
    lift (os.print_text env full_path)
  else ret tt.

(** The body of [for f in files]; a list holds the codes of the path it
    is given, byte string or [unicode] object.  A byte string that gets
    there is in ASCII, so that [sort] compares it with a [unicode] object
    by the codes, without raising. *)
Definition file_step (root f : string) : M state unit :=
  let* full_path := full_path root f in
  let* fm := lift (classify full_path) in
  match fm with
  | Some fm => append_li fm (codes full_path)
  | None => ret tt
  end.

Definition ligeofiles (foldertarget : string) : M state unit :=
  reset ;;;
  for_each (os.walk env foldertarget)
    (fun triple =>
       let root := fst (fst triple) in
       let dirs := snd (fst triple) in
       let files := snd triple in
       add_folders (Z.of_nat (length dirs)) ;;;
       for_each dirs (dir_step root) ;;;
       for_each files (file_step root)) ;;;
  sort_li Shp ;;;
  sort_li Tab ;;;
  sort_li Raster ;;;
  sort_li Kml ;;;
  sort_li Gml ;;;
  sort_li Geoj.

End Classifier.

End DicoGIS.

(* ===================================================================== *)
(** * Vocabulary of the statements *)
(* ===================================================================== *)

Module Srs.

(** The six categories, and the key of the localized text of each. *)
Inductive category : Type :=
| Compound | Geocentric | Geographic | Local | Projected | Vertical.

(** The order in which both readers list the tests. *)
Definition priority : list category :=
  [Compound; Geocentric; Geographic; Local; Projected; Vertical].

Definition srs_key (c : category) : string :=
  match c with
  | Compound => "srs_comp"
  | Geocentric => "srs_geoc"
  | Geographic => "srs_geog"
  | Local => "srs_loca"
  | Projected => "srs_proj"
  | Vertical => "srs_vert"
  end.

Definition flag (srs : gdal.SpatialReference) (c : category) : Z :=
  match c with
  | Compound => gdal.IsCompound srs
  | Geocentric => gdal.IsGeocentric srs
  | Geographic => gdal.IsGeographic srs
  | Local => gdal.IsLocal srs
  | Projected => gdal.IsProjected srs
  | Vertical => gdal.IsVertical srs
  end.

(** A reference matches a category when the test answers 1. *)
Definition matches (srs : gdal.SpatialReference) (c : category) : bool :=
  (flag srs c =? 1)%Z.

Definition matching (srs : gdal.SpatialReference) : list category :=
  List.filter (matches srs) priority.

(** The earliest matching category in the priority order. *)
Definition first_matching (srs : gdal.SpatialReference) : option category :=
  head (matching srs).

(** The latest matching category in the priority order. *)
Definition last_matching (srs : gdal.SpatialReference) : option category :=
  last (matching srs).

End Srs.

Module Walk.

(** The full paths of the files a traversal enumerates, in its order. *)
Definition paths (env : os.OS) (top : string) : list string :=
  flat_map (fun triple => map (posixpath.join (fst (fst triple))) (snd triple))
           (os.walk env top).

(** A sidecar in the wording of the specification: some file whose name is
    the base name followed by a letter-case variant of the extension. *)
Definition sidecar_any_case (env : os.OS) (base ext : string) : Prop :=
  exists variant, lower variant = ext /\ os.isfile env (base ++ variant) = true.

(** The three sidecars of a shapefile in the wording of the
    specification: each extension in any letter case. *)
Definition sidecars_any_case (env : os.OS) (p : string) : Prop :=
  sidecar_any_case env (drop_last 4 p) ".dbf"
  /\ sidecar_any_case env (drop_last 4 p) ".shx"
  /\ sidecar_any_case env (drop_last 4 p) ".prj".

(** The three sidecars as [DicoGIS.ligeofiles] looks for them: each
    extension all in lower case or all in upper case. *)
Definition sidecars_lower_or_upper (env : os.OS) (p : string) : Prop :=
  (os.isfile env (drop_last 4 p ++ ".dbf") = true
   \/ os.isfile env (drop_last 4 p ++ ".DBF") = true)
  /\ (os.isfile env (drop_last 4 p ++ ".shx") = true
      \/ os.isfile env (drop_last 4 p ++ ".SHX") = true)
  /\ (os.isfile env (drop_last 4 p ++ ".prj") = true
      \/ os.isfile env (drop_last 4 p ++ ".PRJ") = true).

(** The three sidecars as [DicoShapes.ligeofiles] looks for them: each
    extension in lower case. *)
Definition sidecars_lower (env : os.OS) (p : string) : Prop :=
  os.isfile env (drop_last 4 p ++ ".dbf") = true
  /\ os.isfile env (drop_last 4 p ++ ".shx") = true
  /\ os.isfile env (drop_last 4 p ++ ".prj") = true.

(** The extension of a path is [.shp], letter case ignored. *)
Definition shp_extension (p : string) : Prop :=
  lower (snd (posixpath.splitext (lower p))) = ".shp".

(** [l] lists the members of [candidates] that satisfy [qualifies], each
    exactly once, in ascending order. *)
Definition sorted_once (candidates : list string) (qualifies : string -> bool)
    (l : list string) : Prop :=
  Sorted str_le l
  /\ (forall p, p ∈ candidates -> qualifies p = true ->
                count_occ string_dec l p = 1%nat)
  /\ (forall p, p ∈ l -> p ∈ candidates /\ qualifies p = true).

(** [q] is still a list, not yet a tuple. *)
Definition is_list (q : pyseq) : Prop := exists l, q = PyList l.

(** Every name of the traversal is in ASCII: the folders, and the names
    of the sub-folders and of the files listed in them. *)
Definition ascii_tree (env : os.OS) (top : string) : bool :=
  forallb (fun triple =>
             is_ascii (fst (fst triple))
             && forallb is_ascii (snd (fst triple))
             && forallb is_ascii (snd triple))
          (os.walk env top).

(** One of two spellings of a companion exists beside the file. *)
Definition beside (env : os.OS) (p lo up : string) : bool :=
  os.isfile env (drop_last 4 p ++ lo) || os.isfile env (drop_last 4 p ++ up).

(** A file is a candidate of a format of the main program: by the
    extension of its lower-cased path and, for a shapefile and for a MapInfo
    table, by three companions whose extension is all in lower case or all
    in upper case. *)
Definition qualifies (env : os.OS) (fm : DicoGIS.fmt) (p : string) : bool :=
  let extension := snd (posixpath.splitext (lower p)) in
  match fm with
  | DicoGIS.Shp =>
      String.eqb (lower extension) ".shp"
      && beside env p ".dbf" ".DBF"
      && beside env p ".shx" ".SHX"
      && beside env p ".prj" ".PRJ"
  | DicoGIS.Tab =>
      String.eqb extension ".tab"
      && beside env p ".dat" ".DAT"
      && beside env p ".map" ".MAP"
      && beside env p ".id" ".ID"
  | DicoGIS.Kml => String.eqb extension ".kml"
  | DicoGIS.Gml => String.eqb extension ".gml"
  | DicoGIS.Geoj => String.eqb extension ".geojson"
  | DicoGIS.Raster => bool_decide (extension ∈ [".ecw"; ".tif"; ".jp2"])
  end.

(** The first format, in the order of the chain of tests, of which a
    file is a candidate. *)
Definition format_of (env : os.OS) (p : string) : option DicoGIS.fmt :=
  List.find (fun fm => qualifies env fm p)
            [DicoGIS.Shp; DicoGIS.Tab; DicoGIS.Kml; DicoGIS.Gml; DicoGIS.Geoj;
             DicoGIS.Raster].

(** The text that [DicoGIS.ligeofiles] makes of a full path: the byte
    string itself when it is in ASCII, else its [latin1] decoding. *)
Definition text_of (p : string) : text :=
  if is_ascii p then Bytes p else Unicode p.

(** The files of a list that are candidates of the format [fm]. *)
Definition select (env : os.OS) (fm : DicoGIS.fmt) (ps : list string)
    : list string :=
  filter (fun p => format_of env p = Some fm) ps.

(** A file is a candidate of one of the two lists of the stand-alone
    program: by the extension of its path as it is spelled, and by three
    companions whose extension is in lower case. *)
Definition qualifies_shapes (env : os.OS) (k : DicoShapes.kind) (p : string)
    : bool :=
  match k with
  | DicoShapes.Shp =>
      String.eqb (snd (posixpath.splitext p)) ".shp"
      && os.isfile env (drop_last 4 p ++ ".dbf")
      && os.isfile env (drop_last 4 p ++ ".shx")
      && os.isfile env (drop_last 4 p ++ ".prj")
  | DicoShapes.Tab =>
      String.eqb (snd (posixpath.splitext p)) ".tab"
      && os.isfile env (drop_last 4 p ++ ".dat")
      && os.isfile env (drop_last 4 p ++ ".map")
      && os.isfile env (drop_last 4 p ++ ".id")
  end.

Definition kind_of (env : os.OS) (p : string) : option DicoShapes.kind :=
  List.find (fun k => qualifies_shapes env k p) [DicoShapes.Shp; DicoShapes.Tab].

Definition select_kind (env : os.OS) (k : DicoShapes.kind) (ps : list string)
    : list string :=
  filter (fun p => kind_of env p = Some k) ps.

(** The lists of a [DicoGIS] state are lists. *)
Definition lists_ok (s : DicoGIS.state) : Prop :=
  (forall fm, is_list (DicoGIS.get_li fm s)) /\ is_list (DicoGIS.li_gdb s).

(** From [s] to [s'], each per-format list has received the files of [ps]
    of its format, in order, and the record of errors is untouched. *)
Definition adds (env : os.OS) (ps : list string) (s s' : DicoGIS.state)
    : Prop :=
  (forall fm, DicoGIS.get_li fm s'
              = PyList (items (DicoGIS.get_li fm s) ++ select env fm ps))
  /\ is_list (DicoGIS.li_gdb s')
  /\ DicoGIS.dico_err s' = DicoGIS.dico_err s.

End Walk.

(* ===================================================================== *)
(** * Sample resources *)
(* ===================================================================== *)

Module Samples.

(** A file system given by the sizes of its regular files and by the
    triples of its walk: the folders that can be entered are those of the
    files and those walked, and neither the file system nor the standard
    output has an encoding for characters outside ASCII. *)
Definition env_of (files : list (string * Z))
    (tree : list (string * list string * list string)) : os.OS :=
  {| os.isfile := fun p => bool_decide (p ∈ map fst files);
     os.isdir := fun p => bool_decide (p ∈ map (fun t => fst (fst t)) tree);
     os.getsize := fun p => snd <$> List.find (fun kv => String.eqb (fst kv) p) files;
     os.abspath := fun p => p;
     os.mtime := fun _ _ => "2014-05-28";
     os.ctime := fun _ _ => "2014-02-18";
     os.realpath := fun p => p;
     os.walk := fun _ => tree;
     os.chdir := fun p =>
       bool_decide (p ∈ (map (fun kv => posixpath.dirname (fst kv)) files
                           ++ map (fun t => fst (fst t)) tree)%list);
     os.isfile_unicode := fun _ => Raise UnicodeEncodeError;
     os.abspath_unicode := fun p => Ok p;
     os.print_unicode := fun _ => Raise UnicodeEncodeError |}.

Definition srs_of (comp geoc geog loca proj vert : Z) : gdal.SpatialReference :=
  {| gdal.IsCompound := comp; gdal.IsGeocentric := geoc;
     gdal.IsGeographic := geog; gdal.IsLocal := loca;
     gdal.IsProjected := proj; gdal.IsVertical := vert;
     gdal.GetAttrValue := fun name child =>
       if String.eqb name "PROJCS" then Some "RGF93_Lambert_93"
       else if String.eqb name "GEOGCS" then Some "RGF93"
       else if String.eqb name "AUTHORITY" then Some "2154"
       else None |}.

(** A projected reference, one flagged both geographic and projected, and
    one that matches no category. *)
Definition srs_projected : gdal.SpatialReference := srs_of 0 0 0 0 1 0.
Definition srs_geog_proj : gdal.SpatialReference := srs_of 0 0 1 0 1 0.
Definition srs_none : gdal.SpatialReference := srs_of 0 0 0 0 0 0.

Definition band_byte : gdal.Band :=
  {| gdal.DataType := 1;
     gdal.GetMinimum := Some (0 # 1);
     gdal.GetMaximum := Some (255 # 1);
     gdal.GetNoDataValue := None;
     gdal.GetStatistics := Ok [0 # 1; 255 # 1; 127 # 1; 12 # 1];
     gdal.GetScale := Some (1 # 1);
     gdal.GetUnitType := "";
     gdal.GetColorTable := None |}.

(** A dataset with [n] bands of the same kind. *)
Definition dataset (path : string) (n : Z) (srs : gdal.SpatialReference)
    : gdal.Dataset :=
  {| gdal.GetFileList := [path];
     gdal.GetMetadata := <["CREATION_DATE" := "D:20160408101500"]> ∅;
     gdal.GetDescription := path;
     gdal.RasterXSize := 2700;
     gdal.RasterYSize := 1350;
     gdal.RasterCount := n;
     gdal.GetRasterBand := fun i =>
       if ((1 <=? i) && (i <=? n))%Z then Some band_byte else None;
     gdal.GetGeoTransform := [0 # 1; 1 # 1; 0 # 1; 0 # 1; 0 # 1; -1 # 1];
     gdal.GetSRS := srs;
     gdal.GetSubDatasets := [];
     gdal.GetGCPCount := 0 |}.

Definition layer_roads : ogr.Layer :=
  {| ogr.lyr_GetName := "roads";
     ogr.GetFeatureCount := 12;
     ogr.GetLayerDefn :=
       [ {| ogr.fld_GetName := "id"; ogr.fld_GetTypeName := "Integer" |};
         {| ogr.fld_GetName := "name"; ogr.fld_GetTypeName := "String" |} ] |}.

Definition pdf_vector : ogr.DataSource :=
  {| ogr.ds_GetName := "/data/map.pdf"; ogr.ds_layers := [layer_roads] |}.

Definition env_rasters : os.OS :=
  env_of [("/data/dem.tif", 2048); ("/data/map.pdf", 4096)] [].

(** Rounding of a float to [n] decimals, half away from zero. *)
Definition round_decimal (q : Q) (n : Z) : Q :=
  let scale := inject_Z (10 ^ n) in
  let x := ((if Qle_bool 0 q then q else - q) * scale + (1 # 2))%Q in
  let r := (inject_Z (Qnum x / Z.pos (Qden x)) / scale)%Q in
  if Qle_bool 0 q then r else (- r)%Q.

Definition empty_raster_state : InfosGDAL.state :=
  {| InfosGDAL.dico_raster := []; InfosGDAL.dico_bands := []; InfosGDAL.alert := 0 |}.

Definition empty_pdf_state : Infos_GeoPDF.state :=
  {| Infos_GeoPDF.dico_geopdf := []; Infos_GeoPDF.alert := 0; Infos_GeoPDF.calls := [] |}.

(** A folder with a shapefile whose [.dbf] sidecar is spelled [.Dbf]. *)
Definition env_mixed_case : os.OS :=
  env_of [("/d/a.Dbf", 10); ("/d/a.prj", 10); ("/d/a.shp", 10); ("/d/a.shx", 10)]
         [("/d", [], ["a.Dbf"; "a.prj"; "a.shp"; "a.shx"])].

(** A folder with a complete shapefile, a raster, a KML file and a file
    geodatabase, and the same folder listed in another order. *)
Definition env_folder : os.OS :=
  env_of [("/d/b.shp", 10); ("/d/b.dbf", 10); ("/d/b.shx", 10); ("/d/b.prj", 10);
          ("/d/a.shp", 10); ("/d/a.DBF", 10); ("/d/a.SHX", 10); ("/d/a.PRJ", 10);
          ("/d/sub/dem.tif", 10); ("/d/sub/x.kml", 10)]
         [("/d", ["sub"; "base.gdb"],
           ["b.shp"; "b.dbf"; "b.shx"; "b.prj"; "a.shp"; "a.DBF"; "a.SHX"; "a.PRJ"]);
          ("/d/base.gdb", [], []);
          ("/d/sub", [], ["dem.tif"; "x.kml"])].

Definition env_folder_reordered : os.OS :=
  env_of [("/d/b.shp", 10); ("/d/b.dbf", 10); ("/d/b.shx", 10); ("/d/b.prj", 10);
          ("/d/a.shp", 10); ("/d/a.DBF", 10); ("/d/a.SHX", 10); ("/d/a.PRJ", 10);
          ("/d/sub/dem.tif", 10); ("/d/sub/x.kml", 10)]
         [("/d", ["base.gdb"; "sub"],
           ["a.PRJ"; "a.SHX"; "a.DBF"; "a.shp"; "b.prj"; "b.shx"; "b.dbf"; "b.shp"]);
          ("/d/sub", [], ["x.kml"; "dem.tif"]);
          ("/d/base.gdb", [], [])].

(** A source file whose listed dependency cannot be read from the current
    directory. *)
Definition env_missing_dep : os.OS :=
  env_of [("/d/a.shp", 100)] [].

Definition env_with_dep : os.OS :=
  env_of [("/d/a.shp", 100); ("/d/a.dbf", 2000)] [].

End Samples.

(* ===================================================================== *)
(** * Vocabulary of the statements on folders, tables and layers *)
(* ===================================================================== *)

Module Folders.

(** [full_path[-4:].lower() == '.gdb']: the test of [dir_step]. *)
Definition is_gdb (p : string) : bool :=
  String.eqb (lower (substring (String.length p - 4) 4 p)) ".gdb".

(** The full paths of the directories a traversal lists, in its order. *)
Definition dir_paths (env : os.OS) (top : string) : list string :=
  flat_map (fun triple => map (posixpath.join (fst (fst triple))) (snd (fst triple)))
           (os.walk env top).

(** The absolute paths of the listed directories named [*.gdb]. *)
Definition gdb_paths (env : os.OS) (top : string) : list string :=
  map (os.abspath env) (filter (fun p => is_gdb p = true) (dir_paths env top)).

(** From [s] to [s'], [li_gdb] has received the geodatabases among the
    directories [ds], the count of folders has grown by [n], and the lists
    are still lists. *)
Definition gdb_adds (env : os.OS) (ds : list string) (n : Z)
    (s s' : DicoGIS.state) : Prop :=
  DicoGIS.li_gdb s'
  = PyList (items (DicoGIS.li_gdb s)
            ++ map (os.abspath env) (filter (fun p => is_gdb p = true) ds))
  /\ DicoGIS.num_folders s' = DicoGIS.num_folders s + n.

(** The three companions of a MapInfo table as [DicoGIS.ligeofiles] looks
    for them: each extension all in lower case or all in upper case. *)
Definition tab_sidecars_lower_or_upper (env : os.OS) (p : string) : Prop :=
  (os.isfile env (drop_last 4 p ++ ".dat") = true
   \/ os.isfile env (drop_last 4 p ++ ".DAT") = true)
  /\ (os.isfile env (drop_last 4 p ++ ".map") = true
      \/ os.isfile env (drop_last 4 p ++ ".MAP") = true)
  /\ (os.isfile env (drop_last 4 p ++ ".id") = true
      \/ os.isfile env (drop_last 4 p ++ ".ID") = true).

(** The same as [DicoShapes.ligeofiles] looks for them: lower case only. *)
Definition tab_sidecars_lower (env : os.OS) (p : string) : Prop :=
  os.isfile env (drop_last 4 p ++ ".dat") = true
  /\ os.isfile env (drop_last 4 p ++ ".map") = true
  /\ os.isfile env (drop_last 4 p ++ ".id") = true.

(** The extension of the lower-cased path, as the chain of tests reads it. *)
Definition extension (p : string) : string :=
  snd (posixpath.splitext (lower p)).

End Folders.

Module MoreSamples.

(** A folder with a MapInfo table whose companions are spelled in upper
    case, and a table that lacks its [.id] companion. *)
Definition env_tables : os.OS :=
  Samples.env_of
    [("/d/t.TAB", 10); ("/d/t.DAT", 10); ("/d/t.MAP", 10); ("/d/t.ID", 10);
     ("/d/u.tab", 10); ("/d/u.dat", 10); ("/d/u.map", 10)]
    [("/d", [], ["t.TAB"; "t.DAT"; "t.MAP"; "t.ID"; "u.tab"; "u.dat"; "u.map"])].

(** A folder with two file geodatabases that the traversal lists in the
    order [b.gdb], [a.gdb]. *)
Definition env_geodatabases : os.OS :=
  Samples.env_of []
    [("/d", ["b.gdb"; "a.gdb"], []); ("/d/b.gdb", [], []); ("/d/a.gdb", [], [])].

(** A folder with a sub-folder whose name is the byte 233 (the letter e
    with an acute accent in [latin1]), listed before the sub-folder [z]
    that holds a shapefile with its sidecars. *)
Definition env_accent_first : os.OS :=
  Samples.env_of
    [("/d/z/a.shp", 10); ("/d/z/a.dbf", 10); ("/d/z/a.shx", 10); ("/d/z/a.prj", 10)]
    [("/d", [String "233" ""; "z"], []);
     ("/d/" ++ String "233" "", [], ["x.txt"]);
     ("/d/z", [], ["a.dbf"; "a.prj"; "a.shp"; "a.shx"])].

(** A folder whose name has the byte 233 (the letter e with an acute
    accent in [latin1]) and that holds a shapefile with its sidecars. *)
Definition env_accent : os.OS :=
  let d := "/d/caf" ++ String "233" "" in
  Samples.env_of
    [(d ++ "/a.shp", 10); (d ++ "/a.dbf", 10); (d ++ "/a.shx", 10);
     (d ++ "/a.prj", 10)]
    [(d, [], ["a.dbf"; "a.prj"; "a.shp"; "a.shx"])].

End MoreSamples.

Module Sizes.

(** The sum of the sizes of the files of a list, a file whose size cannot
    be read counting for nothing. *)
Definition total (getsize : string -> option Z) (files : list string) : Z :=
  foldr (fun f t => default 0 (getsize f) + t) 0 files.

(** A file system where [/d/a.shp] is a regular file of 100 bytes beside
    a folder [/d/gdb] that lists two regular files and a name that is not a
    regular file. *)
Definition env_sizes : os.OS :=
  {| os.isfile := fun p => bool_decide (p ∈ ["/d/a.shp"; "/d/a.dbf"; "/d/gdb/a"; "/d/gdb/b"]);
     os.isdir := fun p => bool_decide (p ∈ ["/d"; "/d/gdb"; "/d/gdb/lock"]);
     os.getsize := fun p =>
       if String.eqb p "/d/a.shp" then Some 100
       else if String.eqb p "/d/a.dbf" then Some 2000
       else if String.eqb p "/d/gdb/a" then Some 300
       else if String.eqb p "/d/gdb/b" then Some 500
       else None;
     os.abspath := fun p => p;
     os.mtime := fun _ _ => "2014-05-28";
     os.ctime := fun _ _ => "2014-02-18";
     os.realpath := fun p => p;
     os.walk := fun top =>
       if String.eqb top "/d/gdb" then [("/d/gdb", ["lock"], ["a"; "b"; "lock"])]
       else [];
     os.chdir := fun p => bool_decide (p ∈ ["/d"; "/d/gdb"; "/d/gdb/lock"]);
     os.isfile_unicode := fun _ => Raise UnicodeEncodeError;
     os.abspath_unicode := fun p => Ok p;
     os.print_unicode := fun _ => Raise UnicodeEncodeError |}.

End Sizes.

Module Layers.

(** The dictionary that [infos_fields] makes of [d]: one assignment per
    field definition, in the order of the definitions. *)
Definition fields_dict (layer_def : list ogr.FieldDefn) (d : odict) : odict :=
  fold_left (fun d champomy =>
               setitem (ogr.fld_GetName champomy)
                       (VStr (ogr.fld_GetTypeName champomy)) d)
            layer_def d.

(** The sub-record of one layer. *)
Definition layer_record (parent_name : string) (layer : ogr.Layer) : odict :=
  [("parent_name", VStr parent_name);
   ("title", VStr (ogr.lyr_GetName layer));
   ("num_obj", VInt (ogr.GetFeatureCount layer));
   ("num_fields", VInt (Z.of_nat (length (ogr.GetLayerDefn layer))));
   ("fields", VDict (fields_dict (ogr.GetLayerDefn layer) []))].

Definition layer_key (layer_idx : Z) (layer : ogr.Layer) : string :=
  pretty layer_idx ++ "_" ++ ogr.lyr_GetName layer.

(** The record after the loop over the layers [layers], the first of
    which has the index [layer_idx], when the two lists held [names] and
    [idxs] before. *)
Fixpoint layers_dict (parent_name : string) (layers : list ogr.Layer)
    (layer_idx : Z) (names idxs : list pyval) (d : odict) : odict :=
  match layers with
  | [] => d
  | layer :: layers' =>
      let names := (names ++ [VStr (ogr.lyr_GetName layer)])%list in
      let idxs := (idxs ++ [VInt layer_idx])%list in
      layers_dict parent_name layers' (layer_idx + 1) names idxs
        (setitem (layer_key layer_idx layer) (VDict (layer_record parent_name layer))
           (setitem "layers_idx" (VList idxs)
              (setitem "layers_names" (VList names) d)))
  end.

Definition sum_fields (layers : list ogr.Layer) : Z :=
  foldr (fun layer t => Z.of_nat (length (ogr.GetLayerDefn layer)) + t) 0 layers.

Definition sum_objs (layers : list ogr.Layer) : Z :=
  foldr (fun layer t => ogr.GetFeatureCount layer + t) 0 layers.

(** A layer with two fields of the same name, and a source of two layers. *)
Definition layer_dup : ogr.Layer :=
  {| ogr.lyr_GetName := "parcels";
     ogr.GetFeatureCount := 7;
     ogr.GetLayerDefn :=
       [ {| ogr.fld_GetName := "id"; ogr.fld_GetTypeName := "Integer" |};
         {| ogr.fld_GetName := "area"; ogr.fld_GetTypeName := "Real" |};
         {| ogr.fld_GetName := "id"; ogr.fld_GetTypeName := "String" |} ] |}.

Definition pdf_two_layers : ogr.DataSource :=
  {| ogr.ds_GetName := "/data/map.pdf";
     ogr.ds_layers := [Samples.layer_roads; layer_dup] |}.

End Layers.

Module SrsName.

(** The name that the readers look for first under the attribute [first]
    and then under PROJECTION; [None] is written as its text. *)
Definition named (srs : gdal.SpatialReference) (first : string) : string :=
  match gdal.GetAttrValue srs first 0 with
  | Some v => v
  | None => unicode_text (gdal.GetAttrValue srs "PROJECTION" 0)
  end.

(** The attribute under which [ReadGeoPDF.infos_geom] looks first. *)
Definition first_attribute (srs : gdal.SpatialReference) : string :=
  if (gdal.IsProjected srs =? 0)%Z then "GEOGCS" else "PROJCS".

End SrsName.

Module Bands.

(** The three keys that [InfosRasters.infos_bands] writes for a band. *)
Definition keys_of (band : Z) : list string :=
  ["band" ++ pretty band ++ "_Min";
   "band" ++ pretty band ++ "_Max";
   "band" ++ pretty band ++ "_NoData"].

End Bands.

Module PdfBasics.

(** The base names of the files of the dataset other than the PDF itself. *)
Definition dependencies (geopdf : gdal.Dataset) (pdfpath : string) : list string :=
  map posixpath.basename (filter (fun f => f <> pdfpath) (gdal.GetFileList geopdf)).

(** A file system where the PDF has a companion whose size can be read
    under its base name. *)
Definition env_pdf : os.OS :=
  Samples.env_of [("/data/map.pdf", 4096); ("map.aux.xml", 1024)] [].

Definition dataset_pdf : gdal.Dataset :=
  {| gdal.GetFileList := ["/data/map.pdf"; "/data/map.aux.xml"];
     gdal.GetMetadata := <["CREATION_DATE" := "D:20160408101500"]> ∅;
     gdal.GetDescription := "/data/map.pdf";
     gdal.RasterXSize := 2700;
     gdal.RasterYSize := 1350;
     gdal.RasterCount := 3;
     gdal.GetRasterBand := fun i =>
       if ((1 <=? i) && (i <=? 3))%Z then Some Samples.band_byte else None;
     gdal.GetGeoTransform := [0 # 1; 1 # 1; 0 # 1; 0 # 1; 0 # 1; -1 # 1];
     gdal.GetSRS := Samples.srs_projected;
     gdal.GetSubDatasets := [];
     gdal.GetGCPCount := 0 |}.

End PdfBasics.

(* ===================================================================== *)
(** * modules/georeaders/Infos_GeoPDF.py: classes GdalErrorHandler and
      OGRErrorHandler *)
(* ===================================================================== *)

Module ErrorHandler.

(** The error classes of GDAL: [gdal.CE_None] to [gdal.CE_Fatal]. *)
Definition CE_None : Z := 0.
Definition CE_Debug : Z := 1.
Definition CE_Warning : Z := 2.
Definition CE_Failure : Z := 3.
Definition CE_Fatal : Z := 4.

(** The attributes of a handler, and the switch of the bindings that
    [UseExceptions()] turns on and [DontUseExceptions()] turns off. *)
Record state : Type := {
  err_level : Z;
  err_type : pyval;
  err_msg : string;
  use_exceptions : bool
}.

(** What [__init__] assigns; the switch of the bindings is not touched. *)
Definition __init__ (exceptions : bool) : state :=
  {| err_level := CE_None; err_type := VInt 0; err_msg := "";
     use_exceptions := exceptions |}.

(** The dictionary [err_class] of [handler]. *)
Definition err_class : gmap Z string :=
  <[CE_None := "None"]>
  (<[CE_Debug := "Debug"]>
  (<[CE_Warning := "Warning"]>
  (<[CE_Failure := "Failure"]>
  (<[CE_Fatal := "Fatal"]> ∅)))).

(** [handler(self, err_level, err_type, err_msg)], the same in both
    classes but for the binding whose exceptions it turns off. *)
Definition handler (err_level err_type : Z) (err_msg : string)
    : M state (Z * pyval * string) :=
  let err_type := default "None" (err_class !! err_type) in
  (* the message of the bindings is a byte string, the two arguments of
     [replace] are unicode literals: the message is decoded first *)
  let* err_msg := lift (unicode err_msg) in
  let err_msg := replace_char "010" " " err_msg in
  modify (fun s => {| err_level := ErrorHandler.err_level s;
                      err_type := ErrorHandler.err_type s;
                      err_msg := ErrorHandler.err_msg s;
                      use_exceptions := false |}) ;;;
  modify (fun s => {| err_level := err_level;
                      err_type := ErrorHandler.err_type s;
                      err_msg := ErrorHandler.err_msg s;
                      use_exceptions := use_exceptions s |}) ;;;
  modify (fun s => {| err_level := ErrorHandler.err_level s;
                      err_type := VStr err_type;
                      err_msg := ErrorHandler.err_msg s;
                      use_exceptions := use_exceptions s |}) ;;;
  modify (fun s => {| err_level := ErrorHandler.err_level s;
                      err_type := ErrorHandler.err_type s;
                      err_msg := err_msg;
                      use_exceptions := use_exceptions s |}) ;;;
  let* s := gets (fun s => s) in
  ret (ErrorHandler.err_level s, ErrorHandler.err_type s, ErrorHandler.err_msg s).

End ErrorHandler.

(* ===================================================================== *)
(** * DicoShapes.py, DicoGIS.py: method savedico *)
(* ===================================================================== *)

Module Workbook.

(** The name under which [savedico] saves the workbook, for the answer
    [saved] of the file dialog:
    [if path.splitext(saved)[1] != ".xls": saved = saved + ".xls"]. *)
Definition savedico (saved : string) : string :=
  if negb (String.eqb (snd (posixpath.splitext saved)) ".xls")
  then saved ++ ".xls"
  else saved.

End Workbook.

(* ===================================================================== *)
(** * modules/georeaders/geoutils.py: method list_dependencies *)
(* ===================================================================== *)

Module Dependencies.

Section Utils.

Variable env : os.OS.
(** [os.listdir]: the names in a directory, or [os.error]. *)
Variable listdir : string -> result (list string).

(** [list_dependencies(self, main_file_path, exclude)]. *)
Definition list_dependencies (main_file_path exclude : string)
    : result (list string) :=
  let exclude :=
    if String.eqb exclude "auto"
    then snd (posixpath.splitext (lower (os.abspath env main_file_path)))
    else exclude in
  match listdir (posixpath.dirname main_file_path) with
  | Raise e => Raise e
  | Ok names =>
      Ok (List.filter
            (fun f =>
               String.eqb (fst (posixpath.splitext (os.abspath env f)))
                          (fst (posixpath.splitext main_file_path))
               && negb (String.eqb
                          (snd (posixpath.splitext (lower (os.abspath env f))))
                          exclude))
            names)
  end.

End Utils.

(** The extension that is left out: with ["auto"], that of the
    lower-cased absolute path of the main file. *)
Definition excluded (env : os.OS) (main_file_path exclude : string) : string :=
  if String.eqb exclude "auto"
  then snd (posixpath.splitext (lower (os.abspath env main_file_path)))
  else exclude.

(** A name of the listing is a dependency of the main file: its absolute
    path without extension is the main path without extension, and the
    extension of its lower-cased absolute path is not the one left out. *)
Definition depends (env : os.OS) (main_file_path exclude f : string) : Prop :=
  fst (posixpath.splitext (os.abspath env f))
  = fst (posixpath.splitext main_file_path)
  /\ snd (posixpath.splitext (lower (os.abspath env f)))
     <> excluded env main_file_path exclude.

#[global] Instance depends_dec (env : os.OS) (main_file_path exclude f : string) :
  Decision (depends env main_file_path exclude f).
Proof. unfold depends. apply _. Defined.

(** A current directory [/d] that holds a shapefile and its companions. *)
Definition env_cwd : os.OS :=
  {| os.isfile := fun _ => true;
     os.isdir := fun _ => false;
     os.getsize := fun _ => Some 10;
     os.abspath := fun p => match p with
                            | String "/" _ => p
                            | _ => "/d/" ++ p
                            end;
     os.mtime := fun _ _ => "2014-05-28";
     os.ctime := fun _ _ => "2014-02-18";
     os.realpath := fun p => p;
     os.walk := fun _ => [];
     os.chdir := fun p => String.eqb p "/d";
     os.isfile_unicode := fun _ => Raise UnicodeEncodeError;
     os.abspath_unicode := fun p => Ok p;
     os.print_unicode := fun _ => Raise UnicodeEncodeError |}.

Definition listdir_cwd (p : string) : result (list string) :=
  if String.eqb p "/d" then Ok ["a.dbf"; "a.shp"; "a.shx"; "b.shp"; "a"]
  else Raise OSError.

End Dependencies.

(* ===================================================================== *)
(** * The order of [list.sort()] on paths *)
(* ===================================================================== *)

Section StringOrder.

Local Open Scope N_scope.

Lemma ascii_compare_lt_trans (a b c : ascii) :
  Ascii.compare a b = Lt -> Ascii.compare b c = Lt -> Ascii.compare a c = Lt.
Proof.
  unfold Ascii.compare. rewrite !N.compare_lt_iff. lia.
Qed.

Lemma string_leb_trans (s1 : string) :
  forall s2 s3, String.leb s1 s2 = true -> String.leb s2 s3 = true ->
                String.leb s1 s3 = true.
Proof.
  unfold String.leb.
  induction s1 as [|a s1 IH]; intros [|b s2] [|c s3]; simpl; try congruence.
  destruct (Ascii.compare a b) eqn:Hab; try congruence;
    destruct (Ascii.compare b c) eqn:Hbc; try congruence; intros H12 H23.
  - apply Ascii.compare_eq_iff in Hab, Hbc. subst.
    replace (Ascii.compare c c) with Eq
      by (symmetry; unfold Ascii.compare; apply N.compare_refl).
    eauto.
  - apply Ascii.compare_eq_iff in Hab. subst. now rewrite Hbc.
  - apply Ascii.compare_eq_iff in Hbc. subst. now rewrite Hab.
  - now rewrite (ascii_compare_lt_trans a b c).
Qed.

End StringOrder.

#[global] Instance str_le_trans : Transitive str_le.
Proof. intros x y z. unfold str_le. apply string_leb_trans. Qed.

#[global] Instance str_le_total : Total str_le.
Proof. intros x y. unfold str_le. apply String.leb_total. Qed.

#[global] Instance str_le_antisym : AntiSymm (=) str_le.
Proof. intros x y. unfold str_le. apply String.leb_antisym. Qed.

Lemma sort_sorted (l : list string) : Sorted str_le (sort l).
Proof. unfold sort. apply (Sorted_merge_sort str_le). Qed.

Lemma sort_perm (l : list string) : sort l ≡ₚ l.
Proof. unfold sort. apply merge_sort_Permutation. Qed.

(** The sorted list depends on the members only, not on their order. *)
Lemma sort_order_independent (l1 l2 : list string) :
  l1 ≡ₚ l2 -> sort l1 = sort l2.
Proof.
  intros Hp. apply (Sorted_unique str_le); auto using sort_sorted.
  now rewrite !sort_perm.
Qed.

(** Any ascending arrangement of the members of [l] is [sort l]: the
    result of [list.sort()] does not depend on the sorting algorithm. *)
Lemma sort_unique (l l' : list string) :
  Sorted str_le l' -> l' ≡ₚ l -> l' = sort l.
Proof.
  intros Hs Hp. apply (Sorted_unique str_le); auto using sort_sorted.
  now rewrite sort_perm.
Qed.

Lemma sort_elem_of (l : list string) (p : string) : p ∈ sort l <-> p ∈ l.
Proof. now rewrite sort_perm. Qed.

Lemma sort_idempotent (l : list string) : sort (sort l) = sort l.
Proof. apply sort_order_independent, sort_perm. Qed.

(* ===================================================================== *)
(** * The category of a spatial reference *)
(* ===================================================================== *)

(** Case analysis on the six tests of a reference. *)
Ltac srs_cases srs :=
  destruct srs as [comp geoc geog loca proj vert attrs];
  unfold InfosGDAL.srs_type, Infos_GeoPDF.srs_type, srs_loop, srsmetod,
    Srs.last_matching, Srs.first_matching, Srs.matching, Srs.matches, Srs.flag,
    Srs.priority, try_except, read_local, Py.bind, Py.ret, Py.raise;
  cbn [List.filter fold_left fst snd gdal.IsCompound gdal.IsGeocentric
       gdal.IsGeographic gdal.IsLocal gdal.IsProjected gdal.IsVertical];
  destruct (comp =? 1)%Z, (geoc =? 1)%Z, (geog =? 1)%Z, (loca =? 1)%Z,
    (proj =? 1)%Z, (vert =? 1)%Z; cbn.

(** The loop keeps the text of the latest matching test. *)
Lemma srs_loop_last (srs : gdal.SpatialReference) (txt : gmap string string) :
  srs_loop (srsmetod srs txt)
  = (fun c => txt !! Srs.srs_key c) <$> Srs.last_matching srs.
Proof. srs_cases srs; reflexivity. Qed.

(** What the two readers make of the loop: [InfosRasters] fails on an
    unassigned [typsrs], [ReadGeoPDF] falls back on the text of [srs_nr]. *)
Lemma InfosGDAL_srs_type_eq (srs : gdal.SpatialReference)
    (txt : gmap string string) (st : InfosGDAL.state) :
  InfosGDAL.srs_type srs txt st
  = (match Srs.last_matching srs with
     | Some c => Ok (unicode_text (txt !! Srs.srs_key c))
     | None => Raise UnboundLocalError
     end, st).
Proof. srs_cases srs; reflexivity. Qed.

Lemma GeoPDF_srs_type_eq (srs : gdal.SpatialReference)
    (txt : gmap string string) (st : Infos_GeoPDF.state) :
  Infos_GeoPDF.srs_type srs txt st
  = (Ok (unicode_text (match Srs.last_matching srs with
                       | Some c => txt !! Srs.srs_key c
                       | None => txt !! "srs_nr"
                       end)), st).
Proof. srs_cases srs; reflexivity. Qed.

(* ===================================================================== *)
(** * Dictionaries and band keys *)
(* ===================================================================== *)

Lemma get_setitem_eq (k : string) (v : pyval) (d : odict) :
  get k (setitem k v d) = Some v.
Proof.
  induction d as [|[k' v'] d IH]; simpl.
  - now rewrite String.eqb_refl.
  - destruct (String.eqb k' k) eqn:E; simpl; now rewrite E.
Qed.

Lemma get_setitem_ne (k k' : string) (v : pyval) (d : odict) :
  k' <> k -> get k (setitem k' v d) = get k d.
Proof.
  intros Hne. induction d as [|[k0 v0] d IH]; simpl.
  - apply String.eqb_neq in Hne. now rewrite Hne.
  - destruct (String.eqb k0 k') eqn:E; simpl.
    + apply String.eqb_eq in E. subst k0.
      apply String.eqb_neq in Hne. now rewrite Hne.
    + now rewrite IH.
Qed.

(** A new key goes to the end, an existing key keeps its place. *)
Lemma keys_setitem (k : string) (v : pyval) (d : odict) :
  keys (setitem k v d) = if bool_decide (k ∈ keys d) then keys d else (keys d ++ [k])%list.
Proof.
  unfold keys. induction d as [|[k' v'] d IH]; simpl; [reflexivity|].
  destruct (String.eqb k' k) eqn:E; simpl.
  - apply String.eqb_eq in E. subst. rewrite bool_decide_true by left. reflexivity.
  - apply String.eqb_neq in E. rewrite IH.
    destruct (bool_decide (k ∈ map fst d)) eqn:B.
    + apply bool_decide_eq_true in B. rewrite bool_decide_true by now right. reflexivity.
    + apply bool_decide_eq_false in B.
      rewrite bool_decide_false; [reflexivity|].
      intros [?|?]%elem_of_cons; congruence.
Qed.

Lemma range_spec (a b i : Z) : i ∈ range a b <-> (a <= i < b)%Z.
Proof.
  unfold range. rewrite elem_of_seqZ. lia.
Qed.

(** The upper bound of a [range] is not visited. *)
Lemma range_upper_excluded (a b : Z) : b ∉ range a b.
Proof. rewrite range_spec. lia. Qed.

Lemma append_nil_l (s : string) : "" ++ s = s.
Proof. reflexivity. Qed.

Lemma append_cons (c : ascii) (a s : string) :
  String c a ++ s = String c (a ++ s).
Proof. reflexivity. Qed.

Lemma length_append (a s : string) :
  String.length (a ++ s) = (String.length a + String.length s)%nat.
Proof.
  induction a as [|c a IH]; rewrite ?append_nil_l, ?append_cons;
    cbn [String.length]; [reflexivity|]. rewrite IH. reflexivity.
Qed.

(** Equal strings with tails of the same length have equal heads. *)
Lemma string_app_same_tail (a b s t : string) :
  a ++ s = b ++ t -> String.length s = String.length t -> a = b.
Proof.
  revert b. induction a as [|c a IH]; intros [|c' b];
    rewrite ?append_nil_l, ?append_cons; intros H Hlen.
  - reflexivity.
  - subst s. cbn [String.length] in Hlen.
    rewrite length_append in Hlen. lia.
  - subst t. cbn [String.length] in Hlen.
    rewrite length_append in Hlen. lia.
  - injection H as -> H. f_equal. eauto.
Qed.

Lemma band_key_inj (prefix suffix1 suffix2 : string) (i n : Z) :
  String.length suffix1 = String.length suffix2 ->
  prefix ++ pretty i ++ suffix1 = prefix ++ pretty n ++ suffix2 -> i = n.
Proof.
  intros Hlen H. apply (inj (String.app prefix)) in H.
  apply string_app_same_tail in H; [|assumption].
  now apply (inj pretty) in H.
Qed.

Lemma string_app_tail_suffix (a b s t : string) :
  a ++ s = b ++ t -> (String.length t <= String.length s)%nat ->
  exists u, s = u ++ t.
Proof.
  revert b. induction a as [|c a IH]; intros b;
    rewrite ?append_nil_l; [intros ->; eauto|].
  destruct b as [|c' b]; rewrite ?append_nil_l, ?append_cons; intros H Hlen.
  - subst t. cbn [String.length] in Hlen. rewrite length_append in Hlen. lia.
  - injection H as _ H. eauto.
Qed.

(** No key of a band with another suffix length collides with a "_Min" key. *)
Lemma band_nodata_key_ne (i n : Z) :
  "band" ++ pretty i ++ "_NoData" <> "band" ++ pretty n ++ "_Min".
Proof.
  intros H. apply (inj (String.app "band")) in H.
  apply string_app_tail_suffix in H as [u H]; [|cbn; lia].
  destruct u as [|c1 [|c2 [|c3 [|c4 u]]]];
    try (apply (f_equal String.length) in H;
         rewrite ?append_cons, ?append_nil_l in H;
         cbn [String.length] in H; rewrite ?length_append in H;
         cbn [String.length] in H; lia).
  rewrite !append_cons, append_nil_l in H. congruence.
Qed.

(* ===================================================================== *)
(** * Loops *)
(* ===================================================================== *)

(** A property of the state that every iteration keeps, whether it ends
    normally or raises, holds after the loop. *)
Lemma for_each_invariant {S A : Type} (I : S -> Prop) (l : list A)
    (body : A -> M S unit) :
  (forall x s, x ∈ l -> I s -> I (snd (body x s))) ->
  forall s, I s -> I (snd (for_each l body s)).
Proof.
  induction l as [|x l IH]; intros Hbody s Hs; cbn [for_each].
  - exact Hs.
  - unfold Py.bind.
    pose proof (Hbody x s ltac:(left) Hs) as Hx.
    destruct (body x s) as [[u|e] s1]; cbn [snd] in *; [|exact Hx].
    apply IH; [|exact Hx]. intros y s2 Hy. apply Hbody. now right.
Qed.

(* ===================================================================== *)
(** * The bands of a raster *)
(* ===================================================================== *)

Lemma InfosGDAL_infos_bands_other (rast : option gdal.Dataset) (i n : Z)
    (s : InfosGDAL.state) :
  i <> n ->
  get ("band" ++ pretty n ++ "_Min")
      (InfosGDAL.dico_bands (snd (InfosGDAL.infos_bands rast i s)))
  = get ("band" ++ pretty n ++ "_Min") (InfosGDAL.dico_bands s).
Proof.
  intros Hne. unfold InfosGDAL.infos_bands, attr, Py.bind, Py.ret, Py.raise.
  destruct rast as [ds|]; [|reflexivity].
  destruct (gdal.GetRasterBand ds i) as [band_info|]; [|reflexivity].
  cbn. rewrite !get_setitem_ne; [reflexivity| | |].
  - intros H. apply band_key_inj in H; [congruence|reflexivity].
  - intros H. apply band_key_inj in H; [congruence|reflexivity].
  - apply band_nodata_key_ne.
Qed.

Lemma GeoPDF_band_step_other (round : Q -> Z -> Q) (geopdf : gdal.Dataset)
    (i n : Z) (s : Infos_GeoPDF.state) :
  i <> n ->
  get ("band_" ++ pretty n)
      (Infos_GeoPDF.dico_geopdf
         (snd (Py.bind (Infos_GeoPDF.on_fresh_dict
                          (Infos_GeoPDF.infos_bands round geopdf i))
                       (fun dico_band =>
                          Infos_GeoPDF.set_pdf ("band_" ++ pretty i) (VDict dico_band))
                       s)))
  = get ("band_" ++ pretty n) (Infos_GeoPDF.dico_geopdf s).
Proof.
  intros Hne. unfold Py.bind, Infos_GeoPDF.on_fresh_dict.
  destruct (Infos_GeoPDF.infos_bands round geopdf i []) as [[u|e] d];
    [|reflexivity].
  cbn. apply get_setitem_ne.
  intros H. apply (inj (String.app "band_")) in H.
  apply (inj pretty) in H. congruence.
Qed.

(* ===================================================================== *)
(** * Frame rules *)
(* ===================================================================== *)

Section Frame.

Context {S T : Type} (f : S -> T).

Lemma keeps_ret {A : Type} (a : A) : keeps f (Py.ret a).
Proof. intros s. reflexivity. Qed.

Lemma keeps_raise {A : Type} (e : exn) : keeps f (@Py.raise S A e).
Proof. intros s. reflexivity. Qed.

Lemma keeps_lift {A : Type} (r : result A) : keeps f (Py.lift r).
Proof. intros s. reflexivity. Qed.

Lemma keeps_gets {A : Type} (g : S -> A) : keeps f (Py.gets g).
Proof. intros s. reflexivity. Qed.

Lemma keeps_modify (g : S -> S) :
  (forall s, f (g s) = f s) -> keeps f (Py.modify g).
Proof. intros H s. apply H. Qed.

Lemma keeps_bind {A B : Type} (m : M S A) (k : A -> M S B) :
  keeps f m -> (forall a, keeps f (k a)) -> keeps f (Py.bind m k).
Proof.
  intros Hm Hk s. unfold Py.bind. specialize (Hm s).
  destruct (m s) as [[a|e] s1]; cbn [snd] in *; [|exact Hm].
  now rewrite Hk.
Qed.

Lemma keeps_try_except {A : Type} (body handler : M S A) (catches : exn -> bool) :
  keeps f body -> keeps f handler -> keeps f (try_except body catches handler).
Proof.
  intros Hb Hh s. unfold try_except. specialize (Hb s).
  destruct (body s) as [[a|e] s1]; cbn [snd] in *; [exact Hb|].
  destruct (catches e); [|exact Hb]. now rewrite Hh.
Qed.

Lemma keeps_for_each {A : Type} (l : list A) (body : A -> M S unit) :
  (forall x, x ∈ l -> keeps f (body x)) -> keeps f (for_each l body).
Proof.
  intros Hbody s. apply (for_each_invariant (fun s' => f s' = f s)); [|reflexivity].
  intros x s' Hx Hs'. now rewrite (Hbody x Hx).
Qed.

Lemma keeps_attr {A : Type} (o : option A) : keeps f (attr o).
Proof. destruct o; intros s; reflexivity. Qed.

Lemma keeps_index {A : Type} (l : list A) (i : nat) : keeps f (index l i).
Proof. unfold index. destruct (l !! i); intros s; reflexivity. Qed.

Lemma keeps_read_local {A : Type} (v : option A) : keeps f (read_local v).
Proof. destruct v; intros s; reflexivity. Qed.

Lemma keeps_on_fresh_dict (m : M odict unit) :
  keeps f (Infos_GeoPDF.on_fresh_dict m).
Proof.
  intros s. unfold Infos_GeoPDF.on_fresh_dict.
  destruct (m []) as [[u|e] d]; reflexivity.
Qed.

End Frame.

Create HintDb frame.
#[export] Hint Resolve keeps_ret keeps_raise keeps_lift keeps_gets keeps_attr
  keeps_index keeps_read_local keeps_on_fresh_dict : frame.

(** Decomposition of a statement into the primitives it is made of. *)
Ltac frame_step :=
  first
    [ apply keeps_bind; [|intros ?]
    | apply keeps_try_except
    | solve [auto with frame]
    | match goal with
      | |- keeps _ (match ?x with _ => _ end) => destruct x
      | |- keeps _ (if ?b then _ else _) => destruct b
      end ].

Ltac frame := repeat frame_step.

(** Texts written by [pretty] on integers do not start with a letter. *)
Lemma pretty_N_go_head (x : N) : forall s c t,
  pretty_N_go x s = String c t ->
  (exists t', s = String c t') \/ (N_of_ascii c < 65)%N.
Proof.
  induction (N.lt_wf_0 x) as [x _ IH]; intros s c t.
  destruct (decide (x = 0)%N) as [->|Hx].
  - rewrite pretty_N_go_0. intros ->. eauto.
  - rewrite pretty_N_go_step by lia. intros H.
    apply IH in H; [|apply N.div_lt; lia].
    destruct H as [[t' [= <- _]]|H]; [|now right].
    right. unfold pretty_N_char. repeat case_match; cbn; lia.
Qed.

Lemma pretty_Z_head (z : Z) (c : ascii) (t : string) :
  pretty z = String c t -> (N_of_ascii c < 65)%N.
Proof.
  assert (HN : forall n : N, pretty n = String c t -> (N_of_ascii c < 65)%N).
  { intros n. unfold pretty, pretty_N. case_decide.
    - intros [= <- _]. cbn. lia.
    - intros Hgo. apply pretty_N_go_head in Hgo as [[t' [=]]|Hgo]. exact Hgo. }
  unfold pretty, pretty_Z. destruct z as [|p|p].
  - intros [= <- _]. cbn. lia.
  - apply (HN (N.pos p)).
  - rewrite append_cons, append_nil_l. intros [= <- _]. cbn. lia.
Qed.

(** The key of a layer, [<index>_<title>], is not the key of a band. *)
Lemma layer_key_not_band (idx n : Z) (title : string) :
  pretty idx ++ "_" ++ title <> "band_" ++ pretty n.
Proof.
  intros H. destruct (pretty idx) as [|c t] eqn:E.
  - rewrite append_nil_l, !append_cons in H. discriminate H.
  - rewrite !append_cons in H. injection H as Hc _. subst c.
    apply pretty_Z_head in E. cbn in E. lia.
Qed.

(* ===================================================================== *)
(** * What the raster reader leaves untouched *)
(* ===================================================================== *)

Lemma InfosGDAL_set_raster_bands {T : Type} (g : odict -> T) (k : string) (v : pyval) :
  keeps (fun s => g (InfosGDAL.dico_bands s)) (InfosGDAL.set_raster k v).
Proof. intros s. reflexivity. Qed.

Lemma InfosGDAL_set_alert_bands {T : Type} (g : odict -> T) (h : Z -> Z) :
  keeps (fun s => g (InfosGDAL.dico_bands s)) (InfosGDAL.set_alert h).
Proof. intros s. reflexivity. Qed.

Lemma InfosGDAL_set_raster_other (key k : string) (v : pyval) :
  k <> key ->
  keeps (fun s => get key (InfosGDAL.dico_raster s)) (InfosGDAL.set_raster k v).
Proof. intros Hne s. cbn. now apply get_setitem_ne. Qed.

#[export] Hint Resolve InfosGDAL_set_raster_bands InfosGDAL_set_alert_bands : frame.
#[export] Hint Extern 1 (keeps _ (InfosGDAL.set_raster _ _)) =>
  apply InfosGDAL_set_raster_other; discriminate : frame.

Lemma InfosGDAL_infos_basics_bands {T : Type} (g : odict -> T) (env : os.OS)
    (rast : option gdal.Dataset) (rasterpath : string) (txt : gmap string string) :
  keeps (fun s => g (InfosGDAL.dico_bands s))
        (InfosGDAL.infos_basics env rast rasterpath txt).
Proof. unfold InfosGDAL.infos_basics. frame. Qed.

Lemma InfosGDAL_infos_geom_bands {T : Type} (g : odict -> T)
    (rast : option gdal.Dataset) (txt : gmap string string) :
  keeps (fun s => g (InfosGDAL.dico_bands s)) (InfosGDAL.infos_geom rast txt).
Proof. unfold InfosGDAL.infos_geom, InfosGDAL.srs_type. frame. Qed.

Lemma InfosGDAL_infos_geom_num_bands (rast : option gdal.Dataset)
    (txt : gmap string string) :
  keeps (fun s => get "num_bands" (InfosGDAL.dico_raster s))
        (InfosGDAL.infos_geom rast txt).
Proof. unfold InfosGDAL.infos_geom, InfosGDAL.srs_type. frame. Qed.

(** What a sequence that returned went through. *)
Lemma bind_ok_inv {S A B : Type} (m : M S A) (k : A -> M S B) (s s' : S) (b : B) :
  Py.bind m k s = (Ok b, s') ->
  exists a s1, m s = (Ok a, s1) /\ k a s1 = (Ok b, s').
Proof.
  unfold Py.bind. destruct (m s) as [[a|e] s1]; [eauto|discriminate].
Qed.

(** After [infos_basics] has returned, [num_bands] is the band count of
    the dataset. *)
Lemma InfosGDAL_infos_basics_num_bands (env : os.OS) (ds : gdal.Dataset)
    (rasterpath : string) (txt : gmap string string) (s s' : InfosGDAL.state) :
  InfosGDAL.infos_basics env (Some ds) rasterpath txt s = (Ok tt, s') ->
  get "num_bands" (InfosGDAL.dico_raster s') = Some (VInt (gdal.RasterCount ds)).
Proof.
  unfold InfosGDAL.infos_basics. intros H.
  do 3 (apply bind_ok_inv in H as (? & ? & _ & H)).
  apply bind_ok_inv in H as (ds' & ? & Hds & H). injection Hds as <- _.
  do 6 (apply bind_ok_inv in H as (? & ? & _ & H)).
  apply bind_ok_inv in H as (? & s1 & Hset & H).
  injection Hset as _ <-.
  match type of H with
  | ?rest ?s1 = _ =>
      assert (Hk : keeps (fun s => get "num_bands" (InfosGDAL.dico_raster s)) rest)
        by frame;
      specialize (Hk s1)
  end.
  rewrite H in Hk. cbn [snd] in Hk. rewrite Hk. cbn [InfosGDAL.dico_raster].
  apply get_setitem_eq.
Qed.

(** The loop of [InfosRasters] over [range(1, n)] leaves the minimum of
    band [n] as it was. *)
Lemma InfosGDAL_band_loop_skips (rast : option gdal.Dataset) (n : Z) :
  keeps (fun s => get ("band" ++ pretty n ++ "_Min") (InfosGDAL.dico_bands s))
        (for_each (range 1 n) (InfosGDAL.infos_bands rast)).
Proof.
  apply keeps_for_each. intros i Hi s.
  apply InfosGDAL_infos_bands_other.
  intros ->. now apply range_upper_excluded in Hi.
Qed.

(** The loop of [ReadGeoPDF] over the bands leaves the entry of the band
    with index [band_count] as it was. *)
Lemma GeoPDF_band_loop_skips (round : Q -> Z -> Q) (geopdf : gdal.Dataset) :
  keeps (fun s => get ("band_" ++ pretty (gdal.RasterCount geopdf))
                      (Infos_GeoPDF.dico_geopdf s))
        (Infos_GeoPDF.bands_loop round geopdf).
Proof.
  unfold Infos_GeoPDF.bands_loop. apply keeps_for_each. intros i Hi s.
  apply GeoPDF_band_step_other.
  intros ->. now apply range_upper_excluded in Hi.
Qed.

Lemma InfosGDAL_init_body_last_band (env : os.OS) (ds : gdal.Dataset)
    (rasterpath tipo : string) (txt : gmap string string) :
  keeps (fun s => get ("band" ++ pretty (gdal.RasterCount ds) ++ "_Min")
                      (InfosGDAL.dico_bands s))
        (InfosGDAL.init_body env (Some ds) rasterpath tipo txt).
Proof.
  set (f := fun s => get ("band" ++ pretty (gdal.RasterCount ds) ++ "_Min")
                         (InfosGDAL.dico_bands s)).
  intros s. unfold InfosGDAL.init_body.
  unfold Py.bind at 1. cbn [Py.ret].
  unfold Py.bind at 1. cbn [InfosGDAL.set_raster Py.modify].
  match goal with |- context [Py.bind _ _ ?s1] => set (s1' := s1) end.
  assert (H1 : f s1' = f s) by reflexivity.
  subst f. cbv beta in *.
  unfold Py.bind at 1.
  pose proof (InfosGDAL_infos_basics_bands
                (get ("band" ++ pretty (gdal.RasterCount ds) ++ "_Min"))
                env (Some ds) rasterpath txt s1') as H2.
  pose proof (InfosGDAL_infos_basics_num_bands env ds rasterpath txt s1') as N2.
  destruct (InfosGDAL.infos_basics env (Some ds) rasterpath txt s1')
    as [[[]|e2] s2]; cbn [snd] in *; [|congruence].
  specialize (N2 s2 eq_refl).
  unfold Py.bind at 1.
  pose proof (InfosGDAL_infos_geom_bands
                (get ("band" ++ pretty (gdal.RasterCount ds) ++ "_Min"))
                (Some ds) txt s2) as H3.
  pose proof (InfosGDAL_infos_geom_num_bands (Some ds) txt s2) as N3.
  destruct (InfosGDAL.infos_geom (Some ds) txt s2) as [[[]|e3] s3];
    cbn [snd] in *; [|congruence].
  unfold Py.bind at 1, InfosGDAL.band_range at 1, Py.bind at 1, Py.gets.
  rewrite N3, N2. cbn [Py.ret].
  rewrite (InfosGDAL_band_loop_skips (Some ds) (gdal.RasterCount ds) s3).
  congruence.
Qed.

(* ===================================================================== *)
(** * What the PDF reader leaves untouched *)
(* ===================================================================== *)

Lemma GeoPDF_set_pdf_other (key k : string) (v : pyval) :
  k <> key ->
  keeps (fun s => get key (Infos_GeoPDF.dico_geopdf s)) (Infos_GeoPDF.set_pdf k v).
Proof. intros Hne s. cbn. now apply get_setitem_ne. Qed.

Lemma GeoPDF_set_alert_dict {T : Type} (g : odict -> T) (h : Z -> Z) :
  keeps (fun s => g (Infos_GeoPDF.dico_geopdf s)) (Infos_GeoPDF.set_alert h).
Proof. intros s. reflexivity. Qed.

Lemma GeoPDF_log_call_dict {T : Type} (g : odict -> T) (c : Infos_GeoPDF.call) :
  keeps (fun s => g (Infos_GeoPDF.dico_geopdf s)) (Infos_GeoPDF.log_call c).
Proof. intros s. reflexivity. Qed.

(** A key that does not start with the letter b is not the key of a band. *)
Ltac not_band_key :=
  let H := fresh in
  intros H; rewrite ?append_cons in H; discriminate H.

#[export] Hint Resolve GeoPDF_set_alert_dict GeoPDF_log_call_dict
  GeoPDF_band_loop_skips : frame.
#[export] Hint Extern 1 (keeps _ (Infos_GeoPDF.set_pdf _ _)) =>
  apply GeoPDF_set_pdf_other; first [not_band_key | apply layer_key_not_band] : frame.

Section GeoPDFFrame.

Variable round : Q -> Z -> Q.
Variable env : os.OS.
Variable n : Z.

Local Notation "'band_entry'" :=
  (fun s => get ("band_" ++ pretty n) (Infos_GeoPDF.dico_geopdf s)).

Lemma GeoPDF_erratum_band (pdfpath : string) (mess : pyval) :
  keeps band_entry (Infos_GeoPDF.erratum pdfpath mess).
Proof. unfold Infos_GeoPDF.erratum. frame. Qed.

Lemma GeoPDF_raster_basics_band (geopdf : gdal.Dataset) (pdfpath : string)
    (txt : gmap string string) :
  keeps band_entry (Infos_GeoPDF.raster_basics env geopdf pdfpath txt).
Proof. unfold Infos_GeoPDF.raster_basics. frame. Qed.

Lemma GeoPDF_infos_geom_band (geopdf : gdal.Dataset) (txt : gmap string string) :
  keeps band_entry (Infos_GeoPDF.infos_geom round geopdf txt).
Proof.
  unfold Infos_GeoPDF.infos_geom, Infos_GeoPDF.srs_type, Infos_GeoPDF.srs_name.
  frame.
Qed.

Lemma GeoPDF_layers_loop_band (geopdf_v : ogr.DataSource)
    (txt : gmap string string) (idxs : list Z) :
  forall names idx_acc total_fields total_objs,
    keeps band_entry
          (Infos_GeoPDF.layers_loop geopdf_v txt idxs names idx_acc
                                    total_fields total_objs).
Proof.
  induction idxs as [|layer_idx idxs IH]; intros; cbn [Infos_GeoPDF.layers_loop];
    frame; apply IH.
Qed.

Lemma GeoPDF_vector_view_band (ogr_open : gdal.opened ogr.DataSource)
    (pdfpath : string) (txt : gmap string string) :
  keeps band_entry (Infos_GeoPDF.vector_view ogr_open pdfpath txt).
Proof.
  unfold Infos_GeoPDF.vector_view. frame;
    first [apply GeoPDF_erratum_band | apply GeoPDF_layers_loop_band].
Qed.

End GeoPDFFrame.

(** The constructor of [ReadGeoPDF] never writes the entry of the band
    with index [band_count]. *)
Lemma GeoPDF_last_band_untouched (round : Q -> Z -> Q) (env : os.OS)
    (geopdf : gdal.Dataset) (ogr_open : gdal.opened ogr.DataSource)
    (err_gdal : pyval * pyval) (pdfpath tipo : string) (txt : gmap string string) :
  keeps (fun s => get ("band_" ++ pretty (gdal.RasterCount geopdf))
                      (Infos_GeoPDF.dico_geopdf s))
        (Infos_GeoPDF.__init__ round env (gdal.Opened geopdf) ogr_open err_gdal
                               pdfpath tipo txt).
Proof.
  unfold Infos_GeoPDF.__init__, Infos_GeoPDF.raster_view.
  frame;
    first [ apply GeoPDF_raster_basics_band
          | apply GeoPDF_infos_geom_band
          | apply GeoPDF_vector_view_band
          | apply GeoPDF_layers_loop_band ].
Qed.

(* ===================================================================== *)
(** * The category written in the record *)
(* ===================================================================== *)

Ltac peel H := apply bind_ok_inv in H as (? & ? & _ & H).

(** [infos_geom] of [InfosRasters], when it returns, has stored the text
    of the latest matching category under [srs_type]. *)
Lemma InfosGDAL_infos_geom_srs_type (ds : gdal.Dataset) (txt : gmap string string)
    (s s' : InfosGDAL.state) (c : Srs.category) :
  InfosGDAL.infos_geom (Some ds) txt s = (Ok tt, s') ->
  Srs.last_matching (gdal.GetSRS ds) = Some c ->
  get "srs_type" (InfosGDAL.dico_raster s')
  = Some (VStr (unicode_text (txt !! Srs.srs_key c))).
Proof.
  unfold InfosGDAL.infos_geom. intros H Hc.
  apply bind_ok_inv in H as (ds' & ? & Hds & H). injection Hds as <- _.
  do 10 peel H.
  apply bind_ok_inv in H as (t & s1 & Ht & H).
  rewrite InfosGDAL_srs_type_eq, Hc in Ht. injection Ht as <- <-.
  apply bind_ok_inv in H as (? & s2 & Hset & H). injection Hset as _ <-.
  match type of H with
  | ?rest ?s2 = _ =>
      assert (Hk : keeps (fun s => get "srs_type" (InfosGDAL.dico_raster s)) rest)
        by frame;
      specialize (Hk s2)
  end.
  rewrite H in Hk. cbn [snd] in Hk. rewrite Hk. cbn [InfosGDAL.dico_raster].
  apply get_setitem_eq.
Qed.

(** [infos_geom] of [InfosRasters] on a reference without category: the
    geotransform is read, then the exception leaves the method. *)
Lemma InfosGDAL_infos_geom_unreferenced (ds : gdal.Dataset)
    (txt : gmap string string) (s : InfosGDAL.state) :
  Srs.matching (gdal.GetSRS ds) = [] ->
  length (gdal.GetGeoTransform ds) = 6%nat ->
  fst (InfosGDAL.infos_geom (Some ds) txt s) = Raise UnboundLocalError.
Proof.
  intros Hnone Hlen. unfold InfosGDAL.infos_geom.
  unfold Py.bind at 1. cbn [attr Py.ret]. cbv zeta.
  destruct (gdal.GetGeoTransform ds) as [|g0 [|g1 [|g2 [|g3 [|g4 [|g5 [|]]]]]]];
    try discriminate Hlen.
  do 10 (unfold Py.bind at 1;
         cbn [index lookup list_lookup Py.ret InfosGDAL.set_raster Py.modify]).
  unfold Py.bind at 1. rewrite InfosGDAL_srs_type_eq.
  unfold Srs.last_matching. rewrite Hnone. reflexivity.
Qed.

(** [infos_geom] of [ReadGeoPDF], when it returns, has stored under
    [srs_type] the text of the latest matching category, or the text of
    [srs_nr] when no category matches. *)
Lemma GeoPDF_infos_geom_srs_type (round : Q -> Z -> Q) (geopdf : gdal.Dataset)
    (txt : gmap string string) (s s' : Infos_GeoPDF.state) :
  Infos_GeoPDF.infos_geom round geopdf txt s = (Ok tt, s') ->
  get "srs_type" (Infos_GeoPDF.dico_geopdf s')
  = Some (VStr (unicode_text
                  (match Srs.last_matching (gdal.GetSRS geopdf) with
                   | Some c => txt !! Srs.srs_key c
                   | None => txt !! "srs_nr"
                   end))).
Proof.
  unfold Infos_GeoPDF.infos_geom. intros H.
  do 10 peel H.
  apply bind_ok_inv in H as (t & s1 & Ht & H).
  rewrite GeoPDF_srs_type_eq in Ht. injection Ht as <- <-.
  apply bind_ok_inv in H as (? & s2 & Hset & H). injection Hset as _ <-.
  match type of H with
  | ?rest ?s2 = _ =>
      assert (Hk : keeps (fun s => get "srs_type" (Infos_GeoPDF.dico_geopdf s)) rest)
        by (unfold Infos_GeoPDF.srs_name; frame;
            apply GeoPDF_set_pdf_other; discriminate);
      specialize (Hk s2)
  end.
  rewrite H in Hk. cbn [snd] in Hk. rewrite Hk. cbn [Infos_GeoPDF.dico_geopdf].
  apply get_setitem_eq.
Qed.

(* ===================================================================== *)
(** * The category answered by the readers *)
(* ===================================================================== *)

(** C1 (as amended): for every reference that matches at least one category,
    both readers walk the tests in the order Compound, Geocentric,
    Geographic, Local, Projected, Vertical and answer the text of the LAST
    matching category of that order; it is the text that [infos_geom] has
    stored under [srs_type] when it returns. *)
Theorem srs_type_last_match (srs : gdal.SpatialReference)
    (txt : gmap string string) (c : Srs.category) :
  Srs.last_matching srs = Some c ->
  (forall st, InfosGDAL.srs_type srs txt st
              = (Ok (unicode_text (txt !! Srs.srs_key c)), st))
  /\ (forall st, Infos_GeoPDF.srs_type srs txt st
                 = (Ok (unicode_text (txt !! Srs.srs_key c)), st))
  /\ (forall ds s s',
        gdal.GetSRS ds = srs ->
        InfosGDAL.infos_geom (Some ds) txt s = (Ok tt, s') ->
        get "srs_type" (InfosGDAL.dico_raster s')
        = Some (VStr (unicode_text (txt !! Srs.srs_key c))))
  /\ (forall round geopdf s s',
        gdal.GetSRS geopdf = srs ->
        Infos_GeoPDF.infos_geom round geopdf txt s = (Ok tt, s') ->
        get "srs_type" (Infos_GeoPDF.dico_geopdf s')
        = Some (VStr (unicode_text (txt !! Srs.srs_key c)))).
Proof.
  intros Hc. split; [|split; [|split]].
  - intros st. now rewrite InfosGDAL_srs_type_eq, Hc.
  - intros st. now rewrite GeoPDF_srs_type_eq, Hc.
  - intros ds s s' <- H. exact (InfosGDAL_infos_geom_srs_type ds txt s s' c H Hc).
  - intros round geopdf s s' <- H.
    rewrite (GeoPDF_infos_geom_srs_type round geopdf txt s s' H). now rewrite Hc.
Qed.

Lemma srs_type_last_match_witness :
  Srs.last_matching Samples.srs_geog_proj = Some Srs.Projected
  /\ (forall st, InfosGDAL.srs_type Samples.srs_geog_proj textos st
                 = (Ok (unicode_text (textos !! Srs.srs_key Srs.Projected)), st))
  /\ (forall st, Infos_GeoPDF.srs_type Samples.srs_geog_proj textos st
                 = (Ok (unicode_text (textos !! Srs.srs_key Srs.Projected)), st)).
Proof.
  split; [reflexivity|].
  pose proof (srs_type_last_match Samples.srs_geog_proj textos Srs.Projected
                eq_refl) as (H1 & H2 & _).
  exact (conj H1 H2).
Defined.

(** C1 (as stated) fails: for a reference flagged both Geographic and
    Projected the earliest matching category is Geographic, and both
    readers answer "Projected". *)
Lemma srs_type_not_first_match :
  Srs.first_matching Samples.srs_geog_proj = Some Srs.Geographic
  /\ fst (InfosGDAL.srs_type Samples.srs_geog_proj textos
            Samples.empty_raster_state) = Ok "Projected"
  /\ fst (Infos_GeoPDF.srs_type Samples.srs_geog_proj textos
            Samples.empty_pdf_state) = Ok "Projected"
  /\ fst (InfosGDAL.srs_type Samples.srs_geog_proj textos
            Samples.empty_raster_state)
     <> Ok (unicode_text (textos !! Srs.srs_key Srs.Geographic))
  /\ get "srs_type"
       (InfosGDAL.dico_raster
          (snd (InfosGDAL.__init__ Samples.env_rasters
                  (gdal.Opened (Samples.dataset "/data/dem.tif" 1
                                  Samples.srs_geog_proj))
                  "/data/dem.tif" ".tif" textos Samples.empty_raster_state)))
     = Some (VStr "Projected").
Proof.
  split; [reflexivity|]. split; [reflexivity|]. split; [reflexivity|].
  split; [vm_compute; discriminate|]. vm_compute. reflexivity.
Qed.

(** When a single category matches, it is the one answered. *)
Lemma srs_type_single_match (srs : gdal.SpatialReference)
    (txt : gmap string string) (c : Srs.category) (st : InfosGDAL.state) :
  Srs.matching srs = [c] ->
  InfosGDAL.srs_type srs txt st = (Ok (unicode_text (txt !! Srs.srs_key c)), st).
Proof.
  intros H. rewrite InfosGDAL_srs_type_eq. unfold Srs.last_matching.
  now rewrite H.
Qed.

(** C4: for a reference that matches none of the six categories,
    [InfosRasters.infos_geom] reads the unassigned local [typsrs] and raises
    [UnboundLocalError], where [ReadGeoPDF.infos_geom] catches that
    exception and stores the text of the key [srs_nr]. *)
Theorem srs_type_no_match (srs : gdal.SpatialReference)
    (txt : gmap string string) :
  Srs.matching srs = [] ->
  (forall st, InfosGDAL.srs_type srs txt st = (Raise UnboundLocalError, st))
  /\ (forall st, Infos_GeoPDF.srs_type srs txt st
                 = (Ok (unicode_text (txt !! "srs_nr")), st))
  /\ (forall ds s,
        gdal.GetSRS ds = srs ->
        length (gdal.GetGeoTransform ds) = 6%nat ->
        fst (InfosGDAL.infos_geom (Some ds) txt s) = Raise UnboundLocalError)
  /\ (forall round geopdf s s',
        gdal.GetSRS geopdf = srs ->
        Infos_GeoPDF.infos_geom round geopdf txt s = (Ok tt, s') ->
        get "srs_type" (Infos_GeoPDF.dico_geopdf s')
        = Some (VStr (unicode_text (txt !! "srs_nr")))).
Proof.
  intros Hnone.
  assert (Hlast : Srs.last_matching srs = None)
    by (unfold Srs.last_matching; now rewrite Hnone).
  split; [|split; [|split]].
  - intros st. now rewrite InfosGDAL_srs_type_eq, Hlast.
  - intros st. now rewrite GeoPDF_srs_type_eq, Hlast.
  - intros ds s <- Hlen. now apply InfosGDAL_infos_geom_unreferenced.
  - intros round geopdf s s' <- H.
    rewrite (GeoPDF_infos_geom_srs_type round geopdf txt s s' H). now rewrite Hlast.
Qed.

Lemma srs_type_no_match_witness :
  Srs.matching Samples.srs_none = []
  /\ (forall st, InfosGDAL.srs_type Samples.srs_none textos st
                 = (Raise UnboundLocalError, st))
  /\ (forall st, Infos_GeoPDF.srs_type Samples.srs_none textos st
                 = (Ok (unicode_text (textos !! "srs_nr")), st))
  /\ fst (InfosGDAL.infos_geom
            (Some (Samples.dataset "/data/dem.tif" 1 Samples.srs_none)) textos
            Samples.empty_raster_state)
     = Raise UnboundLocalError.
Proof.
  split; [reflexivity|].
  pose proof (srs_type_no_match Samples.srs_none textos eq_refl)
    as (H1 & H2 & H3 & _).
  split; [exact H1|]. split; [exact H2|].
  apply (H3 (Samples.dataset "/data/dem.tif" 1 Samples.srs_none)); reflexivity.
Defined.

(** The exception leaves the constructor of the raster reader. *)
Example InfosRasters_unreferenced_raises :
  fst (InfosGDAL.__init__ Samples.env_rasters
         (gdal.Opened (Samples.dataset "/data/dem.tif" 1 Samples.srs_none))
         "/data/dem.tif" ".tif" textos Samples.empty_raster_state)
  = Raise UnboundLocalError.
Proof. vm_compute. reflexivity. Qed.

(* ===================================================================== *)
(** * The band that is never described *)
(* ===================================================================== *)

(** C2: the loops over the bands run over [range(1, band_count)], which
    stops before [band_count]: for every dataset that opens, neither
    constructor writes the record of the band with index [band_count].
    [InfosRasters] leaves the entry [band<count>_Min] of [dico_bands] as
    it was, [ReadGeoPDF] the entry [band_<count>] of its dictionary; for a
    dataset with a single band no band record is written at all. *)
Theorem band_loops_skip_last_band :
  (forall n, n ∉ range 1 n)
  /\ (forall env ds rasterpath tipo txt s,
        get ("band" ++ pretty (gdal.RasterCount ds) ++ "_Min")
            (InfosGDAL.dico_bands
               (snd (InfosGDAL.__init__ env (gdal.Opened ds) rasterpath tipo txt s)))
        = get ("band" ++ pretty (gdal.RasterCount ds) ++ "_Min")
              (InfosGDAL.dico_bands s))
  /\ (forall round env geopdf ogr_open err_gdal pdfpath tipo txt s,
        get ("band_" ++ pretty (gdal.RasterCount geopdf))
            (Infos_GeoPDF.dico_geopdf
               (snd (Infos_GeoPDF.__init__ round env (gdal.Opened geopdf) ogr_open
                       err_gdal pdfpath tipo txt s)))
        = get ("band_" ++ pretty (gdal.RasterCount geopdf))
              (Infos_GeoPDF.dico_geopdf s))
  /\ (let run :=
         InfosGDAL.__init__ Samples.env_rasters
           (gdal.Opened (Samples.dataset "/data/dem.tif" 1 Samples.srs_projected))
           "/data/dem.tif" ".tif" textos Samples.empty_raster_state in
      fst run = Ok tt
      /\ get "num_bands" (InfosGDAL.dico_raster (snd run)) = Some (VInt 1)
      /\ InfosGDAL.dico_bands (snd run) = [])
  /\ (let run :=
         Infos_GeoPDF.__init__ Samples.round_decimal Samples.env_rasters
           (gdal.Opened (Samples.dataset "/data/map.pdf" 1 Samples.srs_projected))
           (gdal.Opened Samples.pdf_vector) (VInt 0, VStr "")
           "/data/map.pdf" ".pdf" textos Samples.empty_pdf_state in
      fst run = Ok tt
      /\ get "num_bands" (Infos_GeoPDF.dico_geopdf (snd run)) = Some (VInt 1)
      /\ get "band_1" (Infos_GeoPDF.dico_geopdf (snd run)) = None).
Proof.
  split; [intros n; apply range_upper_excluded|].
  split.
  { intros env ds rasterpath tipo txt s. unfold InfosGDAL.__init__.
    cbn [gdal.open_result]. unfold Py.bind at 1.
    cbn [InfosGDAL.set_alert Py.modify]. unfold Py.bind at 1. cbn [Py.lift].
    now rewrite (InfosGDAL_init_body_last_band env ds rasterpath tipo txt). }
  split.
  { intros round env geopdf ogr_open err_gdal pdfpath tipo txt s.
    apply (GeoPDF_last_band_untouched round env geopdf ogr_open err_gdal
             pdfpath tipo txt s). }
  split; repeat split; vm_compute; reflexivity.
Qed.

(** With three bands, the bands 1 and 2 are described and band 3 is not. *)
Example InfosRasters_three_bands :
  keys (InfosGDAL.dico_bands
          (snd (InfosGDAL.__init__ Samples.env_rasters
                  (gdal.Opened (Samples.dataset "/data/dem.tif" 3 Samples.srs_projected))
                  "/data/dem.tif" ".tif" textos Samples.empty_raster_state)))
  = ["band1_Min"; "band1_Max"; "band1_NoData";
     "band2_Min"; "band2_Max"; "band2_NoData"].
Proof. vm_compute. reflexivity. Qed.

(* ===================================================================== *)
(** * Resources that cannot be opened *)
(* ===================================================================== *)

(** C3: when [gdal.Open] answers [None], the constructor of
    [InfosRasters] counts an alert but goes on: it writes [format], [name],
    [folder] and [title], then calls a method of the missing dataset and
    raises [AttributeError]; no [error] entry is written.  When
    [gdal.Open] raises, the exception leaves the constructor.  The
    constructor of [ReadGeoPDF], once it has entered the folder of the
    file, handles both cases by [erratum] and returns. *)
Theorem InfosRasters_unopened_raises :
  forall (env : os.OS) (rasterpath tipo : string) (txt : gmap string string),
    InfosGDAL.__init__ env gdal.OpenNone rasterpath tipo txt
                       Samples.empty_raster_state
    = (Raise AttributeError,
       {| InfosGDAL.dico_raster :=
            [("format", VStr tipo);
             ("name", VStr (posixpath.basename rasterpath));
             ("folder", VStr (posixpath.dirname rasterpath));
             ("title", VStr (capitalize (replace_char "_" " "
                               (drop_last 4 (posixpath.basename rasterpath)))))];
          InfosGDAL.dico_bands := [];
          InfosGDAL.alert := 1 |})
    /\ InfosGDAL.__init__ env gdal.OpenRaises rasterpath tipo txt
                          Samples.empty_raster_state
       = (Raise RuntimeError, Samples.empty_raster_state)
    /\ (forall round ogr_open err_gdal,
          os.enters env (posixpath.dirname rasterpath) = true ->
          let erratum_only :=
            (Ok tt,
             {| Infos_GeoPDF.dico_geopdf :=
                  [("name", VStr (posixpath.basename (os.abspath env rasterpath)));
                   ("folder", VStr (posixpath.dirname (os.abspath env rasterpath)));
                   ("error", VStr "err_incomp")];
                Infos_GeoPDF.alert := 1;
                Infos_GeoPDF.calls :=
                  [Infos_GeoPDF.gdal_Open (os.abspath env rasterpath)] |}) in
          Infos_GeoPDF.__init__ round env gdal.OpenNone ogr_open err_gdal
                                rasterpath tipo txt Samples.empty_pdf_state
          = erratum_only
          /\ Infos_GeoPDF.__init__ round env gdal.OpenRaises ogr_open err_gdal
                                   rasterpath tipo txt Samples.empty_pdf_state
             = erratum_only).
Proof.
  intros env rasterpath tipo txt. split; [reflexivity|]. split; [reflexivity|].
  intros round ogr_open err_gdal Hcd. unfold Infos_GeoPDF.__init__.
  rewrite Hcd. split; reflexivity.
Qed.

Lemma InfosRasters_unopened_raises_witness :
  os.enters Samples.env_rasters (posixpath.dirname "/data/map.pdf") = true
  /\ fst (InfosGDAL.__init__ Samples.env_rasters gdal.OpenNone "/data/dem.tif"
            ".tif" textos Samples.empty_raster_state)
     = Raise AttributeError
  /\ Infos_GeoPDF.__init__ Samples.round_decimal Samples.env_rasters gdal.OpenNone
       (gdal.Opened Samples.pdf_vector) (VInt 0, VStr "") "/data/map.pdf" ".pdf"
       textos Samples.empty_pdf_state
     = (Ok tt,
        {| Infos_GeoPDF.dico_geopdf :=
             [("name", VStr "map.pdf"); ("folder", VStr "/data");
              ("error", VStr "err_incomp")];
           Infos_GeoPDF.alert := 1;
           Infos_GeoPDF.calls := [Infos_GeoPDF.gdal_Open "/data/map.pdf"] |}).
Proof.
  split; [reflexivity|]. split.
  - exact (f_equal fst
             (proj1 (InfosRasters_unopened_raises Samples.env_rasters "/data/dem.tif"
                       ".tif" textos))).
  - exact (proj1 (proj2 (proj2 (InfosRasters_unopened_raises Samples.env_rasters
                                  "/data/map.pdf" ".pdf" textos))
                    Samples.round_decimal (gdal.Opened Samples.pdf_vector)
                    (VInt 0, VStr "") eq_refl)).
Defined.

(* ===================================================================== *)
(** * The erratum builders *)
(* ===================================================================== *)

(** C8 (as amended): on an empty record, [Utils.erratum] of a "flat"
    source and [ReadGeoPDF.erratum] write exactly [name], [folder] and
    [error], in that order, and nothing else; [Utils.erratum] of a
    "postgis" source writes exactly [name] (the message type) and
    [error]. *)
Theorem erratum_fields :
  forall (src : string) (mess_type mess : pyval),
    geoutils.erratum "flat" src mess_type mess []
    = (Ok true,
       [("name", VStr (posixpath.basename src));
        ("folder", VStr (posixpath.dirname src));
        ("error", mess)])
    /\ Infos_GeoPDF.erratum src mess Samples.empty_pdf_state
       = (Ok tt,
          {| Infos_GeoPDF.dico_geopdf :=
               [("name", VStr (posixpath.basename src));
                ("folder", VStr (posixpath.dirname src));
                ("error", mess)];
             Infos_GeoPDF.alert := 0;
             Infos_GeoPDF.calls := [] |})
    /\ geoutils.erratum "postgis" src mess_type mess []
       = (Ok true, [("name", mess_type); ("error", mess)]).
Proof. intros. repeat split. Qed.

(** C8 (as stated) fails: [Utils.erratum] of a "postgis" source given a
    resource path and an error kind leaves [folder] absent. *)
Lemma erratum_postgis_no_folder :
  keys (snd (geoutils.erratum "postgis" "/data/roads.shp" (VInt 1)
               (VStr "err_corrupt") []))
  = ["name"; "error"]
  /\ get "folder" (snd (geoutils.erratum "postgis" "/data/roads.shp" (VInt 1)
                          (VStr "err_corrupt") []))
     = None.
Proof. split; reflexivity. Qed.

(** [InfosRasters.erratum] on an instance the class builds: [self.layer]
    does not exist, and the method raises after [name] and [folder]. *)
Lemma InfosRasters_erratum_raises (layerpath : string) (mess : pyval) :
  InfosGDAL.erratum None layerpath mess []
  = (Raise AttributeError,
     [("name", VStr (posixpath.basename layerpath));
      ("folder", VStr (posixpath.dirname layerpath))]).
Proof. reflexivity. Qed.

(** Any other [ds_type] leaves the record untouched. *)
Lemma erratum_other_type (ds_type src : string) (mess_type mess : pyval)
    (d : odict) :
  ds_type <> "flat" -> ds_type <> "postgis" ->
  geoutils.erratum ds_type src mess_type mess d = (Ok false, d).
Proof.
  intros H1 H2. unfold geoutils.erratum.
  apply String.eqb_neq in H1, H2. now rewrite H1, H2.
Qed.

(* ===================================================================== *)
(** * The two views of a geospatial PDF *)
(* ===================================================================== *)

Lemma GeoPDF_erratum_eq (pdfpath : string) (mess : pyval)
    (s : Infos_GeoPDF.state) :
  Infos_GeoPDF.erratum pdfpath mess s
  = (Ok tt,
     {| Infos_GeoPDF.dico_geopdf :=
          Infos_GeoPDF.erratum_dict pdfpath mess (Infos_GeoPDF.dico_geopdf s);
        Infos_GeoPDF.alert := Infos_GeoPDF.alert s;
        Infos_GeoPDF.calls := Infos_GeoPDF.calls s |}).
Proof. reflexivity. Qed.

(** C9 (as amended): the constructor first changes the working
    directory to the folder of the file; when that fails, as it does for a
    path without folder, [OSError] leaves the constructor, which has opened
    nothing and written nothing.
    Otherwise the raster view is opened first.  When that open fails, the
    record receives the erratum [err_incomp] and the constructor returns:
    [ogr.Open] is not called.  When the raster view has been read and
    [ogr.Open] raises, the erratum [err_corrupt] is added to the record,
    which keeps the raster entries. *)
Theorem GeoPDF_views :
  forall (round : Q -> Z -> Q) (env : os.OS)
         (ogr_open : gdal.opened ogr.DataSource) (err_gdal : pyval * pyval)
         (pdfpath tipo : string) (txt : gmap string string)
         (s : Infos_GeoPDF.state),
    let p := os.abspath env pdfpath in
    (os.enters env (posixpath.dirname pdfpath) = false ->
     forall gdal_open,
       Infos_GeoPDF.__init__ round env gdal_open ogr_open err_gdal pdfpath tipo txt s
       = (Raise OSError, s))
    /\ (posixpath.dirname pdfpath = "" ->
        os.enters env (posixpath.dirname pdfpath) = false)
    /\ (os.enters env (posixpath.dirname pdfpath) = true ->
        (let erratum_only :=
           (Ok tt,
            {| Infos_GeoPDF.dico_geopdf :=
                 Infos_GeoPDF.erratum_dict p (VStr "err_incomp")
                                           (Infos_GeoPDF.dico_geopdf s);
               Infos_GeoPDF.alert := 1;
               Infos_GeoPDF.calls :=
                 (Infos_GeoPDF.calls s ++ [Infos_GeoPDF.gdal_Open p])%list |}) in
         Infos_GeoPDF.__init__ round env gdal.OpenNone ogr_open err_gdal pdfpath tipo txt s
         = erratum_only
         /\ Infos_GeoPDF.__init__ round env gdal.OpenRaises ogr_open err_gdal pdfpath tipo txt s
            = erratum_only)
        /\ (forall geopdf s1,
              Infos_GeoPDF.raster_view round env geopdf p tipo txt err_gdal
                {| Infos_GeoPDF.dico_geopdf := Infos_GeoPDF.dico_geopdf s;
                   Infos_GeoPDF.alert := 0;
                   Infos_GeoPDF.calls :=
                     (Infos_GeoPDF.calls s ++ [Infos_GeoPDF.gdal_Open p])%list |}
              = (Ok tt, s1) ->
              Infos_GeoPDF.__init__ round env (gdal.Opened geopdf) gdal.OpenRaises
                                    err_gdal pdfpath tipo txt s
              = (Ok tt,
                 {| Infos_GeoPDF.dico_geopdf :=
                      Infos_GeoPDF.erratum_dict p (VStr "err_corrupt")
                                                (Infos_GeoPDF.dico_geopdf s1);
                    Infos_GeoPDF.alert := Infos_GeoPDF.alert s1 + 1;
                    Infos_GeoPDF.calls :=
                      (Infos_GeoPDF.calls s1 ++ [Infos_GeoPDF.ogr_Open p])%list |}))).
Proof.
  intros round env ogr_open err_gdal pdfpath tipo txt s p.
  split; [|split].
  - intros Hcd gdal_open. unfold Infos_GeoPDF.__init__. now rewrite Hcd.
  - intros ->. reflexivity.
  - intros Hcd. split.
    + unfold Infos_GeoPDF.__init__. rewrite Hcd. split; reflexivity.
    + intros geopdf s1 Hraster.
      unfold Infos_GeoPDF.__init__. rewrite Hcd. fold p.
      unfold Py.bind at 1. cbn [Py.ret].
      unfold Py.bind at 1. cbn [Infos_GeoPDF.set_alert Py.modify].
      unfold Py.bind at 1. cbn [Infos_GeoPDF.log_call Py.modify
        Infos_GeoPDF.dico_geopdf Infos_GeoPDF.alert Infos_GeoPDF.calls].
      unfold Py.bind at 1. rewrite Hraster. reflexivity.
Qed.

Lemma GeoPDF_views_witness :
  let s0 := {| Infos_GeoPDF.dico_geopdf := [];
               Infos_GeoPDF.alert := 0;
               Infos_GeoPDF.calls := [Infos_GeoPDF.gdal_Open "/data/map.pdf"] |} in
  let geopdf := Samples.dataset "/data/map.pdf" 1 Samples.srs_projected in
  let s1 := snd (Infos_GeoPDF.raster_view Samples.round_decimal Samples.env_rasters
                   geopdf "/data/map.pdf" ".pdf" textos (VInt 0, VStr "") s0) in
  os.enters Samples.env_rasters (posixpath.dirname "/data/map.pdf") = true
  /\ Infos_GeoPDF.raster_view Samples.round_decimal Samples.env_rasters
       geopdf "/data/map.pdf" ".pdf" textos (VInt 0, VStr "") s0 = (Ok tt, s1)
  /\ Infos_GeoPDF.__init__ Samples.round_decimal Samples.env_rasters
       (gdal.Opened geopdf) gdal.OpenRaises (VInt 0, VStr "")
       "/data/map.pdf" ".pdf" textos Samples.empty_pdf_state
     = (Ok tt,
        {| Infos_GeoPDF.dico_geopdf :=
             Infos_GeoPDF.erratum_dict "/data/map.pdf" (VStr "err_corrupt")
                                       (Infos_GeoPDF.dico_geopdf s1);
           Infos_GeoPDF.alert := Infos_GeoPDF.alert s1 + 1;
           Infos_GeoPDF.calls :=
             (Infos_GeoPDF.calls s1 ++ [Infos_GeoPDF.ogr_Open "/data/map.pdf"])%list |})
  /\ os.enters Samples.env_rasters (posixpath.dirname "map.pdf") = false
  /\ Infos_GeoPDF.__init__ Samples.round_decimal Samples.env_rasters
       (gdal.Opened geopdf) (gdal.Opened Samples.pdf_vector) (VInt 0, VStr "")
       "map.pdf" ".pdf" textos Samples.empty_pdf_state
     = (Raise OSError, Samples.empty_pdf_state).
Proof.
  intros s0 geopdf s1. split; [reflexivity|].
  split; [vm_compute; reflexivity|]. split.
  - apply (proj2 (proj2 (proj2 (GeoPDF_views Samples.round_decimal Samples.env_rasters
                                  gdal.OpenRaises (VInt 0, VStr "") "/data/map.pdf" ".pdf"
                                  textos Samples.empty_pdf_state)) eq_refl) geopdf s1).
    vm_compute; reflexivity.
  - split; [reflexivity|].
    apply (proj1 (GeoPDF_views Samples.round_decimal Samples.env_rasters
                    (gdal.Opened Samples.pdf_vector) (VInt 0, VStr "") "map.pdf"
                    ".pdf" textos Samples.empty_pdf_state) eq_refl).
Defined.

(** C9 (as stated) fails: with a raster view that cannot be opened and a
    vector view that can, the constructor performs the raster open only;
    the layers of the vector view are not enumerated.  When both views
    open, the same vector view yields its layer count. *)
Lemma GeoPDF_raster_failure_skips_vector :
  let run := fun gdal_open =>
    snd (Infos_GeoPDF.__init__ Samples.round_decimal Samples.env_rasters
           gdal_open (gdal.Opened Samples.pdf_vector) (VInt 0, VStr "")
           "/data/map.pdf" ".pdf" textos Samples.empty_pdf_state) in
  Infos_GeoPDF.calls (run gdal.OpenNone) = [Infos_GeoPDF.gdal_Open "/data/map.pdf"]
  /\ keys (Infos_GeoPDF.dico_geopdf (run gdal.OpenNone)) = ["name"; "folder"; "error"]
  /\ get "layers_count" (Infos_GeoPDF.dico_geopdf (run gdal.OpenNone)) = None
  /\ Infos_GeoPDF.calls (run gdal.OpenRaises) = [Infos_GeoPDF.gdal_Open "/data/map.pdf"]
  /\ get "layers_count" (Infos_GeoPDF.dico_geopdf (run gdal.OpenRaises)) = None
  /\ get "layers_count"
       (Infos_GeoPDF.dico_geopdf
          (run (gdal.Opened (Samples.dataset "/data/map.pdf" 1 Samples.srs_projected))))
     = Some (VInt 1).
Proof. repeat split; vm_compute; reflexivity. Qed.

(* ===================================================================== *)
(** * Utils.sizeof and its list of dependencies *)
(* ===================================================================== *)

Lemma sum_sizes_ok (getsize : string -> option Z) (files : list string) :
  (forall f, f ∈ files -> is_Some (getsize f)) ->
  exists total, sizefmt.sum_sizes getsize files = Ok total.
Proof.
  induction files as [|f files IH]; intros Hall; cbn [sizefmt.sum_sizes].
  - eauto.
  - destruct (Hall f) as [n Hn]; [left|]. rewrite Hn.
    destruct IH as [t Ht]; [intros g Hg; apply Hall; now right|].
    rewrite Ht. eauto.
Qed.

(** C10 (as amended): when the source path is an existing file and the
    size of every listed dependency and of the source can be read,
    [sizeof] answers a text and leaves the list of dependencies with the
    contents it had before the call. *)
Theorem sizeof_keeps_dependencies (env : os.OS) (source_path : string)
    (dependencies : list string) :
  os.isfile env source_path = true ->
  (forall f, f ∈ (dependencies ++ [source_path])%list ->
             is_Some (os.getsize env f)) ->
  exists size,
    geoutils.sizeof env source_path dependencies = (Ok (Some size), dependencies).
Proof.
  intros Hfile Hsizes. unfold geoutils.sizeof. rewrite Hfile.
  destruct (sum_sizes_ok _ _ Hsizes) as [total Htotal].
  unfold Py.bind, Py.modify, Py.gets, Py.lift, Py.ret. rewrite Htotal.
  rewrite removelast_last. eauto.
Qed.

Lemma sizeof_keeps_dependencies_witness :
  os.isfile Samples.env_with_dep "/d/a.shp" = true
  /\ (forall f, f ∈ ["/d/a.dbf"; "/d/a.shp"] ->
                is_Some (os.getsize Samples.env_with_dep f))
  /\ exists size,
       geoutils.sizeof Samples.env_with_dep "/d/a.shp" ["/d/a.dbf"]
       = (Ok (Some size), ["/d/a.dbf"]).
Proof.
  assert (Hsizes : forall f, f ∈ ["/d/a.dbf"; "/d/a.shp"] ->
                             is_Some (os.getsize Samples.env_with_dep f)).
  { intros f Hf. apply elem_of_cons in Hf as [-> | Hf]; [vm_compute; eauto|].
    apply elem_of_cons in Hf as [-> | Hf]; [vm_compute; eauto|].
    now apply elem_of_nil in Hf. }
  split; [reflexivity|]. split; [exact Hsizes|].
  apply (sizeof_keeps_dependencies Samples.env_with_dep "/d/a.shp" ["/d/a.dbf"]);
    [reflexivity | exact Hsizes].
Defined.

(** C10 (as stated) fails: the source is an existing file, the size of a
    listed dependency cannot be read, [os.error] leaves the method before
    [pop], and the list keeps the appended source path. *)
Lemma sizeof_leaves_source_appended :
  os.isfile Samples.env_missing_dep "/d/a.shp" = true
  /\ geoutils.sizeof Samples.env_missing_dep "/d/a.shp" ["a.dbf"]
     = (Raise OSError, ["a.dbf"; "/d/a.shp"])
  /\ snd (geoutils.sizeof Samples.env_missing_dep "/d/a.shp" ["a.dbf"])
     <> ["a.dbf"].
Proof. repeat split; vm_compute; try reflexivity. discriminate. Qed.

(** The default list is one object for all the calls that omit the
    argument: what a call leaves in it is what the next call starts from. *)
Lemma sizeof_default_list_shared (env : os.OS) (p1 p2 : string)
    (default : list string) :
  snd (Py.bind (geoutils.sizeof env p1) (fun _ => geoutils.sizeof env p2) default)
  = match geoutils.sizeof env p1 default with
    | (Ok _, d) => snd (geoutils.sizeof env p2 d)
    | (Raise _, d) => d
    end.
Proof.
  unfold Py.bind. destruct (geoutils.sizeof env p1 default) as [[r|e] d]; reflexivity.
Qed.

(* ===================================================================== *)
(** * Byte strings and unicode objects *)
(* ===================================================================== *)

Lemma is_ascii_app (a b : string) :
  is_ascii (a ++ b) = is_ascii a && is_ascii b.
Proof.
  induction a as [|c a IH]; rewrite ?append_nil_l, ?append_cons;
    cbn [is_ascii]; [reflexivity|].
  rewrite IH. apply andb_assoc.
Qed.

Lemma is_ascii_substring (s : string) :
  forall n m, is_ascii s = true -> is_ascii (substring n m s) = true.
Proof.
  induction s as [|c s IH]; intros [|n] [|m] H; cbn [substring is_ascii] in *;
    try reflexivity.
  - apply andb_true_iff in H as [Hc Hs]. rewrite Hc. now apply IH.
  - apply andb_true_iff in H as [_ Hs]. now apply IH.
  - apply andb_true_iff in H as [_ Hs]. now apply IH.
Qed.

Lemma is_ascii_drop_last (n : nat) (s : string) :
  is_ascii s = true -> is_ascii (drop_last n s) = true.
Proof. apply is_ascii_substring. Qed.

(** The three shapes of a joined path. *)
Lemma join_cases (a b : string) :
  posixpath.join a b = b
  \/ posixpath.join a b = a ++ b
  \/ posixpath.join a b = a ++ "/" ++ b.
Proof.
  unfold posixpath.join.
  repeat match goal with
         | |- context [match ?x with _ => _ end] => destruct x
         end; auto.
Qed.

Lemma is_ascii_join (a b : string) :
  is_ascii a = true -> is_ascii b = true -> is_ascii (posixpath.join a b) = true.
Proof.
  intros Ha Hb. destruct (join_cases a b) as [-> | [-> | ->]]; [exact Hb| |];
    rewrite !is_ascii_app, Ha, Hb; reflexivity.
Qed.

(** A name without a slash is added to the folder. *)
Lemma join_relative (a b : string) :
  "/"%char ∉ list_ascii_of_string b ->
  (posixpath.join a b = a ++ b \/ posixpath.join a b = a ++ "/" ++ b)
  /\ posixpath.join_unicode a b
     = if is_ascii a then Ok (posixpath.join a b) else Raise UnicodeDecodeError.
Proof.
  intros Hb. unfold posixpath.join_unicode, posixpath.join.
  destruct b as [|c b].
  - split; [|reflexivity]. destruct (_ || _); auto.
  - assert (Hc : c <> "/"%char).
    { intros ->. apply Hb. cbn. left. }
    destruct c as [[] [] [] [] [] [] [] []]; try (now contradict Hc);
      (split; [destruct (_ || _); auto|reflexivity]).
Qed.

Lemma join_unicode_ok (a u v : string) :
  posixpath.join_unicode a u = Ok v -> v = posixpath.join a u.
Proof.
  unfold posixpath.join_unicode, posixpath.join.
  repeat match goal with
         | |- context [match ?x with _ => _ end] => destruct x
         end; intros [= <-]; reflexivity.
Qed.

Lemma codes_text_of (p : string) : codes (Walk.text_of p) = p.
Proof. unfold Walk.text_of. destruct (is_ascii p); reflexivity. Qed.

Lemma and_then_ok (a b : bool) : and_then (Ok a) (Ok b) = Ok (a && b).
Proof. destruct a; reflexivity. Qed.

Lemma or_else_ok (a b : bool) : or_else (Ok a) (Ok b) = Ok (a || b).
Proof. destruct a; reflexivity. Qed.

Lemma isfile_u_ascii (env : os.OS) (u : string) :
  is_ascii u = true -> os.isfile_u env u = Ok (os.isfile env u).
Proof. intros H. unfold os.isfile_u. now rewrite H. Qed.

(** The names of a traversal in ASCII give full paths in ASCII. *)
Lemma ascii_tree_triple (env : os.OS) (top : string)
    (triple : string * list string * list string) :
  Walk.ascii_tree env top = true -> triple ∈ os.walk env top ->
  (forall d, d ∈ snd (fst triple) ->
             is_ascii (posixpath.join (fst (fst triple)) d) = true)
  /\ (forall f, f ∈ snd triple ->
                is_ascii (posixpath.join (fst (fst triple)) f) = true).
Proof.
  unfold Walk.ascii_tree. rewrite forallb_forall. intros H Hin.
  apply list_elem_of_In in Hin. specialize (H _ Hin).
  apply andb_true_iff in H as [H Hf]. apply andb_true_iff in H as [Hr Hd].
  rewrite forallb_forall in Hd, Hf.
  split; intros x Hx; apply list_elem_of_In in Hx; apply is_ascii_join; auto.
Qed.

Lemma ascii_tree_paths (env : os.OS) (top p : string) :
  Walk.ascii_tree env top = true -> p ∈ Walk.paths env top -> is_ascii p = true.
Proof.
  intros H Hp. unfold Walk.paths in Hp.
  apply list_elem_of_In, in_flat_map in Hp as (triple & Hin & Hp).
  apply in_map_iff in Hp as (f & <- & Hf).
  apply list_elem_of_In in Hin, Hf.
  now apply (proj2 (ascii_tree_triple env top triple H Hin)).
Qed.

(* ===================================================================== *)
(** * The candidates of a format *)
(* ===================================================================== *)

(** What a format asks of the extension of the lower-cased path. *)
Lemma qualifies_extension (env : os.OS) (fm : DicoGIS.fmt) (p : string) :
  Walk.qualifies env fm p = true ->
  match fm with
  | DicoGIS.Shp => lower (snd (posixpath.splitext (lower p))) = ".shp"
  | DicoGIS.Tab => snd (posixpath.splitext (lower p)) = ".tab"
  | DicoGIS.Kml => snd (posixpath.splitext (lower p)) = ".kml"
  | DicoGIS.Gml => snd (posixpath.splitext (lower p)) = ".gml"
  | DicoGIS.Geoj => snd (posixpath.splitext (lower p)) = ".geojson"
  | DicoGIS.Raster => snd (posixpath.splitext (lower p)) ∈ [".ecw"; ".tif"; ".jp2"]
  end.
Proof.
  destruct fm; cbn [Walk.qualifies]; rewrite ?andb_true_iff, ?String.eqb_eq;
    try tauto.
  apply bool_decide_eq_true.
Qed.

(** No file is a candidate of two formats. *)
Lemma qualifies_exclusive (env : os.OS) (fm fm' : DicoGIS.fmt) (p : string) :
  Walk.qualifies env fm p = true -> Walk.qualifies env fm' p = true -> fm = fm'.
Proof.
  intros H H'. apply qualifies_extension in H, H'.
  destruct fm, fm'; try reflexivity;
    rewrite ?elem_of_cons, ?elem_of_nil in *;
    repeat match goal with
           | H : _ \/ _ |- _ => destruct H
           | H : False |- _ => destruct H
           end;
    match goal with
    | E : snd _ = _ |- _ => rewrite E in *; discriminate
    end.
Qed.

Lemma format_of_qualifies (env : os.OS) (fm : DicoGIS.fmt) (p : string) :
  Walk.format_of env p = Some fm <-> Walk.qualifies env fm p = true.
Proof.
  unfold Walk.format_of. split.
  - intros H. now apply find_some in H as [_ H].
  - intros H.
    destruct (List.find _ _) as [fm'|] eqn:F.
    + apply find_some in F as [_ F]. f_equal.
      exact (qualifies_exclusive env fm' fm p F H).
    + pose proof (find_none _ _ F fm) as N. cbv beta in N.
      rewrite H in N. enough (true = false) by discriminate.
      apply N. destruct fm; cbn; tauto.
Qed.

Lemma qualifies_shp_iff (env : os.OS) (p : string) :
  Walk.qualifies env DicoGIS.Shp p = true
  <-> Walk.shp_extension p /\ Walk.sidecars_lower_or_upper env p.
Proof.
  unfold Walk.qualifies, Walk.beside, Walk.shp_extension,
    Walk.sidecars_lower_or_upper.
  rewrite !andb_true_iff, !orb_true_iff, String.eqb_eq. tauto.
Qed.

Lemma qualifies_tab_iff (env : os.OS) (p : string) :
  Walk.qualifies env DicoGIS.Tab p = true
  <-> Folders.extension p = ".tab" /\ Folders.tab_sidecars_lower_or_upper env p.
Proof.
  unfold Walk.qualifies, Walk.beside, Folders.extension,
    Folders.tab_sidecars_lower_or_upper.
  rewrite !andb_true_iff, !orb_true_iff, String.eqb_eq. tauto.
Qed.

(** A path with the extension [.shp] that lacks a sidecar is a candidate
    of no format. *)
Lemma shp_extension_no_format (env : os.OS) (p : string) (fm : DicoGIS.fmt) :
  Walk.shp_extension p -> ~ Walk.sidecars_lower_or_upper env p ->
  Walk.qualifies env fm p = false.
Proof.
  intros Hext Hside. destruct (Walk.qualifies env fm p) eqn:H; [|reflexivity].
  exfalso. destruct fm.
  - apply qualifies_shp_iff in H. tauto.
  - apply qualifies_extension in H. unfold Walk.shp_extension in Hext.
    rewrite H in Hext. discriminate.
  - apply qualifies_extension in H. unfold Walk.shp_extension in Hext.
    rewrite H in Hext. discriminate.
  - apply qualifies_extension in H. unfold Walk.shp_extension in Hext.
    rewrite H in Hext. discriminate.
  - apply qualifies_extension in H. unfold Walk.shp_extension in Hext.
    rewrite H in Hext. discriminate.
  - apply qualifies_extension in H. unfold Walk.shp_extension in Hext.
    rewrite !elem_of_cons, elem_of_nil in H.
    destruct H as [H|[H|[H|[]]]]; rewrite H in Hext; discriminate.
Qed.

Lemma kind_of_qualifies (env : os.OS) (k : DicoShapes.kind) (p : string) :
  Walk.kind_of env p = Some k <-> Walk.qualifies_shapes env k p = true.
Proof.
  unfold Walk.kind_of. cbn [List.find]. split.
  - destruct (Walk.qualifies_shapes env DicoShapes.Shp p) eqn:H1;
      [now intros [= <-]|].
    destruct (Walk.qualifies_shapes env DicoShapes.Tab p) eqn:H2;
      [now intros [= <-]|discriminate].
  - intros H. destruct k.
    + now rewrite H.
    + destruct (Walk.qualifies_shapes env DicoShapes.Shp p) eqn:H1.
      * exfalso. cbn [Walk.qualifies_shapes] in H, H1.
        rewrite !andb_true_iff, String.eqb_eq in H, H1.
        destruct H as [[[E _] _] _], H1 as [[[E1 _] _] _]. congruence.
      * now rewrite H.
Qed.

Lemma qualifies_shapes_shp_iff (env : os.OS) (p : string) :
  Walk.qualifies_shapes env DicoShapes.Shp p = true
  <-> snd (posixpath.splitext p) = ".shp" /\ Walk.sidecars_lower env p.
Proof.
  unfold Walk.qualifies_shapes, Walk.sidecars_lower.
  rewrite !andb_true_iff, String.eqb_eq. tauto.
Qed.

Lemma qualifies_shapes_tab_iff (env : os.OS) (p : string) :
  Walk.qualifies_shapes env DicoShapes.Tab p = true
  <-> snd (posixpath.splitext p) = ".tab" /\ Folders.tab_sidecars_lower env p.
Proof.
  unfold Walk.qualifies_shapes, Folders.tab_sidecars_lower.
  rewrite !andb_true_iff, String.eqb_eq. tauto.
Qed.

(* ===================================================================== *)
(** * The folder walk of DicoGIS *)
(* ===================================================================== *)

Section DicoGISWalk.

Variable env : os.OS.

Lemma is_list_items (q : pyseq) : Walk.is_list q -> q = PyList (items q).
Proof. now intros [l ->]. Qed.

Lemma get_set_li (fm fm' : DicoGIS.fmt) (l : pyseq) (s : DicoGIS.state) :
  DicoGIS.get_li fm (DicoGIS.set_li fm' l s)
  = if decide (fm = fm') then l else DicoGIS.get_li fm s.
Proof. destruct fm, fm'; reflexivity. Qed.

(** A full path in ASCII stays the byte string that [path.join] made. *)
Lemma full_path_ascii (root f : string) (s : DicoGIS.state) :
  is_ascii (posixpath.join root f) = true ->
  DicoGIS.full_path env root f s = (Ok (Bytes (posixpath.join root f)), s).
Proof.
  intros H. unfold DicoGIS.full_path, try_except, Py.bind, Py.lift, Py.ret, unicode.
  now rewrite H.
Qed.

(** Whatever the names are, [full_path] leaves the state as it is, and the
    text it answers has the codes of the joined path. *)
Lemma full_path_inv (root f : string) (s s' : DicoGIS.state) (r : result text) :
  DicoGIS.full_path env root f s = (r, s') ->
  s' = s /\ forall t, r = Ok t -> t = Walk.text_of (posixpath.join root f).
Proof.
  unfold DicoGIS.full_path, try_except, Py.bind, Py.lift, Py.ret, unicode,
    decode_latin1, Walk.text_of.
  destruct (is_ascii (posixpath.join root f)) eqn:E.
  - intros [= <- <-]. split; [reflexivity|]. now intros t [= <-].
  - destruct (posixpath.join_unicode root f) as [u|e] eqn:J.
    + apply join_unicode_ok in J. subst u.
      destruct (os.print_text env _) as [[]|e]; intros [= <- <-];
        (split; [reflexivity|]); [now intros t [= <-]|discriminate].
    + intros [= <- <-]. split; [reflexivity|discriminate].
Qed.

(** Under a folder that is not in ASCII, no full path can be made. *)
Lemma full_path_raises (root f : string) (s : DicoGIS.state) :
  is_ascii root = false -> "/"%char ∉ list_ascii_of_string f ->
  DicoGIS.full_path env root f s = (Raise UnicodeDecodeError, s).
Proof.
  intros Hroot Hf. destruct (join_relative root f Hf) as [Hj Hu].
  unfold DicoGIS.full_path, try_except, Py.bind, Py.lift, Py.ret, unicode,
    decode_latin1.
  assert (E : is_ascii (posixpath.join root f) = false).
  { destruct Hj as [-> | ->]; rewrite is_ascii_app, Hroot; reflexivity. }
  rewrite E, Hu, Hroot. reflexivity.
Qed.

Lemma sidecar_ascii (p lo up : string) :
  is_ascii p = true -> is_ascii lo = true -> is_ascii up = true ->
  DicoGIS.sidecar env (Bytes p) lo up = Ok (Walk.beside env p lo up).
Proof.
  intros Hp Hlo Hup. unfold DicoGIS.sidecar, DicoGIS.base, unicode.
  rewrite (is_ascii_drop_last 4 p Hp).
  rewrite !isfile_u_ascii
    by (rewrite is_ascii_app, (is_ascii_drop_last 4 p Hp); assumption).
  apply or_else_ok.
Qed.

(** On a path in ASCII the chain of tests raises nothing and finds the
    first format of which the file is a candidate. *)
Lemma classify_ascii (p : string) :
  is_ascii p = true -> DicoGIS.classify env (Bytes p) = Ok (Walk.format_of env p).
Proof.
  intros Hp. unfold DicoGIS.classify, DicoGIS.is_shp, DicoGIS.is_tab.
  rewrite !sidecar_ascii by (exact Hp || reflexivity).
  rewrite !and_then_ok.
  unfold Walk.format_of.
  cbn [List.find Walk.qualifies lowered DicoGIS.ext].
  unfold eq_literal, DicoGIS.li_raster_formats. cbn [codes].
  rewrite <- !andb_assoc.
  repeat match goal with
         | |- context [if ?b then _ else _] => destruct b
         | |- context [match Ok ?b with _ => _ end] => destruct b
         end; reflexivity.
Qed.

Lemma select_app (fm : DicoGIS.fmt) (ps qs : list string) :
  Walk.select env fm (ps ++ qs) = (Walk.select env fm ps ++ Walk.select env fm qs)%list.
Proof. unfold Walk.select. apply filter_app. Qed.

Lemma adds_lists_ok (ps : list string) (s s' : DicoGIS.state) :
  Walk.adds env ps s s' -> Walk.lists_ok s'.
Proof.
  intros (Hli & Hgdb & _). split; [|exact Hgdb].
  intros fm. rewrite Hli. now eexists.
Qed.

Lemma adds_nil (s : DicoGIS.state) : Walk.lists_ok s -> Walk.adds env [] s s.
Proof.
  intros [Hli Hgdb]. repeat split; [|exact Hgdb].
  intros fm. cbn. rewrite app_nil_r. now apply is_list_items.
Qed.

Lemma adds_trans (ps qs : list string) (s s1 s2 : DicoGIS.state) :
  Walk.adds env ps s s1 -> Walk.adds env qs s1 s2 ->
  Walk.adds env (ps ++ qs) s s2.
Proof.
  intros (H1 & _ & E1) (H2 & G2 & E2). repeat split; [|exact G2|congruence].
  intros fm. rewrite H2, H1. cbn [items]. now rewrite select_app, app_assoc.
Qed.

(** A loop whose iterations add files adds the files of all of them. *)
Lemma for_each_adds {A : Type} (l : list A) (body : A -> M DicoGIS.state unit)
    (f : A -> list string) :
  (forall x s, x ∈ l -> Walk.lists_ok s ->
               exists s', body x s = (Ok tt, s') /\ Walk.adds env (f x) s s') ->
  forall s, Walk.lists_ok s ->
            exists s', for_each l body s = (Ok tt, s')
                       /\ Walk.adds env (flat_map f l) s s'.
Proof.
  induction l as [|x l IH]; intros Hbody s Hs; cbn [for_each flat_map].
  - exists s. split; [reflexivity|]. now apply adds_nil.
  - destruct (Hbody x s ltac:(left) Hs) as (s1 & E1 & A1).
    destruct (IH (fun y st Hy => Hbody y st ltac:(right; exact Hy)) s1
                 (adds_lists_ok _ _ _ A1)) as (s2 & E2 & A2).
    exists s2. split; [|now apply (adds_trans _ _ _ s1)].
    unfold Py.bind. now rewrite E1.
Qed.

Lemma file_step_adds (root f : string) (s : DicoGIS.state) :
  is_ascii (posixpath.join root f) = true ->
  Walk.lists_ok s ->
  exists s', DicoGIS.file_step env root f s = (Ok tt, s')
             /\ Walk.adds env [posixpath.join root f] s s'.
Proof.
  intros Hp [Hli Hgdb]. unfold DicoGIS.file_step, Py.bind.
  rewrite full_path_ascii by exact Hp. unfold Py.lift.
  rewrite classify_ascii by exact Hp. cbn [codes].
  unfold Walk.adds, Walk.select.
  destruct (Walk.format_of env (posixpath.join root f)) as [fm0|] eqn:Hc.
  - unfold DicoGIS.append_li. rewrite (is_list_items _ (Hli fm0)). cbn [seq_append].
    eexists. split; [reflexivity|]. repeat split; [|exact Hgdb].
    intros fm. rewrite get_set_li.
    rewrite filter_cons, filter_nil. destruct (decide (fm = fm0)) as [->|Hne].
    + rewrite decide_True by assumption. reflexivity.
    + rewrite decide_False by congruence. rewrite app_nil_r.
      now apply is_list_items.
  - exists s. split; [reflexivity|]. repeat split; [|exact Hgdb].
    intros fm. rewrite filter_cons, filter_nil, decide_False by congruence.
    rewrite app_nil_r. now apply is_list_items.
Qed.

Lemma dir_step_adds (root d : string) (s : DicoGIS.state) :
  is_ascii (posixpath.join root d) = true ->
  Walk.lists_ok s ->
  exists s', DicoGIS.dir_step env root d s = (Ok tt, s')
             /\ Walk.adds env [] s s'.
Proof.
  intros Hp [Hli Hgdb]. unfold DicoGIS.dir_step, Py.bind.
  rewrite full_path_ascii by exact Hp.
  destruct (eq_literal _ ".gdb").
  - unfold Py.lift, os.abspath_text, os.print_text, DicoGIS.append_gdb.
    rewrite (is_list_items _ Hgdb). cbn [seq_append].
    eexists. split; [reflexivity|]. repeat split; cbn; [|now eexists].
    intros fm. rewrite app_nil_r. pose proof (Hli fm) as Hfm.
    destruct fm; cbn in *; now apply is_list_items.
  - exists s. split; [reflexivity|]. now apply adds_nil.
Qed.

Lemma flat_map_nil {A B : Type} (l : list A) :
  flat_map (fun _ : A => @nil B) l = [].
Proof. induction l; cbn; auto. Qed.

Lemma flat_map_singleton {A B : Type} (g : A -> B) (l : list A) :
  flat_map (fun x => [g x]) l = map g l.
Proof. induction l; cbn; congruence. Qed.

(** The loop over the triples of a walk whose names are in ASCII. *)
Lemma walk_loop_adds (top : string) (s : DicoGIS.state) :
  Walk.ascii_tree env top = true ->
  Walk.lists_ok s ->
  exists s',
    for_each (os.walk env top)
      (fun triple =>
         let root := fst (fst triple) in
         let dirs := snd (fst triple) in
         let files := snd triple in
         DicoGIS.add_folders (Z.of_nat (length dirs)) ;;;
         for_each dirs (DicoGIS.dir_step env root) ;;;
         for_each files (DicoGIS.file_step env root)) s
    = (Ok tt, s')
    /\ Walk.adds env (Walk.paths env top) s s'.
Proof.
  intros Hascii Hs. unfold Walk.paths. apply for_each_adds; [|exact Hs].
  intros [[root dirs] files] s0 Hin Hs0.
  destruct (ascii_tree_triple env top _ Hascii Hin) as [Hd Hf].
  cbn [fst snd] in *.
  assert (Hs1 : Walk.lists_ok
                  (snd (DicoGIS.add_folders (Z.of_nat (length dirs)) s0))).
  { destruct Hs0 as [Hli Hgdb]. split; [|exact Hgdb]. intros fm.
    pose proof (Hli fm) as Hfm. destruct fm; exact Hfm. }
  destruct (for_each_adds dirs (DicoGIS.dir_step env root) (fun _ => [])
              (fun d st Hin' => dir_step_adds root d st (Hd d Hin')) _ Hs1)
    as (s2 & E2 & A2).
  destruct (for_each_adds files (DicoGIS.file_step env root)
              (fun f => [posixpath.join root f])
              (fun f st Hin' => file_step_adds root f st (Hf f Hin'))
              _ (adds_lists_ok _ _ _ A2)) as (s3 & E3 & A3).
  exists s3. split.
  - unfold Py.bind at 1. cbn [DicoGIS.add_folders Py.modify].
    unfold Py.bind at 1. cbn [snd DicoGIS.add_folders Py.modify] in E2.
    rewrite E2. exact E3.
  - rewrite flat_map_nil in A2. rewrite flat_map_singleton in A3.
    pose proof (adds_trans _ _ _ _ _ A2 A3) as A. cbn [app] in A.
    destruct A as (Hli & Hgdb & Herr). repeat split; [|exact Hgdb|exact Herr].
    intros fm. rewrite Hli. destruct fm; reflexivity.
Qed.

(** After [ligeofiles] over a tree whose names are in ASCII, each of the
    six lists is the sorted tuple of the walked files of its format,
    whatever the lists held before. *)
Lemma ligeofiles_spec (top : string) (s : DicoGIS.state) :
  Walk.ascii_tree env top = true ->
  Walk.is_list (DicoGIS.li_gdb s) ->
  exists s',
    DicoGIS.ligeofiles env top s = (Ok tt, s')
    /\ (forall fm, DicoGIS.get_li fm s'
                   = PyTuple (sort (Walk.select env fm (Walk.paths env top))))
    /\ Walk.is_list (DicoGIS.li_gdb s')
    /\ DicoGIS.dico_err s' = DicoGIS.dico_err s.
Proof.
  intros Hascii Hgdb. unfold DicoGIS.ligeofiles.
  unfold Py.bind at 1. cbn [DicoGIS.reset Py.modify].
  unfold Py.bind at 1.
  match goal with
  | |- context [for_each _ _ ?s0] =>
      destruct (walk_loop_adds top s0 Hascii) as (s1 & E1 & Hli & Hgdb1 & Herr)
  end.
  { split; [|exact Hgdb]. intros fm. destruct fm; now eexists. }
  cbv zeta in E1 |- *. rewrite E1.
  destruct s1 as [l1 l2 l3 l4 l5 l6 g n e].
  pose proof (Hli DicoGIS.Shp) as H1. pose proof (Hli DicoGIS.Tab) as H2.
  pose proof (Hli DicoGIS.Kml) as H3. pose proof (Hli DicoGIS.Gml) as H4.
  pose proof (Hli DicoGIS.Geoj) as H5. pose proof (Hli DicoGIS.Raster) as H6.
  cbn in H1, H2, H3, H4, H5, H6, Hgdb1, Herr. subst l1 l2 l3 l4 l5 l6.
  eexists. split; [reflexivity|]. repeat split; [|exact Hgdb1|exact Herr].
  intros fm. destruct fm; reflexivity.
Qed.

Lemma ligeofiles_elem_of (top : string) (s : DicoGIS.state) (fm : DicoGIS.fmt)
    (p : string) :
  Walk.ascii_tree env top = true ->
  Walk.is_list (DicoGIS.li_gdb s) ->
  p ∈ items (DicoGIS.get_li fm (snd (DicoGIS.ligeofiles env top s)))
  <-> p ∈ Walk.paths env top /\ Walk.qualifies env fm p = true.
Proof.
  intros Hascii Hgdb.
  destruct (ligeofiles_spec top s Hascii Hgdb) as (s1 & E & Hli & _ & _).
  rewrite E. cbn [snd]. rewrite Hli. cbn [items].
  rewrite sort_elem_of. unfold Walk.select.
  rewrite list_elem_of_filter, format_of_qualifies. tauto.
Qed.

(** A folder that is not in ASCII and lists a name stops the method at
    that name: the fallback decoding of the name does not help, since the
    decoded name is joined to the byte string of the folder. *)
Lemma ligeofiles_aborts (top root x : string) (dirs files : list string)
    (rest : list (string * list string * list string)) (s : DicoGIS.state) :
  os.walk env top = (root, dirs, files) :: rest ->
  is_ascii root = false ->
  head (dirs ++ files) = Some x ->
  "/"%char ∉ list_ascii_of_string x ->
  fst (DicoGIS.ligeofiles env top s) = Raise UnicodeDecodeError.
Proof.
  intros Hwalk Hroot Hx Hslash. unfold DicoGIS.ligeofiles. rewrite Hwalk.
  unfold Py.bind at 1. cbn [DicoGIS.reset Py.modify].
  unfold Py.bind at 1. cbn [for_each fst snd].
  unfold Py.bind at 1. unfold Py.bind at 1. cbn [DicoGIS.add_folders Py.modify].
  unfold Py.bind at 1.
  destruct dirs as [|d dirs].
  - destruct files as [|f files]; [discriminate|]. injection Hx as ->.
    cbn [for_each Py.ret]. unfold Py.bind at 1. unfold DicoGIS.file_step at 1.
    unfold Py.bind at 1. now rewrite full_path_raises.
  - injection Hx as ->. cbn [for_each]. unfold Py.bind at 1.
    unfold DicoGIS.dir_step at 1. unfold Py.bind at 1.
    now rewrite full_path_raises.
Qed.

End DicoGISWalk.

(* ===================================================================== *)
(** * The folder walk of DicoShapes *)
(* ===================================================================== *)

Section DicoShapesWalk.

Variable env : os.OS.

(** When the path without its last four characters is in ASCII, the two
    tests raise nothing and send the file to the list of which it is a
    candidate. *)
Lemma DicoShapes_classify_base (p : string) :
  is_ascii (drop_last 4 p) = true ->
  DicoShapes.classify env p = Ok (Walk.kind_of env p).
Proof.
  intros E. unfold DicoShapes.classify, DicoShapes.is_shp, DicoShapes.is_tab,
    DicoShapes.companion, unicode.
  rewrite E. rewrite !isfile_u_ascii by (rewrite is_ascii_app, E; reflexivity).
  rewrite !and_then_ok. unfold Walk.kind_of.
  cbn [List.find Walk.qualifies_shapes]. rewrite <- !andb_assoc.
  repeat match goal with
         | |- context [if ?b then _ else _] => destruct b
         | |- context [match Ok ?b with _ => _ end] => destruct b
         end; reflexivity.
Qed.

(** Otherwise the first companion that is looked for raises, and a file
    that is neither [.shp] nor [.tab] is skipped. *)
Lemma DicoShapes_classify_cases (p : string) :
  DicoShapes.classify env p = Ok (Walk.kind_of env p)
  \/ DicoShapes.classify env p = Raise UnicodeDecodeError.
Proof.
  destruct (is_ascii (drop_last 4 p)) eqn:E;
    [left; now apply DicoShapes_classify_base|].
  unfold DicoShapes.classify, DicoShapes.is_shp, DicoShapes.is_tab,
    DicoShapes.companion, unicode, Walk.kind_of.
  rewrite E. cbn [List.find Walk.qualifies_shapes].
  destruct (String.eqb (snd (posixpath.splitext p)) ".shp"); [now right|].
  destruct (String.eqb (snd (posixpath.splitext p)) ".tab"); [now right|].
  now left.
Qed.

Lemma DicoShapes_classify_ascii (p : string) :
  is_ascii p = true -> DicoShapes.classify env p = Ok (Walk.kind_of env p).
Proof. intros H. now apply DicoShapes_classify_base, is_ascii_drop_last. Qed.

Local Notation "'answered' ps" :=
  (forall p, p ∈ ps -> DicoShapes.classify env p = Ok (Walk.kind_of env p))
  (at level 10, ps at level 9).

Local Notation "'lists' l1 l2" :=
  {| DicoShapes.li_shp := PyList l1; DicoShapes.li_tab := PyList l2 |}
  (at level 10, l1 at level 9, l2 at level 9).

Local Notation "'tuples' t1 t2" :=
  {| DicoShapes.li_shp := PyTuple t1; DicoShapes.li_tab := PyTuple t2 |}
  (at level 10, t1 at level 9, t2 at level 9).

Lemma DicoShapes_files_loop (root : string) (files : list string) :
  answered (map (posixpath.join root) files) ->
  forall l1 l2,
    for_each files (DicoShapes.file_step env root) (lists l1 l2)
    = (Ok tt,
       lists (l1 ++ Walk.select_kind env DicoShapes.Shp (map (posixpath.join root) files))
             (l2 ++ Walk.select_kind env DicoShapes.Tab (map (posixpath.join root) files))).
Proof.
  unfold Walk.select_kind.
  induction files as [|f files IH]; intros Hans l1 l2; cbn [for_each map].
  - rewrite !filter_nil, !app_nil_r. reflexivity.
  - cbn [map] in Hans.
    assert (Hrest : answered (map (posixpath.join root) files))
      by (intros p Hp; apply Hans; now right).
    unfold Py.bind, DicoShapes.file_step, Py.lift.
    rewrite (Hans _ ltac:(left)). rewrite !filter_cons.
    destruct (Walk.kind_of env (posixpath.join root f)) as [[]|] eqn:Hk.
    + cbn. rewrite (IH Hrest). rewrite decide_True by reflexivity.
      rewrite decide_False by discriminate. now rewrite <- app_assoc.
    + cbn. rewrite (IH Hrest). rewrite decide_False by discriminate.
      rewrite decide_True by reflexivity. now rewrite <- app_assoc.
    + cbn. rewrite (IH Hrest). rewrite !decide_False by discriminate.
      reflexivity.
Qed.

(** A loop over the files that ends normally has met no test that
    raises. *)
Lemma DicoShapes_files_loop_ok (root : string) (files : list string) :
  forall s s',
    for_each files (DicoShapes.file_step env root) s = (Ok tt, s') ->
    answered (map (posixpath.join root) files).
Proof.
  induction files as [|f files IH]; intros s s' H p Hp; cbn [map] in Hp.
  - now apply elem_of_nil in Hp.
  - cbn [for_each] in H. apply bind_ok_inv in H as ([] & s1 & E1 & H).
    apply elem_of_cons in Hp as [-> | Hp]; [|exact (IH s1 s' H p Hp)].
    unfold DicoShapes.file_step, Py.bind, Py.lift in E1.
    destruct (DicoShapes_classify_cases (posixpath.join root f)) as [C|C];
      [exact C|]. rewrite C in E1. discriminate E1.
Qed.

Local Notation "'walked' triples" :=
  (flat_map (fun t : string * list string * list string =>
               map (posixpath.join (fst (fst t))) (snd t)) triples)
  (at level 10, triples at level 9).

Lemma DicoShapes_walk_loop (triples : list (string * list string * list string)) :
  answered (walked triples) ->
  forall l1 l2,
    for_each triples
      (fun triple => for_each (snd triple)
                       (DicoShapes.file_step env (fst (fst triple))))
      (lists l1 l2)
    = (Ok tt,
       lists (l1 ++ Walk.select_kind env DicoShapes.Shp (walked triples))
             (l2 ++ Walk.select_kind env DicoShapes.Tab (walked triples))).
Proof.
  unfold Walk.select_kind.
  induction triples as [|t triples IH]; intros Hans l1 l2; cbn [for_each flat_map].
  - rewrite !filter_nil, !app_nil_r. reflexivity.
  - cbn [flat_map] in Hans.
    unfold Py.bind. rewrite DicoShapes_files_loop
      by (intros p Hp; apply Hans, elem_of_app; now left).
    rewrite IH by (intros p Hp; apply Hans, elem_of_app; now right).
    unfold Walk.select_kind. now rewrite !filter_app, !app_assoc.
Qed.

Lemma DicoShapes_walk_loop_ok (triples : list (string * list string * list string)) :
  forall s s',
    for_each triples
      (fun triple => for_each (snd triple)
                       (DicoShapes.file_step env (fst (fst triple)))) s
    = (Ok tt, s') ->
    answered (walked triples).
Proof.
  induction triples as [|t triples IH]; intros s s' H p Hp; cbn [flat_map] in Hp.
  - now apply elem_of_nil in Hp.
  - cbn [for_each] in H. apply bind_ok_inv in H as ([] & s1 & E1 & H).
    apply elem_of_app in Hp as [Hp | Hp].
    + exact (DicoShapes_files_loop_ok _ _ _ _ E1 p Hp).
    + exact (IH s1 s' H p Hp).
Qed.

(** The first run on a new window, when no test raises. *)
Lemma DicoShapes_first_run (top : string) :
  answered (Walk.paths env top) ->
  DicoShapes.ligeofiles env top DicoShapes.fresh
  = (Ok tt,
     tuples (sort (Walk.select_kind env DicoShapes.Shp (Walk.paths env top)))
            (sort (Walk.select_kind env DicoShapes.Tab (Walk.paths env top)))).
Proof.
  intros Hans. unfold DicoShapes.ligeofiles, DicoShapes.fresh, Py.bind.
  rewrite (DicoShapes_walk_loop _ Hans). reflexivity.
Qed.

(** A first run that ends normally has met no test that raises. *)
Lemma DicoShapes_first_run_ok (top : string) (s : DicoShapes.state) :
  fst (DicoShapes.ligeofiles env top s) = Ok tt ->
  answered (Walk.paths env top).
Proof.
  unfold DicoShapes.ligeofiles. unfold Py.bind at 1.
  destruct (for_each _ _ s) as [[[]|e] s1] eqn:E; [|discriminate].
  intros _. exact (DicoShapes_walk_loop_ok _ _ _ E).
Qed.

Lemma DicoShapes_ascii_answered (top : string) :
  Walk.ascii_tree env top = true -> answered (Walk.paths env top).
Proof.
  intros H p Hp. apply DicoShapes_classify_ascii.
  exact (ascii_tree_paths env top p H Hp).
Qed.

(** Once the lists are tuples, the loops can only raise or do nothing. *)
Lemma DicoShapes_files_loop_tuples (root : string) (files : list string)
    (t1 t2 : list string) :
  answered (map (posixpath.join root) files) ->
  for_each files (DicoShapes.file_step env root) (tuples t1 t2)
  = (Ok tt, tuples t1 t2)
  \/ for_each files (DicoShapes.file_step env root) (tuples t1 t2)
     = (Raise AttributeError, tuples t1 t2).
Proof.
  induction files as [|f files IH]; intros Hans; cbn [for_each]; [now left|].
  cbn [map] in Hans.
  unfold Py.bind, DicoShapes.file_step, Py.lift. rewrite (Hans _ ltac:(left)).
  destruct (Walk.kind_of env (posixpath.join root f)) as [[]|];
    [now right|now right|].
  cbn. apply IH. intros p Hp. apply Hans. now right.
Qed.

Lemma DicoShapes_second_run (top : string) (t1 t2 : list string) :
  answered (Walk.paths env top) ->
  DicoShapes.ligeofiles env top (tuples t1 t2)
  = (Raise AttributeError, tuples t1 t2).
Proof.
  intros Hans. unfold DicoShapes.ligeofiles.
  assert (Hloop : forall triples : list (string * list string * list string),
             answered (walked triples) ->
             for_each triples
               (fun triple => for_each (snd triple)
                                (DicoShapes.file_step env (fst (fst triple))))
               (tuples t1 t2)
             = (Ok tt, tuples t1 t2)
             \/ for_each triples
                  (fun triple => for_each (snd triple)
                                   (DicoShapes.file_step env (fst (fst triple))))
                  (tuples t1 t2)
                = (Raise AttributeError, tuples t1 t2)).
  { induction triples as [|t triples IH]; intros Ht; cbn [for_each]; [now left|].
    cbn [flat_map] in Ht. unfold Py.bind.
    destruct (DicoShapes_files_loop_tuples (fst (fst t)) (snd t) t1 t2) as [E|E];
      [intros p Hp; apply Ht, elem_of_app; now left| |];
      rewrite E; [|now right].
    apply IH. intros p Hp. apply Ht, elem_of_app. now right. }
  unfold Py.bind at 1.
  destruct (Hloop (os.walk env top) Hans) as [E|E]; rewrite E; reflexivity.
Qed.

Lemma DicoShapes_elem_of (top : string) (k : DicoShapes.kind) (p : string) :
  answered (Walk.paths env top) ->
  let t' := snd (DicoShapes.ligeofiles env top DicoShapes.fresh) in
  p ∈ items (match k with
             | DicoShapes.Shp => DicoShapes.li_shp t'
             | DicoShapes.Tab => DicoShapes.li_tab t'
             end)
  <-> p ∈ Walk.paths env top /\ Walk.qualifies_shapes env k p = true.
Proof.
  intros Hans. cbv zeta. rewrite (DicoShapes_first_run top Hans).
  cbn [snd DicoShapes.li_shp DicoShapes.li_tab].
  destruct k; cbn [items]; rewrite sort_elem_of; unfold Walk.select_kind;
    rewrite list_elem_of_filter, kind_of_qualifies; tauto.
Qed.

(** On lists, a loop over the files ends normally or with the
    [UnicodeDecodeError] of a test, and leaves lists. *)
Lemma DicoShapes_files_loop_outcome (root : string) (files : list string) :
  forall l1 l2, exists r l1' l2',
    for_each files (DicoShapes.file_step env root) (lists l1 l2)
    = (r, lists l1' l2')
    /\ (r = Ok tt \/ r = Raise UnicodeDecodeError).
Proof.
  induction files as [|f files IH]; intros l1 l2; cbn [for_each].
  - exists (Ok tt), l1, l2. split; [reflexivity|now left].
  - unfold Py.bind, DicoShapes.file_step, Py.lift.
    destruct (DicoShapes_classify_cases (posixpath.join root f)) as [C|C];
      rewrite C.
    + destruct (Walk.kind_of env (posixpath.join root f)) as [[]|]; cbn; apply IH.
    + exists (Raise UnicodeDecodeError), l1, l2. split; [reflexivity|now right].
Qed.

Lemma DicoShapes_first_run_outcome (top : string) :
  fst (DicoShapes.ligeofiles env top DicoShapes.fresh) = Ok tt
  \/ fst (DicoShapes.ligeofiles env top DicoShapes.fresh) = Raise UnicodeDecodeError.
Proof.
  unfold DicoShapes.ligeofiles, DicoShapes.fresh.
  assert (Hloop : forall (triples : list (string * list string * list string)) l1 l2,
             exists r l1' l2',
               for_each triples
                 (fun triple => for_each (snd triple)
                                  (DicoShapes.file_step env (fst (fst triple))))
                 (lists l1 l2)
               = (r, lists l1' l2')
               /\ (r = Ok tt \/ r = Raise UnicodeDecodeError)).
  { induction triples as [|t triples IH]; intros l1 l2; cbn [for_each].
    - exists (Ok tt), l1, l2. split; [reflexivity|now left].
    - unfold Py.bind.
      destruct (DicoShapes_files_loop_outcome (fst (fst t)) (snd t) l1 l2)
        as (r & l1' & l2' & E & [-> | ->]); rewrite E.
      + apply IH.
      + exists (Raise UnicodeDecodeError), l1', l2'. split; [reflexivity|now right]. }
  destruct (Hloop (os.walk env top) [] []) as (r & l1' & l2' & E & [-> | ->]);
    [left|right]; unfold Py.bind at 1; rewrite E; reflexivity.
Qed.

End DicoShapesWalk.

(** A folder that is not in ASCII stops both programs: the main program
    at the first file, whose decoded name cannot be joined to the folder,
    the stand-alone program at the shapefile, whose companions cannot be
    named. *)
Example accent_in_folder_aborts :
  DicoGIS.ligeofiles MoreSamples.env_accent "/d" DicoGIS.fresh
  = (Raise UnicodeDecodeError, DicoGIS.fresh)
  /\ DicoShapes.ligeofiles MoreSamples.env_accent "/d" DicoShapes.fresh
     = (Raise UnicodeDecodeError, DicoShapes.fresh).
Proof. split; vm_compute; reflexivity. Qed.

(* ===================================================================== *)
(** * Shapefile candidates *)
(* ===================================================================== *)

(** C5 (as amended): over a tree whose names are in ASCII, a walked file
    is in the shapefile list of [DicoGIS.ligeofiles] if and only if its
    extension is [.shp], letter case ignored, and for each of [.dbf],
    [.shx], [.prj] a file named by the base name and that extension in lower
    case or in upper case exists; a [.shp] file without these sidecars is in
    none of the lists, and the record of errors is untouched.
    [DicoShapes.ligeofiles] lists the files with the extension [.shp]
    exactly whose three sidecars exist with the lower-case extensions. *)
Theorem shapefile_candidates (env : os.OS) (top : string) (s : DicoGIS.state) :
  Walk.ascii_tree env top = true ->
  Walk.is_list (DicoGIS.li_gdb s) ->
  let s' := snd (DicoGIS.ligeofiles env top s) in
  let t' := snd (DicoShapes.ligeofiles env top DicoShapes.fresh) in
  fst (DicoGIS.ligeofiles env top s) = Ok tt
  /\ (forall p, p ∈ items (DicoGIS.li_shp s')
                <-> p ∈ Walk.paths env top /\ Walk.shp_extension p
                    /\ Walk.sidecars_lower_or_upper env p)
  /\ (forall p fm, Walk.shp_extension p ->
                   ~ Walk.sidecars_lower_or_upper env p ->
                   p ∉ items (DicoGIS.get_li fm s'))
  /\ DicoGIS.dico_err s' = DicoGIS.dico_err s
  /\ fst (DicoShapes.ligeofiles env top DicoShapes.fresh) = Ok tt
  /\ (forall p, p ∈ items (DicoShapes.li_shp t')
                <-> p ∈ Walk.paths env top /\ snd (posixpath.splitext p) = ".shp"
                    /\ Walk.sidecars_lower env p).
Proof.
  intros Hascii Hgdb s' t'.
  pose proof (DicoShapes_ascii_answered env top Hascii) as Hans.
  destruct (ligeofiles_spec env top s Hascii Hgdb) as (s1 & E & Hli & _ & Herr).
  pose proof (ligeofiles_elem_of env top s) as Hin.
  pose proof (DicoShapes_elem_of env top DicoShapes.Shp) as Hin'.
  subst s' t'. cbv zeta in Hin'. rewrite E in *.
  rewrite (DicoShapes_first_run env top Hans) in *. cbn [fst snd] in *.
  split; [reflexivity|]. split; [|split; [|split; [exact Herr|split; [reflexivity|]]]].
  - intros p. change (DicoGIS.li_shp s1) with (DicoGIS.get_li DicoGIS.Shp s1).
    rewrite (Hin DicoGIS.Shp p Hascii Hgdb), qualifies_shp_iff. tauto.
  - intros p fm Hext Hside. rewrite (Hin fm p Hascii Hgdb).
    rewrite (shp_extension_no_format env p fm Hext Hside). intros [_ H].
    discriminate H.
  - intros p. rewrite (Hin' p Hans), qualifies_shapes_shp_iff. tauto.
Qed.

Lemma shapefile_candidates_witness :
  Walk.ascii_tree Samples.env_folder "/d" = true
  /\ Walk.is_list (DicoGIS.li_gdb DicoGIS.fresh)
  /\ (forall p, p ∈ items (DicoGIS.li_shp
                             (snd (DicoGIS.ligeofiles Samples.env_folder "/d"
                                     DicoGIS.fresh)))
                <-> p ∈ Walk.paths Samples.env_folder "/d"
                    /\ Walk.shp_extension p
                    /\ Walk.sidecars_lower_or_upper Samples.env_folder p).
Proof.
  assert (H : Walk.is_list (DicoGIS.li_gdb DicoGIS.fresh)) by (now eexists).
  split; [reflexivity|]. split; [exact H|].
  exact (proj1 (proj2 (shapefile_candidates Samples.env_folder "/d" DicoGIS.fresh
                         eq_refl H))).
Defined.

(** C5 (as stated) fails: the walked file [/d/a.shp] has the siblings
    [a.Dbf], [a.shx] and [a.prj], so each sidecar exists in some letter
    case, and it is not in the shapefile list. *)
Lemma shapefile_mixed_case_sidecar_excluded :
  "/d/a.shp" ∈ Walk.paths Samples.env_mixed_case "/d"
  /\ Walk.shp_extension "/d/a.shp"
  /\ Walk.sidecars_any_case Samples.env_mixed_case "/d/a.shp"
  /\ "/d/a.shp" ∉ items (DicoGIS.li_shp
                           (snd (DicoGIS.ligeofiles Samples.env_mixed_case "/d"
                                   DicoGIS.fresh))).
Proof.
  split; [apply (bool_decide_unpack _); vm_compute; exact I|].
  split; [reflexivity|].
  split.
  - repeat split; [exists ".Dbf" | exists ".shx" | exists ".prj"];
      split; reflexivity.
  - apply (bool_decide_unpack _). vm_compute. exact I.
Qed.

(* ===================================================================== *)
(** * DicoGIS.ligeofiles: the geodatabases and the count of folders *)
(* ===================================================================== *)

Section DicoGISFolders.

Variable env : os.OS.

Lemma keeps_append_li {T : Type} (g : pyseq * Z -> T) (fm : DicoGIS.fmt) (p : string) :
  keeps (fun s => g (DicoGIS.li_gdb s, DicoGIS.num_folders s)) (DicoGIS.append_li fm p).
Proof.
  intros s. unfold DicoGIS.append_li. destruct (seq_append p _); reflexivity.
Qed.

Lemma keeps_sort_li {T : Type} (g : pyseq * Z -> T) (fm : DicoGIS.fmt) :
  keeps (fun s => g (DicoGIS.li_gdb s, DicoGIS.num_folders s)) (DicoGIS.sort_li fm).
Proof.
  intros s. unfold DicoGIS.sort_li. destruct (seq_sort _); reflexivity.
Qed.

Lemma keeps_file_step {T : Type} (g : pyseq * Z -> T) (root f : string) :
  keeps (fun s => g (DicoGIS.li_gdb s, DicoGIS.num_folders s))
        (DicoGIS.file_step env root f).
Proof.
  unfold DicoGIS.file_step, DicoGIS.full_path.
  apply keeps_bind; [frame|]. intros t.
  apply keeps_bind; [frame|]. intros [fm|];
    [apply keeps_append_li | apply keeps_ret].
Qed.

Lemma gdb_adds_trans (ds es : list string) (n m : Z) (s s1 s2 : DicoGIS.state) :
  Folders.gdb_adds env ds n s s1 -> Folders.gdb_adds env es m s1 s2 ->
  Folders.gdb_adds env (ds ++ es) (n + m) s s2.
Proof.
  intros [H1 N1] [H2 N2]. split.
  - rewrite H2, H1. cbn [items]. now rewrite filter_app, map_app, app_assoc.
  - lia.
Qed.

Lemma dir_step_gdb (root d : string) (s : DicoGIS.state) :
  is_ascii (posixpath.join root d) = true ->
  Walk.is_list (DicoGIS.li_gdb s) ->
  exists s', DicoGIS.dir_step env root d s = (Ok tt, s')
             /\ Folders.gdb_adds env [posixpath.join root d] 0 s s'
             /\ (forall fm, DicoGIS.get_li fm s' = DicoGIS.get_li fm s).
Proof.
  intros Hp [l Hl]. unfold DicoGIS.dir_step, Py.bind.
  rewrite full_path_ascii by exact Hp.
  unfold Folders.gdb_adds. rewrite filter_cons, filter_nil.
  change (eq_literal (lowered (DicoGIS.last4 (Bytes (posixpath.join root d)))) ".gdb")
    with (Folders.is_gdb (posixpath.join root d)).
  destruct (Folders.is_gdb (posixpath.join root d)) eqn:E.
  - unfold Py.lift, os.abspath_text, os.print_text, DicoGIS.append_gdb.
    rewrite Hl. cbn [seq_append].
    eexists. split; [reflexivity|]. cbn. rewrite decide_True by done.
    repeat split; try lia; try (intros fm; now destruct fm).
  - eexists. split; [reflexivity|]. rewrite decide_False by done.
    cbn [map]. rewrite app_nil_r, Hl. cbn [items].
    repeat split; try lia.
Qed.

Lemma dirs_loop_gdb (root : string) (dirs : list string) :
  (forall d, d ∈ dirs -> is_ascii (posixpath.join root d) = true) ->
  forall s, Walk.is_list (DicoGIS.li_gdb s) ->
    exists s', for_each dirs (DicoGIS.dir_step env root) s = (Ok tt, s')
               /\ Folders.gdb_adds env (map (posixpath.join root) dirs) 0 s s'
               /\ (forall fm, DicoGIS.get_li fm s' = DicoGIS.get_li fm s).
Proof.
  induction dirs as [|d dirs IH]; intros Hd s Hs.
  - exists s. split; [reflexivity|]. destruct Hs as [l Hl]. split; [|done].
    split; [|lia]. cbn [map]. rewrite filter_nil. cbn [map].
    now rewrite app_nil_r, Hl.
  - destruct (dir_step_gdb root d s (Hd d ltac:(left)) Hs) as (s1 & E1 & A1 & L1).
    assert (Hs1 : Walk.is_list (DicoGIS.li_gdb s1)).
    { destruct A1 as [-> _]. now eexists. }
    destruct (IH (fun x Hx => Hd x ltac:(right; exact Hx)) s1 Hs1)
      as (s2 & E2 & A2 & L2).
    exists s2. split; [|split].
    + cbn [for_each]. unfold Py.bind. now rewrite E1.
    + apply (gdb_adds_trans _ _ 0 0 s s1 s2 A1 A2).
    + intros fm. now rewrite L2, L1.
Qed.

Lemma triple_gdb (triple : string * list string * list string) (s : DicoGIS.state) :
  (forall d, d ∈ snd (fst triple) ->
             is_ascii (posixpath.join (fst (fst triple)) d) = true) ->
  (forall f, f ∈ snd triple ->
             is_ascii (posixpath.join (fst (fst triple)) f) = true) ->
  Walk.lists_ok s ->
  exists s',
    (let root := fst (fst triple) in
     let dirs := snd (fst triple) in
     let files := snd triple in
     DicoGIS.add_folders (Z.of_nat (length dirs)) ;;;
     for_each dirs (DicoGIS.dir_step env root) ;;;
     for_each files (DicoGIS.file_step env root)) s = (Ok tt, s')
    /\ Folders.gdb_adds env (map (posixpath.join (fst (fst triple))) (snd (fst triple)))
         (Z.of_nat (length (snd (fst triple)))) s s'
    /\ Walk.lists_ok s'.
Proof.
  destruct triple as [[root dirs] files]. cbn [fst snd]. intros Hd Hf [Hli Hgdb].
  cbv zeta. unfold Py.bind at 1. unfold DicoGIS.add_folders at 1, Py.modify.
  set (s0 := {| DicoGIS.li_shp := DicoGIS.li_shp s |}).
  assert (H0 : Walk.is_list (DicoGIS.li_gdb s0)) by exact Hgdb.
  destruct (dirs_loop_gdb root dirs Hd s0 H0) as (s1 & E1 & [G1 N1] & L1).
  assert (Hok1 : Walk.lists_ok s1).
  { split.
    - intros fm. rewrite L1. pose proof (Hli fm) as Hfm. now destruct fm.
    - rewrite G1. now eexists. }
  destruct (for_each_adds env files (DicoGIS.file_step env root)
              (fun f => [posixpath.join root f])
              (fun f st Hin Hst => file_step_adds env root f st (Hf f Hin) Hst) s1 Hok1)
    as (s2 & E2 & A2).
  exists s2. unfold Py.bind. rewrite E1, E2. split; [reflexivity|].
  pose proof (keeps_for_each (fun st => (DicoGIS.li_gdb st, DicoGIS.num_folders st))
                files (DicoGIS.file_step env root)
                (fun f _ => keeps_file_step (fun x => x) root f) s1) as K.
  rewrite E2 in K. cbn [snd] in K. injection K as Kg Kn.
  split; [|exact (adds_lists_ok env _ _ _ A2)].
  split.
  - rewrite Kg, G1. reflexivity.
  - rewrite Kn, N1. subst s0. cbn. lia.
Qed.

Lemma walk_loop_gdb (top : string)
    (triples : list (string * list string * list string)) :
  Walk.ascii_tree env top = true ->
  (forall t, t ∈ triples -> t ∈ os.walk env top) ->
  forall s, Walk.lists_ok s ->
    exists s',
      for_each triples
        (fun triple =>
           let root := fst (fst triple) in
           let dirs := snd (fst triple) in
           let files := snd triple in
           DicoGIS.add_folders (Z.of_nat (length dirs)) ;;;
           for_each dirs (DicoGIS.dir_step env root) ;;;
           for_each files (DicoGIS.file_step env root)) s
      = (Ok tt, s')
      /\ Folders.gdb_adds env
           (flat_map (fun t => map (posixpath.join (fst (fst t))) (snd (fst t))) triples)
           (Z.of_nat (length (flat_map (fun t => map (posixpath.join (fst (fst t)))
                                                     (snd (fst t))) triples))) s s'.
Proof.
  intros Hascii. induction triples as [|t triples IH]; intros Hsub s Hs.
  - exists s. split; [reflexivity|]. destruct Hs as [_ [l Hl]].
    split; cbn; [|lia]. now rewrite app_nil_r, Hl.
  - destruct (ascii_tree_triple env top t Hascii (Hsub t ltac:(left))) as [Hd Hf].
    destruct (triple_gdb t s Hd Hf Hs) as (s1 & E1 & A1 & Hs1).
    destruct (IH (fun x Hx => Hsub x ltac:(right; exact Hx)) s1 Hs1)
      as (s2 & E2 & A2).
    exists s2. split.
    + cbn [for_each]. unfold Py.bind at 1. cbv zeta in E1 |- *. now rewrite E1.
    + cbn [flat_map]. rewrite length_app, length_map, Nat2Z.inj_add.
      exact (gdb_adds_trans _ _ _ _ _ _ _ A1 A2).
Qed.

End DicoGISFolders.

Lemma ligeofiles_gdb_eq (env : os.OS) (top : string) (s : DicoGIS.state) :
  Walk.ascii_tree env top = true ->
  Walk.is_list (DicoGIS.li_gdb s) ->
  Folders.gdb_adds env (Folders.dir_paths env top)
    (Z.of_nat (length (Folders.dir_paths env top)))
    s (snd (DicoGIS.ligeofiles env top s)).
Proof.
  intros Hascii Hgdb. unfold DicoGIS.ligeofiles.
  unfold Py.bind at 1. cbn [DicoGIS.reset Py.modify].
  unfold Py.bind at 1.
  match goal with
  | |- context [for_each _ _ ?s0] =>
      destruct (walk_loop_gdb env top (os.walk env top) Hascii (fun t H => H) s0)
        as (s1 & E1 & G1 & N1)
  end.
  { split; [|exact Hgdb]. intros fm. destruct fm; now eexists. }
  cbv zeta in E1 |- *. rewrite E1.
  match goal with
  | |- context [snd (?m s1)] =>
      assert (K : keeps (fun st => (DicoGIS.li_gdb st, DicoGIS.num_folders st)) m)
  end.
  { repeat (apply keeps_bind; [apply (keeps_sort_li (fun x => x))|intros _]).
    apply (keeps_sort_li (fun x => x)). }
  specialize (K s1). injection K as Kg Kn.
  split.
  - rewrite Kg. exact G1.
  - rewrite Kn. exact N1.
Qed.

(* ===================================================================== *)
(** * Sorted candidate lists *)
(* ===================================================================== *)

Lemma sorted_once_sort_filter (P : string -> Prop) `{forall p, Decision (P p)}
    (Q : string -> bool) (candidates : list string) :
  (forall p, Q p = true <-> P p) -> NoDup candidates ->
  Walk.sorted_once candidates Q (sort (filter P candidates)).
Proof.
  intros HQ Hnodup. split; [apply sort_sorted|]. split.
  - intros p Hp Hq.
    assert (Hin : p ∈ sort (filter P candidates)).
    { rewrite sort_elem_of, list_elem_of_filter. split; [now apply HQ|exact Hp]. }
    assert (Hnd : NoDup (sort (filter P candidates))).
    { rewrite sort_perm. now apply NoDup_filter. }
    apply NoDup_ListNoDup in Hnd. apply list_elem_of_In in Hin.
    now apply (proj1 (NoDup_count_occ' string_dec _) Hnd).
  - intros p Hp. apply sort_elem_of, list_elem_of_filter in Hp as [HP Hc].
    split; [exact Hc|now apply HQ].
Qed.

(** Whether a file is a candidate depends on the file system through
    [isfile] only. *)
Lemma qualifies_same_files (env env2 : os.OS) (fm : DicoGIS.fmt) (p : string) :
  (forall q, os.isfile env2 q = os.isfile env q) ->
  Walk.qualifies env2 fm p = Walk.qualifies env fm p.
Proof.
  intros H. destruct fm; unfold Walk.qualifies, Walk.beside; now rewrite ?H.
Qed.

Lemma qualifies_shapes_same_files (env env2 : os.OS) (k : DicoShapes.kind)
    (p : string) :
  (forall q, os.isfile env2 q = os.isfile env q) ->
  Walk.qualifies_shapes env2 k p = Walk.qualifies_shapes env k p.
Proof.
  intros H. destruct k; unfold Walk.qualifies_shapes; now rewrite !H.
Qed.

Lemma sort_filter_order_independent (P P2 : string -> Prop)
    `{forall p, Decision (P p)} `{forall p, Decision (P2 p)} (l l2 : list string) :
  (forall p, P2 p <-> P p) -> l2 ≡ₚ l ->
  sort (filter P2 l2) = sort (filter P l).
Proof.
  intros HP Hperm. apply sort_order_independent.
  rewrite Hperm. now rewrite (list_filter_iff P2 P).
Qed.

(** C6: in one run over a traversal that enumerates every file once and
    whose names are in ASCII, each of the six lists of files of
    [DicoGIS.ligeofiles] and each of the two lists of
    [DicoShapes.ligeofiles] is in ascending order and holds every walked
    candidate of its format exactly once, and nothing else; a traversal that
    enumerates the same files in another order yields the same lists.  The
    seventh sequence, [li_gdb] of the file geodatabases, is neither sorted
    nor reset: it receives the geodatabases in the order of the traversal,
    after what it held; with two geodatabases listed as [b.gdb], [a.gdb] it
    is not in ascending order, and after a second run each of them is in it
    twice. *)
Theorem candidate_lists_sorted_once :
  (forall (env : os.OS) (top : string) (s : DicoGIS.state) (fm : DicoGIS.fmt),
     Walk.ascii_tree env top = true ->
     Walk.is_list (DicoGIS.li_gdb s) ->
     NoDup (Walk.paths env top) ->
     let s' := snd (DicoGIS.ligeofiles env top s) in
     let t' := snd (DicoShapes.ligeofiles env top DicoShapes.fresh) in
     Walk.sorted_once (Walk.paths env top) (Walk.qualifies env fm)
       (items (DicoGIS.get_li fm s'))
     /\ (forall env2 top2 s2,
           Walk.ascii_tree env2 top2 = true ->
           Walk.is_list (DicoGIS.li_gdb s2) ->
           (forall q, os.isfile env2 q = os.isfile env q) ->
           Walk.paths env2 top2 ≡ₚ Walk.paths env top ->
           DicoGIS.get_li fm (snd (DicoGIS.ligeofiles env2 top2 s2))
           = DicoGIS.get_li fm s')
     /\ Walk.sorted_once (Walk.paths env top)
          (Walk.qualifies_shapes env DicoShapes.Shp) (items (DicoShapes.li_shp t'))
     /\ Walk.sorted_once (Walk.paths env top)
          (Walk.qualifies_shapes env DicoShapes.Tab) (items (DicoShapes.li_tab t'))
     /\ (forall env2 top2,
           Walk.ascii_tree env2 top2 = true ->
           (forall q, os.isfile env2 q = os.isfile env q) ->
           Walk.paths env2 top2 ≡ₚ Walk.paths env top ->
           snd (DicoShapes.ligeofiles env2 top2 DicoShapes.fresh) = t')
     /\ DicoGIS.li_gdb s'
        = PyList (items (DicoGIS.li_gdb s) ++ Folders.gdb_paths env top))
  /\ (let run := fun st =>
        snd (DicoGIS.ligeofiles MoreSamples.env_geodatabases "/d" st) in
      Walk.ascii_tree MoreSamples.env_geodatabases "/d" = true
      /\ DicoGIS.li_gdb (run DicoGIS.fresh) = PyList ["/d/b.gdb"; "/d/a.gdb"]
      /\ ~ Sorted str_le (items (DicoGIS.li_gdb (run DicoGIS.fresh)))
      /\ DicoGIS.li_gdb (run (run DicoGIS.fresh))
         = PyList ["/d/b.gdb"; "/d/a.gdb"; "/d/b.gdb"; "/d/a.gdb"]
      /\ ~ NoDup (items (DicoGIS.li_gdb (run (run DicoGIS.fresh))))).
Proof.
  split.
  - intros env top s fm Hascii Hgdb Hnodup s' t'.
    pose proof (DicoShapes_ascii_answered env top Hascii) as Hans.
    destruct (ligeofiles_spec env top s Hascii Hgdb) as (s1 & E & Hli & _ & _).
    pose proof (ligeofiles_gdb_eq env top s Hascii Hgdb) as [G _].
    subst s' t'. rewrite E in *.
    rewrite (DicoShapes_first_run env top Hans). cbn [fst snd] in *.
    split; [|split; [|split; [|split; [|split]]]].
    + rewrite Hli. cbn [items]. unfold Walk.select.
      apply sorted_once_sort_filter; [|exact Hnodup].
      intros p. symmetry. apply format_of_qualifies.
    + intros env2 top2 s2 Hascii2 Hgdb2 Hfiles Hperm.
      destruct (ligeofiles_spec env2 top2 s2 Hascii2 Hgdb2) as (s3 & E2 & Hli2 & _ & _).
      rewrite E2. cbn [snd]. rewrite Hli, Hli2. f_equal. unfold Walk.select.
      apply sort_filter_order_independent; [|exact Hperm].
      intros p. rewrite !format_of_qualifies.
      now rewrite (qualifies_same_files env env2).
    + cbn [DicoShapes.li_shp items]. unfold Walk.select_kind.
      apply sorted_once_sort_filter; [|exact Hnodup].
      intros p. symmetry. apply kind_of_qualifies.
    + cbn [DicoShapes.li_tab items]. unfold Walk.select_kind.
      apply sorted_once_sort_filter; [|exact Hnodup].
      intros p. symmetry. apply kind_of_qualifies.
    + intros env2 top2 Hascii2 Hfiles Hperm.
      rewrite (DicoShapes_first_run env2 top2
                 (DicoShapes_ascii_answered env2 top2 Hascii2)).
      cbn [snd]. unfold Walk.select_kind. f_equal; f_equal;
        (apply sort_filter_order_independent; [|exact Hperm]);
        intros p; rewrite !kind_of_qualifies;
        now rewrite (qualifies_shapes_same_files env env2).
    + exact G.
  - cbv zeta. split; [reflexivity|]. split; [vm_compute; reflexivity|].
    split; [|split; [vm_compute; reflexivity|]].
    + intros H. apply (bool_decide_pack _) in H. vm_compute in H. exact H.
    + intros H. apply (bool_decide_pack _) in H. vm_compute in H. exact H.
Qed.

Lemma candidate_lists_sorted_once_witness :
  Walk.ascii_tree Samples.env_folder "/d" = true
  /\ Walk.is_list (DicoGIS.li_gdb DicoGIS.fresh)
  /\ NoDup (Walk.paths Samples.env_folder "/d")
  /\ Walk.sorted_once (Walk.paths Samples.env_folder "/d")
       (Walk.qualifies Samples.env_folder DicoGIS.Shp)
       (items (DicoGIS.li_shp
                 (snd (DicoGIS.ligeofiles Samples.env_folder "/d" DicoGIS.fresh))))
  /\ DicoGIS.li_shp (snd (DicoGIS.ligeofiles Samples.env_folder_reordered "/d"
                            DicoGIS.fresh))
     = DicoGIS.li_shp (snd (DicoGIS.ligeofiles Samples.env_folder "/d" DicoGIS.fresh)).
Proof.
  assert (H1 : Walk.is_list (DicoGIS.li_gdb DicoGIS.fresh)) by (now eexists).
  assert (H2 : NoDup (Walk.paths Samples.env_folder "/d"))
    by (apply (bool_decide_unpack _); vm_compute; exact I).
  pose proof (proj1 candidate_lists_sorted_once Samples.env_folder "/d" DicoGIS.fresh
                DicoGIS.Shp eq_refl H1 H2) as (Hsorted & Horder & _).
  split; [reflexivity|]. split; [exact H1|]. split; [exact H2|].
  split; [exact Hsorted|].
  apply (Horder Samples.env_folder_reordered "/d" DicoGIS.fresh eq_refl H1).
  - intros q. reflexivity.
  - apply (bool_decide_unpack _). vm_compute. exact I.
Defined.

(* ===================================================================== *)
(** * Running the classifier twice *)
(* ===================================================================== *)

(** C7: [DicoShapes.ligeofiles] leaves tuples in [li_shp] and [li_tab]
    and does not reset them: whenever the first run on a new window ends
    normally, as it does over every tree whose names are in ASCII, a second
    run over the same tree raises [AttributeError] instead of yielding the
    same sequences. *)
Theorem DicoShapes_second_run_raises (env : os.OS) (top : string) :
  let first := DicoShapes.ligeofiles env top DicoShapes.fresh in
  (Walk.ascii_tree env top = true -> fst first = Ok tt)
  /\ (fst first = Ok tt ->
      DicoShapes.ligeofiles env top (snd first) = (Raise AttributeError, snd first)).
Proof.
  cbv zeta. split.
  - intros Hascii.
    now rewrite (DicoShapes_first_run env top (DicoShapes_ascii_answered env top Hascii)).
  - intros Hok. pose proof (DicoShapes_first_run_ok env top _ Hok) as Hans.
    rewrite (DicoShapes_first_run env top Hans). cbn [snd].
    now apply DicoShapes_second_run.
Qed.

Lemma DicoShapes_second_run_raises_witness :
  let first := DicoShapes.ligeofiles Samples.env_folder "/d" DicoShapes.fresh in
  Walk.ascii_tree Samples.env_folder "/d" = true
  /\ first = (Ok tt, {| DicoShapes.li_shp := PyTuple ["/d/b.shp"];
                        DicoShapes.li_tab := PyTuple [] |})
  /\ DicoShapes.ligeofiles Samples.env_folder "/d" (snd first)
     = (Raise AttributeError, snd first).
Proof.
  cbv zeta. split; [reflexivity|]. split; [vm_compute; reflexivity|].
  destruct (DicoShapes_second_run_raises Samples.env_folder "/d") as [H1 H2].
  exact (H2 (H1 eq_refl)).
Defined.

(** [DicoGIS.ligeofiles] resets its six lists of files: a second run
    yields the same six sequences. *)
Lemma DicoGIS_file_lists_idempotent (env : os.OS) (top : string)
    (s : DicoGIS.state) (fm : DicoGIS.fmt) :
  Walk.ascii_tree env top = true ->
  Walk.is_list (DicoGIS.li_gdb s) ->
  let run := fun st => snd (DicoGIS.ligeofiles env top st) in
  fst (DicoGIS.ligeofiles env top (run s)) = Ok tt
  /\ DicoGIS.get_li fm (run (run s)) = DicoGIS.get_li fm (run s).
Proof.
  intros Hascii Hgdb run. subst run. cbv beta.
  destruct (ligeofiles_spec env top s Hascii Hgdb) as (s1 & E1 & Hli1 & Hgdb1 & _).
  rewrite E1. cbn [snd].
  destruct (ligeofiles_spec env top s1 Hascii Hgdb1) as (s2 & E2 & Hli2 & _ & _).
  rewrite E2. cbn [fst snd]. split; [reflexivity|]. now rewrite Hli1, Hli2.
Qed.

(** [self.li_gdb] is not among the lists that are reset: the file
    geodatabases of a second run are appended to those of the first, and
    the count of folders grows as well. *)
Example DicoGIS_gdb_accumulates :
  let run := fun st => snd (DicoGIS.ligeofiles Samples.env_folder "/d" st) in
  DicoGIS.li_gdb (run DicoGIS.fresh) = PyList ["/d/base.gdb"]
  /\ DicoGIS.li_gdb (run (run DicoGIS.fresh)) = PyList ["/d/base.gdb"; "/d/base.gdb"]
  /\ DicoGIS.num_folders (run DicoGIS.fresh) = 2
  /\ DicoGIS.num_folders (run (run DicoGIS.fresh)) = 4.
Proof. repeat split; vm_compute; reflexivity. Qed.

(* ===================================================================== *)
(** * DicoGIS.ligeofiles: the geodatabases, the tables, the other formats *)
(* ===================================================================== *)

(** X1: over a tree whose names are in ASCII, [DicoGIS.ligeofiles]
    appends to [self.li_gdb], after what the list already held, the
    absolute path of every listed directory whose full path ends in [.gdb]
    (letter case ignored), in the order of the traversal and unsorted;
    [self.num_folders] grows by the number of directories the traversal
    lists.  Neither attribute is reset. *)
Theorem ligeofiles_geodatabases (env : os.OS) (top : string) (s : DicoGIS.state) :
  Walk.ascii_tree env top = true ->
  Walk.is_list (DicoGIS.li_gdb s) ->
  let s' := snd (DicoGIS.ligeofiles env top s) in
  DicoGIS.li_gdb s'
  = PyList (items (DicoGIS.li_gdb s) ++ Folders.gdb_paths env top)
  /\ DicoGIS.num_folders s'
     = DicoGIS.num_folders s + Z.of_nat (length (Folders.dir_paths env top)).
Proof.
  intros Hascii Hgdb. exact (ligeofiles_gdb_eq env top s Hascii Hgdb).
Qed.

Lemma ligeofiles_geodatabases_witness :
  Walk.ascii_tree Samples.env_folder "/d" = true
  /\ Walk.is_list (DicoGIS.li_gdb DicoGIS.fresh)
  /\ DicoGIS.li_gdb (snd (DicoGIS.ligeofiles Samples.env_folder "/d" DicoGIS.fresh))
     = PyList (items (DicoGIS.li_gdb DicoGIS.fresh)
               ++ Folders.gdb_paths Samples.env_folder "/d")
  /\ DicoGIS.num_folders (snd (DicoGIS.ligeofiles Samples.env_folder "/d" DicoGIS.fresh))
     = DicoGIS.num_folders DicoGIS.fresh
       + Z.of_nat (length (Folders.dir_paths Samples.env_folder "/d")).
Proof.
  split; [reflexivity|]. split; [now exists []|].
  apply (ligeofiles_geodatabases Samples.env_folder "/d" DicoGIS.fresh);
    [reflexivity|now exists []].
Defined.

(** X2: over a tree whose names are in ASCII, a second run of
    [DicoGIS.ligeofiles] ends normally and leaves the six lists of files as
    the first run left them, but the geodatabases of the tree are in
    [self.li_gdb] twice and the folders are counted twice. *)
Theorem ligeofiles_rerun (env : os.OS) (top : string) (s : DicoGIS.state) :
  Walk.ascii_tree env top = true ->
  Walk.is_list (DicoGIS.li_gdb s) ->
  let run := fun st => snd (DicoGIS.ligeofiles env top st) in
  fst (DicoGIS.ligeofiles env top (run s)) = Ok tt
  /\ (forall fm, DicoGIS.get_li fm (run (run s)) = DicoGIS.get_li fm (run s))
  /\ DicoGIS.li_gdb (run (run s))
     = PyList (items (DicoGIS.li_gdb s)
               ++ Folders.gdb_paths env top ++ Folders.gdb_paths env top)
  /\ DicoGIS.num_folders (run (run s))
     = DicoGIS.num_folders s + 2 * Z.of_nat (length (Folders.dir_paths env top)).
Proof.
  intros Hascii Hgdb run. subst run. cbv beta.
  destruct (ligeofiles_gdb_eq env top s Hascii Hgdb) as [G1 N1].
  destruct (ligeofiles_spec env top s Hascii Hgdb) as (s1 & E1 & Hli1 & Hgdb1 & _).
  rewrite E1 in *. cbn [snd] in *.
  destruct (ligeofiles_gdb_eq env top s1 Hascii Hgdb1) as [G2 N2].
  destruct (ligeofiles_spec env top s1 Hascii Hgdb1) as (s2 & E2 & Hli2 & _ & _).
  rewrite E2 in *. cbn [fst snd] in *.
  split; [reflexivity|]. split; [|split].
  - intros fm. now rewrite Hli1, Hli2.
  - rewrite G2, G1. cbn [items]. unfold Folders.gdb_paths. now rewrite app_assoc.
  - rewrite N2, N1. lia.
Qed.

Lemma ligeofiles_rerun_witness :
  Walk.ascii_tree Samples.env_folder "/d" = true
  /\ Walk.is_list (DicoGIS.li_gdb DicoGIS.fresh)
  /\ let run := fun st => snd (DicoGIS.ligeofiles Samples.env_folder "/d" st) in
     fst (DicoGIS.ligeofiles Samples.env_folder "/d" (run DicoGIS.fresh)) = Ok tt
     /\ (forall fm, DicoGIS.get_li fm (run (run DicoGIS.fresh))
                    = DicoGIS.get_li fm (run DicoGIS.fresh))
     /\ DicoGIS.li_gdb (run (run DicoGIS.fresh))
        = PyList (items (DicoGIS.li_gdb DicoGIS.fresh)
                  ++ Folders.gdb_paths Samples.env_folder "/d"
                  ++ Folders.gdb_paths Samples.env_folder "/d")
     /\ DicoGIS.num_folders (run (run DicoGIS.fresh))
        = DicoGIS.num_folders DicoGIS.fresh
          + 2 * Z.of_nat (length (Folders.dir_paths Samples.env_folder "/d")).
Proof.
  split; [reflexivity|]. split; [now exists []|].
  apply (ligeofiles_rerun Samples.env_folder "/d" DicoGIS.fresh);
    [reflexivity|now exists []].
Defined.

(** What holds of the six lists at every point of a run, whatever the
    names are and however the run ends: a listed path is the full path of a
    walked file, and the chain of tests has sent the text made of it to the
    list it is in. *)
Section DicoGISInvariant.

Variable env : os.OS.
Variable top : string.

Local Notation "'listed' s" :=
  (forall fm p, p ∈ items (DicoGIS.get_li fm s) ->
                p ∈ Walk.paths env top
                /\ DicoGIS.classify env (Walk.text_of p) = Ok (Some fm))
  (at level 10, s at level 9).

Lemma listed_bind {A B : Type} (m : M DicoGIS.state A)
    (k : A -> M DicoGIS.state B) (s : DicoGIS.state) :
  listed (snd (m s)) ->
  (forall a s1, listed s1 -> listed (snd (k a s1))) ->
  listed (snd (Py.bind m k s)).
Proof.
  intros Hm Hk. unfold Py.bind.
  destruct (m s) as [[a|e] s1]; cbn [snd] in *; [now apply Hk|exact Hm].
Qed.

Lemma listed_file_step (root f : string) (s : DicoGIS.state) :
  posixpath.join root f ∈ Walk.paths env top ->
  listed s -> listed (snd (DicoGIS.file_step env root f s)).
Proof.
  intros Hp Hs. unfold DicoGIS.file_step, Py.bind.
  destruct (DicoGIS.full_path env root f s) as [[t|e] s1] eqn:F;
    apply full_path_inv in F as [-> Ht]; [|exact Hs].
  specialize (Ht t eq_refl). unfold Py.lift.
  destruct (DicoGIS.classify env t) as [[fm0|]|e] eqn:C; cbn [snd]; try exact Hs.
  unfold DicoGIS.append_li.
  destruct (DicoGIS.get_li fm0 s) as [l|l] eqn:L; cbn [seq_append snd];
    [|exact Hs].
  intros fm p. rewrite get_set_li.
  destruct (decide (fm = fm0)) as [->|Hne]; [|apply Hs].
  cbn [items]. rewrite elem_of_app, list_elem_of_singleton.
  intros [Hin | ->].
  - apply Hs. now rewrite L.
  - subst t. rewrite codes_text_of. split; [exact Hp|exact C].
Qed.

Lemma get_li_dir_step (fm : DicoGIS.fmt) (root d : string) :
  keeps (DicoGIS.get_li fm) (DicoGIS.dir_step env root d).
Proof.
  unfold DicoGIS.dir_step, DicoGIS.full_path.
  apply keeps_bind; [frame|]. intros t.
  destruct (eq_literal _ _); [|apply keeps_ret].
  apply keeps_bind; [frame|]. intros a.
  apply keeps_bind; [|intros _; frame].
  intros s. unfold DicoGIS.append_gdb.
  destruct (seq_append a (DicoGIS.li_gdb s)); [|reflexivity].
  now destruct fm.
Qed.

Lemma listed_sort_li (fm0 : DicoGIS.fmt) (s : DicoGIS.state) :
  listed s -> listed (snd (DicoGIS.sort_li fm0 s)).
Proof.
  intros Hs. unfold DicoGIS.sort_li.
  destruct (DicoGIS.get_li fm0 s) as [l|l] eqn:L; cbn [seq_sort snd]; [|exact Hs].
  intros fm p. rewrite get_set_li.
  destruct (decide (fm = fm0)) as [->|Hne]; [|apply Hs].
  cbn [tuple items]. rewrite sort_elem_of. intros Hin. apply Hs. now rewrite L.
Qed.

Lemma listed_triple (triple : string * list string * list string)
    (s : DicoGIS.state) :
  triple ∈ os.walk env top ->
  listed s ->
  listed (snd ((let root := fst (fst triple) in
                let dirs := snd (fst triple) in
                let files := snd triple in
                DicoGIS.add_folders (Z.of_nat (length dirs)) ;;;
                for_each dirs (DicoGIS.dir_step env root) ;;;
                for_each files (DicoGIS.file_step env root)) s)).
Proof.
  intros Hin Hs. cbv zeta.
  apply listed_bind.
  { intros fm p. cbn. intros Hp. apply Hs. now destruct fm. }
  intros _ s1 Hs1. apply listed_bind.
  - intros fm p.
    rewrite (keeps_for_each (DicoGIS.get_li fm) _ _
               (fun d _ => get_li_dir_step fm (fst (fst triple)) d) s1).
    apply Hs1.
  - intros _ s2 Hs2.
    apply (for_each_invariant (fun st => listed st)); [|exact Hs2].
    intros f st Hf Hst. apply listed_file_step; [|exact Hst].
    unfold Walk.paths. apply list_elem_of_In, in_flat_map.
    exists triple. split; [now apply list_elem_of_In|].
    apply in_map, list_elem_of_In, Hf.
Qed.

Lemma listed_ligeofiles (s : DicoGIS.state) :
  listed (snd (DicoGIS.ligeofiles env top s)).
Proof.
  unfold DicoGIS.ligeofiles.
  apply listed_bind.
  { intros fm p. destruct fm; cbn; intros Hp; now apply elem_of_nil in Hp. }
  intros _ s1 Hs1. apply listed_bind.
  { apply (for_each_invariant (fun st => listed st)); [|exact Hs1].
    intros triple st Hin Hst. now apply listed_triple. }
  intros _ s2 Hs2.
  repeat (apply listed_bind; [now apply listed_sort_li|intros _ ? ?]).
  now apply listed_sort_li.
Qed.

End DicoGISInvariant.



(** X4: over a tree whose names are in ASCII, a walked file is in the
    list of MapInfo tables of [DicoGIS.ligeofiles] if and only if the
    extension of its lower-cased path is [.tab] and for each of [.dat],
    [.map], [.id] a file named by the path without its last four characters
    and that extension, all in lower case or all in upper case, exists. *)
Theorem ligeofiles_tables (env : os.OS) (top : string) (s : DicoGIS.state)
    (p : string) :
  Walk.ascii_tree env top = true ->
  Walk.is_list (DicoGIS.li_gdb s) ->
  p ∈ items (DicoGIS.li_tab (snd (DicoGIS.ligeofiles env top s)))
  <-> p ∈ Walk.paths env top /\ Folders.extension p = ".tab"
      /\ Folders.tab_sidecars_lower_or_upper env p.
Proof.
  intros Hascii Hgdb.
  change (DicoGIS.li_tab ?x) with (DicoGIS.get_li DicoGIS.Tab x).
  rewrite (ligeofiles_elem_of env top s DicoGIS.Tab p Hascii Hgdb).
  rewrite qualifies_tab_iff. tauto.
Qed.

Lemma ligeofiles_tables_witness :
  Walk.ascii_tree MoreSamples.env_tables "/d" = true
  /\ Walk.is_list (DicoGIS.li_gdb DicoGIS.fresh)
  /\ ("/d/t.TAB" ∈ items (DicoGIS.li_tab
                           (snd (DicoGIS.ligeofiles MoreSamples.env_tables "/d" DicoGIS.fresh)))
      <-> "/d/t.TAB" ∈ Walk.paths MoreSamples.env_tables "/d"
          /\ Folders.extension "/d/t.TAB" = ".tab"
          /\ Folders.tab_sidecars_lower_or_upper MoreSamples.env_tables "/d/t.TAB").
Proof.
  split; [reflexivity|]. split; [now exists []|].
  apply (ligeofiles_tables MoreSamples.env_tables "/d" DicoGIS.fresh "/d/t.TAB");
    [reflexivity|now exists []].
Defined.

(** X5: over a tree whose names are in ASCII, for KML, GML, GeoJSON and
    raster files the extension of the lower-cased path decides alone: a
    walked file is in [li_kml], [li_gml], [li_geoj] if and only if that
    extension is [.kml], [.gml], [.geojson], and in [li_raster] if and only
    if it is one of [.ecw], [.tif], [.jp2]; no companion file is looked
    for. *)
Theorem ligeofiles_by_extension (env : os.OS) (top : string) (s : DicoGIS.state)
    (p : string) :
  Walk.ascii_tree env top = true ->
  Walk.is_list (DicoGIS.li_gdb s) ->
  let s' := snd (DicoGIS.ligeofiles env top s) in
  (p ∈ items (DicoGIS.li_kml s')
   <-> p ∈ Walk.paths env top /\ Folders.extension p = ".kml")
  /\ (p ∈ items (DicoGIS.li_gml s')
      <-> p ∈ Walk.paths env top /\ Folders.extension p = ".gml")
  /\ (p ∈ items (DicoGIS.li_geoj s')
      <-> p ∈ Walk.paths env top /\ Folders.extension p = ".geojson")
  /\ (p ∈ items (DicoGIS.li_raster s')
      <-> p ∈ Walk.paths env top
          /\ Folders.extension p ∈ [".ecw"; ".tif"; ".jp2"]).
Proof.
  intros Hascii Hgdb s'. subst s'.
  change (DicoGIS.li_kml ?x) with (DicoGIS.get_li DicoGIS.Kml x).
  change (DicoGIS.li_gml ?x) with (DicoGIS.get_li DicoGIS.Gml x).
  change (DicoGIS.li_geoj ?x) with (DicoGIS.get_li DicoGIS.Geoj x).
  change (DicoGIS.li_raster ?x) with (DicoGIS.get_li DicoGIS.Raster x).
  rewrite !(fun fm => ligeofiles_elem_of env top s fm p Hascii Hgdb).
  unfold Walk.qualifies, Folders.extension.
  rewrite !String.eqb_eq, bool_decide_eq_true. tauto.
Qed.

Lemma ligeofiles_by_extension_witness :
  Walk.ascii_tree Samples.env_folder "/d" = true
  /\ Walk.is_list (DicoGIS.li_gdb DicoGIS.fresh)
  /\ ("/d/sub/x.kml" ∈ items (DicoGIS.li_kml
                               (snd (DicoGIS.ligeofiles Samples.env_folder "/d"
                                       DicoGIS.fresh)))
      <-> "/d/sub/x.kml" ∈ Walk.paths Samples.env_folder "/d"
          /\ Folders.extension "/d/sub/x.kml" = ".kml").
Proof.
  split; [reflexivity|]. split; [now exists []|].
  apply (ligeofiles_by_extension Samples.env_folder "/d" DicoGIS.fresh "/d/sub/x.kml");
    [reflexivity|now exists []].
Defined.

(** X6: when [DicoShapes.ligeofiles] on the lists of a new window ends
    normally, as it does over every tree whose names are in ASCII, a walked
    file is in [li_tab] if and only if its extension is exactly [.tab]
    (lower case) and the files with the extensions [.dat], [.map], [.id] in
    lower case exist; no path is in both [li_shp] and [li_tab]. *)
Theorem DicoShapes_tables (env : os.OS) (top : string) (p : string) :
  let run := DicoShapes.ligeofiles env top DicoShapes.fresh in
  let t' := snd run in
  (Walk.ascii_tree env top = true -> fst run = Ok tt)
  /\ (fst run = Ok tt ->
      (p ∈ items (DicoShapes.li_tab t')
       <-> p ∈ Walk.paths env top /\ snd (posixpath.splitext p) = ".tab"
           /\ Folders.tab_sidecars_lower env p)
      /\ (p ∈ items (DicoShapes.li_shp t') -> p ∉ items (DicoShapes.li_tab t'))).
Proof.
  cbv zeta. split.
  - intros Hascii.
    now rewrite (DicoShapes_first_run env top (DicoShapes_ascii_answered env top Hascii)).
  - intros Hok. pose proof (DicoShapes_first_run_ok env top _ Hok) as Hans.
    pose proof (DicoShapes_elem_of env top DicoShapes.Tab p Hans) as Htab.
    pose proof (DicoShapes_elem_of env top DicoShapes.Shp p Hans) as Hshp.
    cbv zeta in Htab, Hshp. split.
    + rewrite Htab, qualifies_shapes_tab_iff. tauto.
    + rewrite Htab, Hshp. intros [_ H1] [_ H2].
      apply kind_of_qualifies in H1, H2. congruence.
Qed.

Lemma DicoShapes_tables_witness :
  let run := DicoShapes.ligeofiles MoreSamples.env_tables "/d" DicoShapes.fresh in
  Walk.ascii_tree MoreSamples.env_tables "/d" = true
  /\ fst run = Ok tt
  /\ ("/d/u.tab" ∈ items (DicoShapes.li_tab (snd run))
      <-> "/d/u.tab" ∈ Walk.paths MoreSamples.env_tables "/d"
          /\ snd (posixpath.splitext "/d/u.tab") = ".tab"
          /\ Folders.tab_sidecars_lower MoreSamples.env_tables "/d/u.tab").
Proof.
  cbv zeta.
  destruct (DicoShapes_tables MoreSamples.env_tables "/d" "/d/u.tab") as [H1 H2].
  split; [reflexivity|]. split; [exact (H1 eq_refl)|].
  exact (proj1 (H2 (H1 eq_refl))).
Defined.

(* ===================================================================== *)
(** * Utils.sizeof and ReadGeoPDF.sizeof *)
(* ===================================================================== *)

Lemma sum_sizes_total (getsize : string -> option Z) (files : list string) :
  (forall f, f ∈ files -> is_Some (getsize f)) ->
  sizefmt.sum_sizes getsize files = Ok (Sizes.total getsize files).
Proof.
  induction files as [|f files IH]; intros H; [reflexivity|].
  cbn [sizefmt.sum_sizes Sizes.total foldr].
  destruct (H f) as [n Hn]; [left|]. rewrite Hn.
  fold (Sizes.total getsize files).
  rewrite IH; [reflexivity|]. intros g Hg. apply H. now right.
Qed.

Lemma sum_sizes_raise (getsize : string -> option Z) (files : list string) (f : string) :
  f ∈ files -> getsize f = None ->
  sizefmt.sum_sizes getsize files = Raise OSError.
Proof.
  induction files as [|g files IH]; intros Hin Hf; [inversion Hin|].
  cbn [sizefmt.sum_sizes].
  destruct (getsize g) as [n|] eqn:Hg; [|reflexivity].
  apply elem_of_cons in Hin as [->|Hin]; [congruence|].
  now rewrite IH.
Qed.

Lemma total_app (getsize : string -> option Z) (l1 l2 : list string) :
  Sizes.total getsize (l1 ++ l2) = Sizes.total getsize l1 + Sizes.total getsize l2.
Proof.
  unfold Sizes.total. induction l1 as [|f l1 IH]; cbn [foldr app]; [lia|].
  rewrite IH. lia.
Qed.

(** X7: when the source is a regular file and the size of the source or
    of a listed dependency cannot be read, [Utils.sizeof] raises [OSError]
    and the list of dependencies is left with the source path appended. *)
Theorem sizeof_failure_appends_source (env : os.OS) (source_path f : string)
    (dependencies : list string) :
  os.isfile env source_path = true ->
  f ∈ (dependencies ++ [source_path])%list ->
  os.getsize env f = None ->
  geoutils.sizeof env source_path dependencies
  = (Raise OSError, (dependencies ++ [source_path])%list).
Proof.
  intros Hfile Hin Hf. unfold geoutils.sizeof. rewrite Hfile.
  unfold Py.bind, Py.modify, Py.gets, Py.lift.
  now rewrite (sum_sizes_raise _ _ f Hin Hf).
Qed.

Lemma sizeof_failure_appends_source_witness :
  os.isfile Samples.env_missing_dep "/d/a.shp" = true
  /\ "a.dbf" ∈ ["a.dbf"; "/d/a.shp"]
  /\ os.getsize Samples.env_missing_dep "a.dbf" = None
  /\ geoutils.sizeof Samples.env_missing_dep "/d/a.shp" ["a.dbf"]
     = (Raise OSError, ["a.dbf"; "/d/a.shp"]).
Proof.
  split; [reflexivity|]. split; [left|]. split; [reflexivity|].
  apply (sizeof_failure_appends_source Samples.env_missing_dep "/d/a.shp" "a.dbf"
           ["a.dbf"]); [reflexivity|left|reflexivity].
Defined.

(** X8: when the source is a regular file and every size can be read,
    [Utils.sizeof] answers the formatted sum of the size of the source and
    of the sizes of the listed dependencies, each entry of the list counted
    as often as it occurs, and the list ends as it was. *)
Theorem sizeof_file_total (env : os.OS) (source_path : string)
    (dependencies : list string) :
  os.isfile env source_path = true ->
  (forall f, f ∈ (dependencies ++ [source_path])%list -> is_Some (os.getsize env f)) ->
  geoutils.sizeof env source_path dependencies
  = (Ok (Some (sizefmt.prettify sizefmt.units
                 (sizefmt.PyInt (Sizes.total (os.getsize env) dependencies
                                 + default 0 (os.getsize env source_path))))),
     dependencies).
Proof.
  intros Hfile Hsz. unfold geoutils.sizeof. rewrite Hfile.
  unfold Py.bind, Py.modify, Py.gets, Py.lift, Py.ret.
  rewrite (sum_sizes_total _ _ Hsz), removelast_last, total_app.
  cbn [Sizes.total foldr]. now rewrite Z.add_0_r.
Qed.

Lemma sizeof_file_total_witness :
  os.isfile Sizes.env_sizes "/d/a.shp" = true
  /\ (forall f, f ∈ ["/d/a.dbf"; "/d/a.dbf"; "/d/a.shp"] ->
                is_Some (os.getsize Sizes.env_sizes f))
  /\ geoutils.sizeof Sizes.env_sizes "/d/a.shp" ["/d/a.dbf"; "/d/a.dbf"]
     = (Ok (Some (sizefmt.prettify sizefmt.units
                    (sizefmt.PyInt (Sizes.total (os.getsize Sizes.env_sizes)
                                                ["/d/a.dbf"; "/d/a.dbf"]
                                    + default 0 (os.getsize Sizes.env_sizes "/d/a.shp"))))),
        ["/d/a.dbf"; "/d/a.dbf"]).
Proof.
  assert (H : forall f, f ∈ ["/d/a.dbf"; "/d/a.dbf"; "/d/a.shp"] ->
                        is_Some (os.getsize Sizes.env_sizes f)).
  { intros f Hf. rewrite !elem_of_cons, elem_of_nil in Hf.
    destruct Hf as [->|[->|[->|[]]]]; now eexists. }
  split; [reflexivity|]. split; [exact H|].
  apply (sizeof_file_total Sizes.env_sizes "/d/a.shp" ["/d/a.dbf"; "/d/a.dbf"]);
    [reflexivity|exact H].
Defined.

(** X9: when the source is not a regular file, [Utils.sizeof] neither
    reads nor changes the list of dependencies, whatever happens: for a
    directory it answers the formatted sum of the sizes of the regular files
    that the traversal of the directory lists, names that are not regular
    files being skipped; for a path that is neither it answers [None]. *)
Theorem sizeof_directory (env : os.OS) (source_path : string) :
  os.isfile env source_path = false ->
  (forall dependencies,
     snd (geoutils.sizeof env source_path dependencies) = dependencies
     /\ fst (geoutils.sizeof env source_path dependencies)
        = fst (geoutils.sizeof env source_path []))
  /\ (os.isdir env source_path = false ->
      fst (geoutils.sizeof env source_path []) = Ok None)
  /\ (os.isdir env source_path = true ->
      (forall f, f ∈ geoutils.walked_files env source_path ->
                 is_Some (os.getsize env f)) ->
      fst (geoutils.sizeof env source_path [])
      = Ok (Some (sizefmt.prettify sizefmt.units
                    (sizefmt.PyInt (Sizes.total (os.getsize env)
                                      (geoutils.walked_files env source_path)))))).
Proof.
  intros Hfile. unfold geoutils.sizeof. rewrite Hfile.
  split; [|split].
  - intros deps. destruct (os.isdir env source_path); [|split; reflexivity].
    unfold Py.bind, Py.lift, Py.ret.
    destruct (sizefmt.sum_sizes _ _); split; reflexivity.
  - now intros ->.
  - intros -> Hsz. unfold Py.bind, Py.lift, Py.ret.
    now rewrite (sum_sizes_total _ _ Hsz).
Qed.

Lemma sizeof_directory_witness :
  os.isfile Sizes.env_sizes "/d/gdb" = false
  /\ os.isdir Sizes.env_sizes "/d/gdb" = true
  /\ geoutils.walked_files Sizes.env_sizes "/d/gdb" = ["/d/gdb/a"; "/d/gdb/b"]
  /\ fst (geoutils.sizeof Sizes.env_sizes "/d/gdb" [])
     = Ok (Some (sizefmt.prettify sizefmt.units
                   (sizefmt.PyInt (Sizes.total (os.getsize Sizes.env_sizes)
                                     (geoutils.walked_files Sizes.env_sizes "/d/gdb"))))).
Proof.
  split; [reflexivity|]. split; [reflexivity|]. split; [reflexivity|].
  apply (sizeof_directory Sizes.env_sizes "/d/gdb"); [reflexivity|reflexivity|].
  intros f Hf. change (f ∈ ["/d/gdb/a"; "/d/gdb/b"]) in Hf.
  rewrite !elem_of_cons, elem_of_nil in Hf.
  destruct Hf as [->|[->|[]]]; now eexists.
Defined.

Lemma fmt_1f_integer (n : Z) :
  0 <= n -> sizefmt.fmt_1f (inject_Z n) = pretty n ++ ".0".
Proof.
  intros Hn. unfold sizefmt.fmt_1f, sizefmt.round_half_even, inject_Z, Qmult.
  cbn [Qnum Qden Pos.mul].
  rewrite Z.div_1_r, Z.mod_1_r.
  change (2 * 0 ?= Z.pos (1 * 1))%Z with Lt. cbv iota.
  destruct (Z.ltb_spec (n * 10) 0) as [H|_]; [lia|].
  rewrite Z.abs_eq by lia. rewrite Z.div_mul, Z.mod_mul by lia.
  reflexivity.
Qed.

Lemma Qle_bool_1024 (a : Z) (d : positive) :
  Qle_bool 1024 (a # d) = (1024 * Z.pos d <=? a)%Z.
Proof.
  unfold Qle_bool. cbn [Qnum Qden]. f_equal. lia.
Qed.

Lemma Qdiv_1024 (a : Z) (d : positive) :
  ((a # d) / 1024)%Q = (a * 1) # (d * 1024).
Proof. reflexivity. Qed.

Lemma nearest_float_exact (n : Z) :
  0 <= n < 2 ^ 53 -> sizefmt.nearest_float n = n.
Proof.
  intros Hn. unfold sizefmt.nearest_float. rewrite Z.abs_eq by lia.
  destruct (Z.ltb_spec (Z.log2 n) 53) as [_|H]; [reflexivity|].
  exfalso. destruct (Z.eq_dec n 0) as [->|Hz]; [cbn in H; lia|].
  assert (Hlt : Z.log2 n < 53) by (apply Z.log2_lt_pow2; lia). lia.
Qed.

(** From 2^53 on, the nearest float is not below 2^53. *)
Lemma nearest_float_large (n : Z) :
  2 ^ 53 <= n -> 2 ^ 53 <= sizefmt.nearest_float n.
Proof.
  intros Hn. unfold sizefmt.nearest_float. rewrite Z.abs_eq by lia.
  assert (He : 53 <= Z.log2 n) by (apply Z.log2_le_pow2; lia).
  destruct (Z.ltb_spec (Z.log2 n) 53) as [H|_]; [lia|].
  cbv zeta. set (e := Z.log2 n) in *. set (ulp := 2 ^ (e - 52)).
  assert (Hulp : 0 < ulp) by (apply Z.pow_pos_nonneg; lia).
  assert (Hpow : 2 ^ e = 2 ^ 52 * ulp).
  { unfold ulp. rewrite <- Z.pow_add_r by lia. f_equal. lia. }
  assert (Hlow : 2 ^ e <= n) by (apply Z.log2_spec; lia).
  assert (Hq : 2 ^ 52 <= n / ulp).
  { apply Z.div_le_lower_bound; [exact Hulp|]. rewrite Z.mul_comm. lia. }
  assert (Hsgn : Z.sgn n = 1) by (apply Z.sgn_pos; lia).
  rewrite Hsgn, Z.mul_1_l.
  assert (H53 : 2 ^ 53 <= 2 ^ e) by (apply Z.pow_le_mono_r; lia).
  assert (Hm : forall q, n / ulp <= q -> 2 ^ 53 <= q * ulp) by (intros q Hle; nia).
  destruct (2 * (n mod ulp) ?= ulp)%Z; [destruct (Z.even (n / ulp))| |];
    apply Hm; lia.
Qed.

Lemma nearest_float_tera (n : Z) :
  1024 ^ 4 <= n -> 1024 ^ 4 <= sizefmt.nearest_float n.
Proof.
  intros Hn. destruct (Z.lt_ge_cases n (2 ^ 53)) as [H|H].
  - rewrite nearest_float_exact by lia. exact Hn.
  - pose proof (nearest_float_large n H). lia.
Qed.

(** X10: [ReadGeoPDF.sizeof] picks the unit by the magnitude of the
    size: below 1024 the text is the number of bytes followed by
    [.0 octets]; from 1024 on the size is divided by 1024 once per unit
    step and printed with one decimal, with [Ko], [Mo], [Go]; from
    1024^4 on the unit is [ To] written after two spaces, and what is
    divided is the float nearest to the size, which is the size itself
    below 2^53 and differs from it above: 2^60 + 2^38 + 1 bytes are printed
    as 1048576.2 where the exact quotient would give 1048576.3. *)
Theorem GeoPDF_sizeof_units (n : Z) :
  0 <= n -> n < 2 ^ 1023 ->
  (n < 1024 -> Infos_GeoPDF.sizeof n = pretty n ++ ".0 octets")
  /\ (1024 <= n < 1024 ^ 2 ->
      Infos_GeoPDF.sizeof n = sizefmt.fmt_1f (inject_Z n / 1024) ++ " Ko")
  /\ (1024 ^ 2 <= n < 1024 ^ 3 ->
      Infos_GeoPDF.sizeof n = sizefmt.fmt_1f (inject_Z n / 1024 / 1024) ++ " Mo")
  /\ (1024 ^ 3 <= n < 1024 ^ 4 ->
      Infos_GeoPDF.sizeof n
      = sizefmt.fmt_1f (inject_Z n / 1024 / 1024 / 1024) ++ " Go")
  /\ (1024 ^ 4 <= n ->
      Infos_GeoPDF.sizeof n
      = sizefmt.fmt_1f (inject_Z (sizefmt.nearest_float n) / 1024 / 1024 / 1024 / 1024)
        ++ "  To")
  /\ (n < 2 ^ 53 -> sizefmt.nearest_float n = n)
  /\ Infos_GeoPDF.sizeof (2 ^ 60 + 2 ^ 38 + 1) = "1048576.2  To"
  /\ sizefmt.fmt_1f (inject_Z (2 ^ 60 + 2 ^ 38 + 1) / 1024 / 1024 / 1024 / 1024)
     = "1048576.3".
Proof.
  intros Hn _.
  assert (Hsmall : n < 1024 ^ 4 -> sizefmt.nearest_float n = n)
    by (intros H; apply nearest_float_exact; lia).
  unfold Infos_GeoPDF.sizeof, sizefmt.units.
  cbn [sizefmt.prettify sizefmt.value sizefmt.float].
  split; [|split; [|split; [|split; [|split; [|split; [|split]]]]]].
  - intros H. rewrite Hsmall by lia. unfold inject_Z. rewrite Qle_bool_1024.
    rewrite (proj2 (Z.leb_gt _ _)) by lia. cbn [negb].
    change (n # 1) with (inject_Z n). rewrite fmt_1f_integer by exact Hn.
    generalize (pretty n). intros t. induction t as [|c t IH]; [reflexivity|].
    rewrite !append_cons. now f_equal.
  - intros H. rewrite Hsmall by lia. unfold inject_Z.
    rewrite !Qdiv_1024, !Qle_bool_1024. cbn [Pos.mul].
    rewrite (proj2 (Z.leb_le _ _)) by lia. cbn [negb].
    rewrite (proj2 (Z.leb_gt _ _)) by lia. reflexivity.
  - intros H. rewrite Hsmall by lia. unfold inject_Z.
    rewrite !Qdiv_1024, !Qle_bool_1024. cbn [Pos.mul].
    do 2 rewrite (proj2 (Z.leb_le _ _)) by lia. cbn [negb].
    rewrite (proj2 (Z.leb_gt _ _)) by lia. reflexivity.
  - intros H. rewrite Hsmall by lia. unfold inject_Z.
    rewrite !Qdiv_1024, !Qle_bool_1024. cbn [Pos.mul].
    do 3 rewrite (proj2 (Z.leb_le _ _)) by lia. cbn [negb].
    rewrite (proj2 (Z.leb_gt _ _)) by lia. reflexivity.
  - intros H. pose proof (nearest_float_tera n H) as Hv.
    unfold inject_Z. rewrite !Qdiv_1024, !Qle_bool_1024. cbn [Pos.mul].
    do 4 rewrite (proj2 (Z.leb_le _ _)) by lia. reflexivity.
  - intros H. apply nearest_float_exact. lia.
  - vm_compute. reflexivity.
  - vm_compute. reflexivity.
Qed.

Lemma GeoPDF_sizeof_units_witness :
  0 <= 4096
  /\ 4096 < 2 ^ 1023
  /\ (1024 <= 4096 < 1024 ^ 2 ->
      Infos_GeoPDF.sizeof 4096 = sizefmt.fmt_1f (inject_Z 4096 / 1024) ++ " Ko")
  /\ Infos_GeoPDF.sizeof 4096 = "4.0 Ko".
Proof.
  split; [lia|]. split; [reflexivity|]. split; [|reflexivity].
  apply (GeoPDF_sizeof_units 4096); [lia|reflexivity].
Defined.

(* ===================================================================== *)
(** * ReadGeoPDF: fields, layers and their totals *)
(* ===================================================================== *)

Lemma infos_fields_eq (layer_def : list ogr.FieldDefn) :
  forall d, Infos_GeoPDF.infos_fields layer_def d
            = (Ok tt, Layers.fields_dict layer_def d).
Proof.
  unfold Infos_GeoPDF.infos_fields, Layers.fields_dict.
  induction layer_def as [|f defs IH]; intros d; [reflexivity|].
  cbn [for_each fold_left]. unfold Py.bind at 1, Py.modify at 1. apply IH.
Qed.

Lemma setitem_fresh (k : string) (v : pyval) (d : odict) :
  k ∉ keys d -> setitem k v d = (d ++ [(k, v)])%list.
Proof.
  induction d as [|[k' v'] d IH]; intros Hk; [reflexivity|].
  cbn [setitem app]. cbn [keys map fst] in Hk. apply not_elem_of_cons in Hk as [Hne Hk].
  destruct (String.eqb_spec k' k) as [->|_]; [done|].
  now rewrite IH.
Qed.

Lemma get_app_singleton (k k' : string) (v : pyval) (d : odict) :
  get k (d ++ [(k', v)])%list
  = match get k d with
    | Some w => Some w
    | None => if String.eqb k' k then Some v else None
    end.
Proof.
  induction d as [|[k2 v2] d IH]; cbn [get app]; [reflexivity|].
  destruct (String.eqb k2 k); [reflexivity|exact IH].
Qed.

Lemma fields_dict_fresh (layer_def : list ogr.FieldDefn) :
  forall d,
    NoDup (keys d ++ map ogr.fld_GetName layer_def) ->
    Layers.fields_dict layer_def d
    = (d ++ map (fun f => (ogr.fld_GetName f, VStr (ogr.fld_GetTypeName f)))
                layer_def)%list.
Proof.
  unfold Layers.fields_dict.
  induction layer_def as [|f defs IH]; intros d Hd; cbn [fold_left map].
  - now rewrite app_nil_r.
  - cbn [map] in Hd. apply NoDup_app in Hd as (Hd1 & Hd2 & Hd3).
    apply NoDup_cons in Hd3 as [Hf Hd3].
    rewrite setitem_fresh.
    2:{ intros Hin. apply (Hd2 _ Hin). left. }
    rewrite IH.
    + now rewrite <- app_assoc.
    + unfold keys. rewrite map_app. cbn [map fst]. rewrite <- app_assoc. cbn [app].
      apply NoDup_app. split; [exact Hd1|]. split.
      * intros x Hx Hx'. apply (Hd2 x Hx). exact Hx'.
      * now apply NoDup_cons.
Qed.

(** X11: for a layer whose field names are pairwise distinct,
    [infos_fields] fills an empty dictionary with one entry per field, the
    type name under the field name, in the order of the layer definition. *)
Theorem infos_fields_distinct (layer_def : list ogr.FieldDefn) :
  NoDup (map ogr.fld_GetName layer_def) ->
  Infos_GeoPDF.infos_fields layer_def []
  = (Ok tt, map (fun f => (ogr.fld_GetName f, VStr (ogr.fld_GetTypeName f)))
                layer_def).
Proof.
  intros Hnd. rewrite infos_fields_eq. f_equal.
  now rewrite fields_dict_fresh.
Qed.

Lemma infos_fields_distinct_witness :
  NoDup (map ogr.fld_GetName (ogr.GetLayerDefn Samples.layer_roads))
  /\ Infos_GeoPDF.infos_fields (ogr.GetLayerDefn Samples.layer_roads) []
     = (Ok tt, [("id", VStr "Integer"); ("name", VStr "String")]).
Proof.
  assert (H : NoDup (map ogr.fld_GetName (ogr.GetLayerDefn Samples.layer_roads))).
  { apply (bool_decide_unpack _). vm_compute. exact I. }
  split; [exact H|].
  apply (infos_fields_distinct (ogr.GetLayerDefn Samples.layer_roads) H).
Defined.

Lemma length_setitem (k : string) (v : pyval) (d : odict) :
  (length (setitem k v d) <= S (length d))%nat.
Proof.
  induction d as [|[k' v'] d IH]; cbn [setitem length]; [lia|].
  destruct (String.eqb k' k); cbn [length]; lia.
Qed.

Lemma fields_dict_get (n : string) (layer_def : list ogr.FieldDefn) :
  forall d,
    get n (Layers.fields_dict layer_def d)
    = match last (filter (fun f => ogr.fld_GetName f = n) layer_def) with
      | Some f => Some (VStr (ogr.fld_GetTypeName f))
      | None => get n d
      end.
Proof.
  unfold Layers.fields_dict.
  induction layer_def as [|f defs IH]; intros d; cbn [fold_left]; [reflexivity|].
  rewrite IH, filter_cons.
  destruct (decide (ogr.fld_GetName f = n)) as [E|E].
  - destruct (filter _ defs) as [|g l] eqn:Hl.
    + cbn [last]. rewrite <- E. apply get_setitem_eq.
    + rewrite last_cons_cons.
      destruct (last (g :: l)) eqn:HL; [reflexivity|].
      apply last_None in HL. discriminate HL.
  - destruct (last (filter _ defs)); [reflexivity|].
    now apply get_setitem_ne.
Qed.

Lemma fields_dict_length (layer_def : list ogr.FieldDefn) :
  forall d, (length (Layers.fields_dict layer_def d) <= length d + length layer_def)%nat.
Proof.
  unfold Layers.fields_dict.
  induction layer_def as [|f defs IH]; intros d; cbn [fold_left length]; [lia|].
  etransitivity; [apply IH|].
  pose proof (length_setitem (ogr.fld_GetName f) (VStr (ogr.fld_GetTypeName f)) d). lia.
Qed.

(** X12: whatever the field names, [infos_fields] never raises; under
    a field name the dictionary holds the type of the last field of that
    name, so that fields sharing a name leave one entry and the dictionary
    can have fewer entries than the layer has fields. *)
Theorem infos_fields_last_wins (layer_def : list ogr.FieldDefn) (n : string) :
  let run := Infos_GeoPDF.infos_fields layer_def [] in
  fst run = Ok tt
  /\ get n (snd run)
     = (fun f => VStr (ogr.fld_GetTypeName f))
         <$> last (filter (fun f => ogr.fld_GetName f = n) layer_def)
  /\ (length (snd run) <= length layer_def)%nat.
Proof.
  cbv zeta. rewrite infos_fields_eq. cbn [fst snd].
  split; [reflexivity|]. split.
  - rewrite fields_dict_get. now destruct (last _).
  - apply (fields_dict_length layer_def []).
Qed.

Lemma vector_basics_eq (layer_obj : ogr.Layer) (txt : gmap string string) (d : odict) :
  Infos_GeoPDF.vector_basics layer_obj txt d
  = (Ok tt,
     setitem "fields" (VDict (Layers.fields_dict (ogr.GetLayerDefn layer_obj) []))
       (setitem "num_fields" (VInt (Z.of_nat (length (ogr.GetLayerDefn layer_obj))))
          (setitem "num_obj" (VInt (ogr.GetFeatureCount layer_obj))
             (setitem "title" (VStr (ogr.lyr_GetName layer_obj)) d)))).
Proof.
  unfold Infos_GeoPDF.vector_basics.
  unfold Py.bind at 1.
  assert (Ht : forall d0,
             try_except
               (let* u := lift (unicode (ogr.lyr_GetName layer_obj)) in
                modify (setitem "title" (VStr u)))
               (fun e => match e with UnicodeDecodeError => true | _ => false end)
               (modify (setitem "title" (VStr (decode_latin1 (ogr.lyr_GetName layer_obj)))))
               d0
             = (Ok tt, setitem "title" (VStr (ogr.lyr_GetName layer_obj)) d0)).
  { intros d0. unfold try_except, Py.bind, Py.lift, unicode, Py.modify, decode_latin1.
    destruct (is_ascii (ogr.lyr_GetName layer_obj)); reflexivity. }
  rewrite Ht. cbv zeta.
  unfold Py.bind, Py.modify, Infos_GeoPDF.on_fresh_dict.
  now rewrite infos_fields_eq.
Qed.

(** X13: [vector_basics] never raises, whatever the name of the layer
    and its fields: it writes [title] (the name of the layer, also when the
    name is not ASCII), [num_obj], [num_fields] (the number of field
    definitions) and [fields], and leaves every other entry of the
    dictionary as it was. *)
Theorem vector_basics_total (layer_obj : ogr.Layer) (txt : gmap string string)
    (d : odict) :
  let run := Infos_GeoPDF.vector_basics layer_obj txt d in
  fst run = Ok tt
  /\ get "title" (snd run) = Some (VStr (ogr.lyr_GetName layer_obj))
  /\ get "num_obj" (snd run) = Some (VInt (ogr.GetFeatureCount layer_obj))
  /\ get "num_fields" (snd run)
     = Some (VInt (Z.of_nat (length (ogr.GetLayerDefn layer_obj))))
  /\ get "fields" (snd run)
     = Some (VDict (snd (Infos_GeoPDF.infos_fields (ogr.GetLayerDefn layer_obj) [])))
  /\ (forall k, k ∉ ["title"; "num_obj"; "num_fields"; "fields"] ->
                get k (snd run) = get k d).
Proof.
  cbv zeta. rewrite vector_basics_eq, infos_fields_eq. cbn [fst snd].
  split; [reflexivity|].
  repeat split.
  - now rewrite !get_setitem_ne, get_setitem_eq by discriminate.
  - now rewrite !get_setitem_ne, get_setitem_eq by discriminate.
  - now rewrite !get_setitem_ne, get_setitem_eq by discriminate.
  - now rewrite get_setitem_eq.
  - intros k Hk. rewrite !not_elem_of_cons in Hk.
    destruct Hk as (H1 & H2 & H3 & H4 & _).
    now rewrite !get_setitem_ne by congruence.
Qed.

(** The characters that [pretty] writes for an integer are digits or the
    sign: none is a letter or an underscore. *)
Lemma pretty_N_go_low (x : N) : forall s,
  Forall (fun c => (N_of_ascii c < 65)%N) (list_ascii_of_string s) ->
  Forall (fun c => (N_of_ascii c < 65)%N) (list_ascii_of_string (pretty_N_go x s)).
Proof.
  induction (N.lt_wf_0 x) as [x _ IH]; intros s Hs.
  destruct (decide (x = 0)%N) as [->|Hx].
  - now rewrite pretty_N_go_0.
  - rewrite pretty_N_go_step by lia. apply IH; [apply N.div_lt; lia|].
    cbn [list_ascii_of_string]. constructor; [|exact Hs].
    unfold pretty_N_char. repeat case_match; cbn; lia.
Qed.

Lemma pretty_Z_low (z : Z) :
  Forall (fun c => (N_of_ascii c < 65)%N) (list_ascii_of_string (pretty z)).
Proof.
  assert (HN : forall n : N,
             Forall (fun c => (N_of_ascii c < 65)%N) (list_ascii_of_string (pretty n))).
  { intros n. unfold pretty, pretty_N. case_decide.
    - repeat constructor.
    - apply pretty_N_go_low. constructor. }
  unfold pretty, pretty_Z. destruct z as [|p|p].
  - repeat constructor.
  - apply (HN (N.pos p)).
  - rewrite append_cons, append_nil_l. cbn [list_ascii_of_string].
    constructor; [cbn; lia|apply (HN (N.pos p))].
Qed.

Lemma pretty_Z_nonempty (z : Z) : pretty z <> "".
Proof.
  intros H. pose proof (f_equal String.length H) as HL.
  assert (HN : forall (x : N) s, (String.length s <= String.length (pretty_N_go x s))%nat).
  { intros x. induction (N.lt_wf_0 x) as [x _ IH]; intros s.
    destruct (decide (x = 0)%N) as [->|Hx].
    - now rewrite pretty_N_go_0.
    - rewrite pretty_N_go_step by lia.
      etransitivity; [|apply IH; apply N.div_lt; lia]. cbn. lia. }
  assert (HP : forall n : N, (1 <= String.length (pretty n))%nat).
  { intros n. unfold pretty, pretty_N. case_decide; [cbn; lia|].
    rewrite pretty_N_go_step by lia.
    etransitivity; [|apply HN]. cbn. lia. }
  revert HL. unfold pretty, pretty_Z. destruct z as [|p|p].
  - discriminate.
  - pose proof (HP (N.pos p)) as H1. unfold pretty in H1. intros HL.
    change (String.length (pretty_N (N.pos p)) = 0%nat) in HL. lia.
  - rewrite append_cons. discriminate.
Qed.

Lemma split_at_underscore (a : string) : forall b s t,
  Forall (fun c => (N_of_ascii c < 65)%N) (list_ascii_of_string a) ->
  Forall (fun c => (N_of_ascii c < 65)%N) (list_ascii_of_string b) ->
  a ++ "_" ++ s = b ++ "_" ++ t -> a = b /\ s = t.
Proof.
  induction a as [|c a IH]; intros [|c' b] s t Ha Hb H.
  - rewrite !append_nil_l, !append_cons, !append_nil_l in H. now injection H.
  - rewrite append_nil_l, !append_cons in H. injection H as <- _.
    apply Forall_cons in Hb as [Hc _]. cbn in Hc. lia.
  - rewrite append_nil_l, !append_cons in H. injection H as -> _.
    apply Forall_cons in Ha as [Hc _]. cbn in Hc. lia.
  - rewrite !append_cons in H. injection H as -> H.
    cbn [list_ascii_of_string] in Ha, Hb.
    apply Forall_cons in Ha as [_ Ha]. apply Forall_cons in Hb as [_ Hb].
    destruct (IH b s t Ha Hb H) as [-> ->]. done.
Qed.

Lemma layer_key_inj (i j : Z) (l l' : ogr.Layer) :
  Layers.layer_key i l = Layers.layer_key j l' -> i = j.
Proof.
  unfold Layers.layer_key. intros H.
  apply split_at_underscore in H as [H _]; try apply pretty_Z_low.
  now apply (inj pretty).
Qed.

(** The key of a layer is none of the keys written in letters. *)
Lemma layer_key_letter (idx : Z) (title : string) (c : ascii) (t : string) :
  (65 <= N_of_ascii c)%N -> pretty idx ++ "_" ++ title <> String c t.
Proof.
  intros Hc H. destruct (pretty idx) as [|c' t'] eqn:E.
  - now apply pretty_Z_nonempty in E.
  - rewrite !append_cons in H. injection H as -> _.
    apply pretty_Z_head in E. lia.
Qed.

Section LayersDict.

Variable parent_name : string.

Lemma layers_dict_other (K : string) (layers : list ogr.Layer) :
  K <> "layers_names" -> K <> "layers_idx" ->
  forall idx names idxs d,
    (forall m l, layers !! m = Some l -> Layers.layer_key (idx + Z.of_nat m) l <> K) ->
    get K (Layers.layers_dict parent_name layers idx names idxs d) = get K d.
Proof.
  intros HK1 HK2.
  induction layers as [|l ls IH]; intros idx names idxs d Hkeys; [reflexivity|].
  cbn [Layers.layers_dict]. cbv zeta. rewrite IH.
  - rewrite !get_setitem_ne; [reflexivity|congruence|congruence|].
    specialize (Hkeys 0%nat l eq_refl). now rewrite Z.add_0_r in Hkeys.
  - intros m l' Hm. specialize (Hkeys (S m) l' Hm).
    now replace (idx + 1 + Z.of_nat m) with (idx + Z.of_nat (S m)) by lia.
Qed.

Lemma layer_key_not_names (idx : Z) (l : ogr.Layer) :
  Layers.layer_key idx l <> "layers_names" /\ Layers.layer_key idx l <> "layers_idx".
Proof.
  unfold Layers.layer_key. split; apply layer_key_letter; cbn; lia.
Qed.

Lemma layers_dict_names (layers : list ogr.Layer) :
  forall idx names idxs d,
    get "layers_names" (Layers.layers_dict parent_name layers idx names idxs d)
    = match layers with
      | [] => get "layers_names" d
      | _ => Some (VList (names ++ map (fun l => VStr (ogr.lyr_GetName l)) layers))
      end.
Proof.
  induction layers as [|l ls IH]; intros idx names idxs d; [reflexivity|].
  cbn [Layers.layers_dict]. cbv zeta. rewrite IH.
  destruct ls as [|l2 ls].
  - rewrite get_setitem_ne by apply layer_key_not_names.
    rewrite get_setitem_ne by discriminate. now rewrite get_setitem_eq.
  - cbn [map]. now rewrite <- app_assoc.
Qed.

Lemma layers_dict_idx (layers : list ogr.Layer) :
  forall idx names idxs d,
    get "layers_idx" (Layers.layers_dict parent_name layers idx names idxs d)
    = match layers with
      | [] => get "layers_idx" d
      | _ => Some (VList (idxs ++ map VInt (seqZ idx (Z.of_nat (length layers)))))
      end.
Proof.
  induction layers as [|l ls IH]; intros idx names idxs d; [reflexivity|].
  cbn [Layers.layers_dict]. cbv zeta. rewrite IH.
  rewrite (seqZ_cons idx) by (cbn [length]; lia).
  replace (Z.pred (Z.of_nat (length (l :: ls)))) with (Z.of_nat (length ls))
    by (cbn [length]; lia).
  destruct ls as [|l2 ls].
  - rewrite get_setitem_ne by apply layer_key_not_names.
    now rewrite get_setitem_eq.
  - cbn [map]. rewrite <- app_assoc. reflexivity.
Qed.

Lemma layers_dict_layer (layers : list ogr.Layer) :
  forall idx names idxs d j l,
    layers !! j = Some l ->
    get (Layers.layer_key (idx + Z.of_nat j) l)
        (Layers.layers_dict parent_name layers idx names idxs d)
    = Some (VDict (Layers.layer_record parent_name l)).
Proof.
  induction layers as [|l0 ls IH]; intros idx names idxs d j l Hj; [done|].
  cbn [Layers.layers_dict]. cbv zeta. destruct j as [|j].
  - injection Hj as ->. rewrite Z.add_0_r.
    rewrite layers_dict_other.
    + apply get_setitem_eq.
    + apply layer_key_not_names.
    + apply layer_key_not_names.
    + intros m l' _ H. apply layer_key_inj in H. lia.
  - replace (idx + Z.of_nat (S j)) with (idx + 1 + Z.of_nat j) by lia.
    now apply IH.
Qed.

End LayersDict.

Lemma layer_record_eq (layer : ogr.Layer) (parent_name : string)
    (txt : gmap string string) (s : Infos_GeoPDF.state) :
  Infos_GeoPDF.on_fresh_dict
    (modify (setitem "parent_name" (VStr parent_name)) ;;;
     Infos_GeoPDF.vector_basics layer txt) s
  = (Ok (Layers.layer_record parent_name layer), s).
Proof.
  unfold Infos_GeoPDF.on_fresh_dict, Py.bind at 1, Py.modify at 1.
  now rewrite vector_basics_eq.
Qed.

Lemma layers_loop_eq (geopdf_v : ogr.DataSource) (txt : gmap string string) :
  forall post pre names idxs total_fields total_objs s,
    ogr.ds_layers geopdf_v = (pre ++ post)%list ->
    Infos_GeoPDF.layers_loop geopdf_v txt
      (seqZ (Z.of_nat (length pre)) (Z.of_nat (length post)))
      names idxs total_fields total_objs s
    = (Ok (total_fields + Layers.sum_fields post, total_objs + Layers.sum_objs post),
       {| Infos_GeoPDF.dico_geopdf :=
            Layers.layers_dict (posixpath.basename (ogr.ds_GetName geopdf_v)) post
              (Z.of_nat (length pre)) names idxs (Infos_GeoPDF.dico_geopdf s);
          Infos_GeoPDF.alert := Infos_GeoPDF.alert s;
          Infos_GeoPDF.calls := Infos_GeoPDF.calls s |}).
Proof.
  induction post as [|l post IH]; intros pre names idxs tf tobj s Hds.
  - cbn. rewrite !Z.add_0_r. now destruct s.
  - rewrite seqZ_cons by (cbn [length]; lia).
    replace (Z.pred (Z.of_nat (length (l :: post)))) with (Z.of_nat (length post))
      by (cbn [length]; lia).
    cbn [Infos_GeoPDF.layers_loop]. cbv zeta.
    unfold ogr.GetLayerByIndex. rewrite Hds, Nat2Z.id, list_lookup_middle by done.
    unfold Py.bind at 1. cbn [attr Py.ret].
    unfold Py.bind at 1. unfold Infos_GeoPDF.set_pdf at 1, Py.modify at 1.
    unfold Py.bind at 1. unfold Infos_GeoPDF.set_pdf at 1, Py.modify at 1.
    unfold Py.bind at 1. rewrite layer_record_eq.
    change (get "title" (Layers.layer_record ?p l)) with (Some (VStr (ogr.lyr_GetName l))).
    change (get "num_fields" (Layers.layer_record ?p l))
      with (Some (VInt (Z.of_nat (length (ogr.GetLayerDefn l))))).
    change (get "num_obj" (Layers.layer_record ?p l))
      with (Some (VInt (ogr.GetFeatureCount l))).
    cbv iota beta.
    unfold Py.bind at 1. unfold Infos_GeoPDF.set_pdf at 1, Py.modify at 1.
    unfold Py.bind at 1. unfold Py.ret at 1.
    unfold Py.bind at 1. unfold Py.ret at 1.
    replace (Z.succ (Z.of_nat (length pre))) with (Z.of_nat (length (pre ++ [l])))
      by (rewrite length_app; cbn [length]; lia).
    rewrite (IH (pre ++ [l])%list) by (now rewrite <- app_assoc).
    cbn [Infos_GeoPDF.dico_geopdf Infos_GeoPDF.alert Infos_GeoPDF.calls
         Layers.layers_dict Layers.sum_fields Layers.sum_objs foldr].
    fold (Layers.sum_fields post). fold (Layers.sum_objs post).
    fold (Layers.layer_key (Z.of_nat (length pre)) l).
    replace (Z.of_nat (length (pre ++ [l]))) with (Z.of_nat (length pre) + 1)
      by (rewrite length_app; cbn [length]; lia).
    rewrite <- !Z.add_assoc. reflexivity.
Qed.

Lemma vector_view_eq (geopdf_v : ogr.DataSource) (pdfpath : string)
    (txt : gmap string string) (s : Infos_GeoPDF.state) :
  Infos_GeoPDF.vector_view (gdal.Opened geopdf_v) pdfpath txt s
  = (Ok tt,
     {| Infos_GeoPDF.dico_geopdf :=
          setitem "total_objs" (VInt (Layers.sum_objs (ogr.ds_layers geopdf_v)))
            (setitem "total_fields" (VInt (Layers.sum_fields (ogr.ds_layers geopdf_v)))
               (Layers.layers_dict (posixpath.basename (ogr.ds_GetName geopdf_v))
                  (ogr.ds_layers geopdf_v) 0 [] []
                  (setitem "total_objs" (VInt 0)
                     (setitem "total_fields" (VInt 0)
                        (setitem "layers_idx" (VList [])
                           (setitem "layers_names" (VList [])
                              (setitem "layers_count"
                                 (VInt (ogr.GetLayerCount geopdf_v))
                                 (Infos_GeoPDF.dico_geopdf s))))))));
        Infos_GeoPDF.alert := Infos_GeoPDF.alert s;
        Infos_GeoPDF.calls := (Infos_GeoPDF.calls s ++ [Infos_GeoPDF.ogr_Open pdfpath])%list |}).
Proof.
  unfold Infos_GeoPDF.vector_view.
  unfold Py.bind at 1. unfold Infos_GeoPDF.log_call at 1, Py.modify at 1.
  do 5 (unfold Py.bind at 1; unfold Infos_GeoPDF.set_pdf at 1, Py.modify at 1).
  unfold Py.bind at 1. unfold range, ogr.GetLayerCount at 2. rewrite Z.sub_0_r.
  rewrite (layers_loop_eq geopdf_v txt (ogr.ds_layers geopdf_v) []) by reflexivity.
  unfold Py.bind, Infos_GeoPDF.set_pdf, Py.modify. cbn. reflexivity.
Qed.

(** X14: when [ogr.Open] answers a source, the vector part of the
    constructor ends normally and leaves in the record the number of layers
    under [layers_count], the names of the layers and their indices
    [0 .. n-1] in the order of the source under [layers_names] and
    [layers_idx], and under [total_fields] and [total_objs] the sums of the
    numbers of fields and of objects of all the layers. *)
Theorem vector_view_totals (geopdf_v : ogr.DataSource) (pdfpath : string)
    (txt : gmap string string) (s : Infos_GeoPDF.state) :
  let run := Infos_GeoPDF.vector_view (gdal.Opened geopdf_v) pdfpath txt s in
  let d := Infos_GeoPDF.dico_geopdf (snd run) in
  let layers := ogr.ds_layers geopdf_v in
  fst run = Ok tt
  /\ get "layers_count" d = Some (VInt (Z.of_nat (length layers)))
  /\ get "layers_names" d = Some (VList (map (fun l => VStr (ogr.lyr_GetName l)) layers))
  /\ get "layers_idx" d = Some (VList (map VInt (range 0 (Z.of_nat (length layers)))))
  /\ get "total_fields" d = Some (VInt (Layers.sum_fields layers))
  /\ get "total_objs" d = Some (VInt (Layers.sum_objs layers)).
Proof.
  cbv zeta. rewrite vector_view_eq.
  cbn [fst snd Infos_GeoPDF.dico_geopdf].
  split; [reflexivity|]. split; [|split; [|split; [|split]]].
  - rewrite !(get_setitem_ne "layers_count") by discriminate.
    rewrite layers_dict_other; try discriminate.
    + now rewrite !get_setitem_ne, get_setitem_eq by discriminate.
    + intros m l _. apply layer_key_letter. cbn. lia.
  - rewrite !(get_setitem_ne "layers_names") by discriminate.
    rewrite layers_dict_names. destruct (ogr.ds_layers geopdf_v); [|reflexivity].
    now rewrite !get_setitem_ne, get_setitem_eq by discriminate.
  - rewrite !(get_setitem_ne "layers_idx") by discriminate.
    rewrite layers_dict_idx. unfold range. rewrite Z.sub_0_r.
    destruct (ogr.ds_layers geopdf_v); [|reflexivity].
    now rewrite !get_setitem_ne, get_setitem_eq by discriminate.
  - rewrite get_setitem_ne by discriminate. apply get_setitem_eq.
  - apply get_setitem_eq.
Qed.

(** X15: every layer of the source keeps a sub-record of its own under
    the key [<index>_<name>], holding [parent_name], [title], [num_obj],
    [num_fields] and [fields]; neither a later layer nor one of the totals
    overwrites it. *)
Theorem vector_view_layer_record (geopdf_v : ogr.DataSource) (pdfpath : string)
    (txt : gmap string string) (s : Infos_GeoPDF.state) (j : nat)
    (layer : ogr.Layer) :
  ogr.ds_layers geopdf_v !! j = Some layer ->
  get (pretty (Z.of_nat j) ++ "_" ++ ogr.lyr_GetName layer)
      (Infos_GeoPDF.dico_geopdf
         (snd (Infos_GeoPDF.vector_view (gdal.Opened geopdf_v) pdfpath txt s)))
  = Some (VDict
            [("parent_name", VStr (posixpath.basename (ogr.ds_GetName geopdf_v)));
             ("title", VStr (ogr.lyr_GetName layer));
             ("num_obj", VInt (ogr.GetFeatureCount layer));
             ("num_fields", VInt (Z.of_nat (length (ogr.GetLayerDefn layer))));
             ("fields",
              VDict (snd (Infos_GeoPDF.infos_fields (ogr.GetLayerDefn layer) [])))]).
Proof.
  intros Hj. rewrite vector_view_eq, infos_fields_eq.
  cbn [snd Infos_GeoPDF.dico_geopdf].
  rewrite !get_setitem_ne by (apply not_eq_sym, layer_key_letter; cbn; lia).
  exact (layers_dict_layer _ _ 0 [] [] _ j layer Hj).
Qed.

Lemma vector_view_layer_record_witness :
  ogr.ds_layers Layers.pdf_two_layers !! 1%nat = Some Layers.layer_dup
  /\ get "1_parcels"
       (Infos_GeoPDF.dico_geopdf
          (snd (Infos_GeoPDF.vector_view (gdal.Opened Layers.pdf_two_layers)
                  "/data/map.pdf" textos Samples.empty_pdf_state)))
     = Some (VDict
               [("parent_name", VStr "map.pdf");
                ("title", VStr "parcels");
                ("num_obj", VInt 7);
                ("num_fields", VInt 3);
                ("fields", VDict [("id", VStr "String"); ("area", VStr "Real")])]).
Proof.
  split; [reflexivity|].
  apply (vector_view_layer_record Layers.pdf_two_layers "/data/map.pdf" textos
           Samples.empty_pdf_state 1 Layers.layer_dup).
  reflexivity.
Defined.

(* ===================================================================== *)
(** * ReadGeoPDF: the calls of the bindings, the alert and the error *)
(* ===================================================================== *)

Lemma GeoPDF_set_pdf_meta {T : Type} (g : Z * list Infos_GeoPDF.call -> T)
    (k : string) (v : pyval) :
  keeps (fun s => g (Infos_GeoPDF.alert s, Infos_GeoPDF.calls s))
        (Infos_GeoPDF.set_pdf k v).
Proof. intros s. reflexivity. Qed.

(** A key written by the reader differs from a key spelled in letters. *)
Ltac key_ne :=
  first [ discriminate
        | not_band_key
        | apply layer_key_letter; cbn; lia ].

Ltac frame_pdf :=
  repeat first [ frame_step
               | apply GeoPDF_set_pdf_meta
               | apply GeoPDF_set_pdf_other; key_ne
               | apply keeps_for_each; intros ? _ ].

Section GeoPDFViews.

Variable round : Q -> Z -> Q.
Variable env : os.OS.

Lemma raster_view_meta {T : Type} (g : Z * list Infos_GeoPDF.call -> T)
    (geopdf : gdal.Dataset) (pdfpath tipo : string) (txt : gmap string string)
    (err_gdal : pyval * pyval) :
  keeps (fun s => g (Infos_GeoPDF.alert s, Infos_GeoPDF.calls s))
        (Infos_GeoPDF.raster_view round env geopdf pdfpath tipo txt err_gdal).
Proof.
  unfold Infos_GeoPDF.raster_view, Infos_GeoPDF.raster_basics,
    Infos_GeoPDF.infos_geom, Infos_GeoPDF.srs_type, Infos_GeoPDF.srs_name,
    Infos_GeoPDF.bands_loop.
  frame_pdf.
Qed.

Lemma raster_view_error (geopdf : gdal.Dataset) (pdfpath tipo : string)
    (txt : gmap string string) (err_gdal : pyval * pyval) :
  keeps (fun s => get "error" (Infos_GeoPDF.dico_geopdf s))
        (Infos_GeoPDF.raster_view round env geopdf pdfpath tipo txt err_gdal).
Proof.
  unfold Infos_GeoPDF.raster_view, Infos_GeoPDF.raster_basics,
    Infos_GeoPDF.infos_geom, Infos_GeoPDF.srs_type, Infos_GeoPDF.srs_name,
    Infos_GeoPDF.bands_loop.
  frame_pdf.
Qed.

Lemma vector_view_outcome (ogr_open : gdal.opened ogr.DataSource)
    (pdfpath : string) (txt : gmap string string) (s : Infos_GeoPDF.state) :
  let run := Infos_GeoPDF.vector_view ogr_open pdfpath txt s in
  Infos_GeoPDF.calls (snd run)
  = (Infos_GeoPDF.calls s ++ [Infos_GeoPDF.ogr_Open pdfpath])%list
  /\ match ogr_open with
     | gdal.OpenRaises =>
         fst run = Ok tt
         /\ Infos_GeoPDF.alert (snd run) = Infos_GeoPDF.alert s + 1
         /\ get "error" (Infos_GeoPDF.dico_geopdf (snd run)) = Some (VStr "err_corrupt")
     | gdal.OpenNone =>
         fst run = Raise AttributeError
         /\ Infos_GeoPDF.alert (snd run) = Infos_GeoPDF.alert s
         /\ Infos_GeoPDF.dico_geopdf (snd run) = Infos_GeoPDF.dico_geopdf s
     | gdal.Opened _ =>
         fst run = Ok tt
         /\ Infos_GeoPDF.alert (snd run) = Infos_GeoPDF.alert s
         /\ get "error" (Infos_GeoPDF.dico_geopdf (snd run))
            = get "error" (Infos_GeoPDF.dico_geopdf s)
     end.
Proof.
  cbv zeta. destruct ogr_open as [| |geopdf_v].
  - unfold Infos_GeoPDF.vector_view, Infos_GeoPDF.erratum, Py.bind,
      Infos_GeoPDF.log_call, Infos_GeoPDF.set_pdf, Infos_GeoPDF.set_alert, Py.modify.
    cbn [fst snd Infos_GeoPDF.calls Infos_GeoPDF.alert Infos_GeoPDF.dico_geopdf].
    repeat split. apply get_setitem_eq.
  - unfold Infos_GeoPDF.vector_view, Py.bind, Infos_GeoPDF.log_call, Py.modify, Py.raise.
    cbn [fst snd Infos_GeoPDF.calls Infos_GeoPDF.alert Infos_GeoPDF.dico_geopdf].
    repeat split.
  - rewrite vector_view_eq.
    cbn [fst snd Infos_GeoPDF.calls Infos_GeoPDF.alert Infos_GeoPDF.dico_geopdf].
    repeat split.
    rewrite !(get_setitem_ne "error") by discriminate.
    rewrite layers_dict_other; try discriminate.
    + now rewrite !get_setitem_ne by discriminate.
    + intros m l _. apply layer_key_letter. cbn. lia.
Qed.

(** The state in which the constructor enters the raster part, once the
    working directory has been changed. *)
Lemma init_opened_eq (geopdf : gdal.Dataset) (ogr_open : gdal.opened ogr.DataSource)
    (err_gdal : pyval * pyval) (pdfpath tipo : string) (txt : gmap string string)
    (s : Infos_GeoPDF.state) :
  os.enters env (posixpath.dirname pdfpath) = true ->
  Infos_GeoPDF.__init__ round env (gdal.Opened geopdf) ogr_open err_gdal
                        pdfpath tipo txt s
  = (Infos_GeoPDF.raster_view round env geopdf (os.abspath env pdfpath) tipo txt err_gdal ;;;
     Infos_GeoPDF.vector_view ogr_open (os.abspath env pdfpath) txt)
      {| Infos_GeoPDF.dico_geopdf := Infos_GeoPDF.dico_geopdf s;
         Infos_GeoPDF.alert := 0;
         Infos_GeoPDF.calls :=
           (Infos_GeoPDF.calls s
            ++ [Infos_GeoPDF.gdal_Open (os.abspath env pdfpath)])%list |}.
Proof. intros Hcd. unfold Infos_GeoPDF.__init__. rewrite Hcd. reflexivity. Qed.

(** When the working directory cannot be changed, the constructor raises
    before it does anything else. *)
Lemma init_chdir_fails (gdal_open : gdal.opened gdal.Dataset)
    (ogr_open : gdal.opened ogr.DataSource) (err_gdal : pyval * pyval)
    (pdfpath tipo : string) (txt : gmap string string) (s : Infos_GeoPDF.state) :
  os.enters env (posixpath.dirname pdfpath) = false ->
  Infos_GeoPDF.__init__ round env gdal_open ogr_open err_gdal pdfpath tipo txt s
  = (Raise OSError, s).
Proof. intros Hcd. unfold Infos_GeoPDF.__init__. now rewrite Hcd. Qed.

End GeoPDFViews.

(** X16: when the working directory cannot be changed to the folder of
    the file, the constructor of [ReadGeoPDF] raises [OSError] and opens
    nothing.  Otherwise it calls [gdal.Open] once, before anything else; it
    calls [ogr.Open] at most once, afterwards, and exactly when [gdal.Open]
    answered a dataset and the raster part ended without an exception. *)
Theorem GeoPDF_open_calls (round : Q -> Z -> Q) (env : os.OS)
    (gdal_open : gdal.opened gdal.Dataset) (ogr_open : gdal.opened ogr.DataSource)
    (err_gdal : pyval * pyval) (pdfpath tipo : string) (txt : gmap string string)
    (s : Infos_GeoPDF.state) :
  let p := os.abspath env pdfpath in
  let run := Infos_GeoPDF.__init__ round env gdal_open ogr_open err_gdal
               pdfpath tipo txt s in
  let entered :=
    {| Infos_GeoPDF.dico_geopdf := Infos_GeoPDF.dico_geopdf s;
       Infos_GeoPDF.alert := 0;
       Infos_GeoPDF.calls := (Infos_GeoPDF.calls s ++ [Infos_GeoPDF.gdal_Open p])%list |} in
  let raster_done :=
    match gdal_open with
    | gdal.Opened geopdf =>
        match fst (Infos_GeoPDF.raster_view round env geopdf p tipo txt err_gdal entered) with
        | Ok _ => true
        | Raise _ => false
        end
    | _ => false
    end in
  (os.enters env (posixpath.dirname pdfpath) = false ->
   fst run = Raise OSError /\ Infos_GeoPDF.calls (snd run) = Infos_GeoPDF.calls s)
  /\ (os.enters env (posixpath.dirname pdfpath) = true ->
      Infos_GeoPDF.calls (snd run)
      = (Infos_GeoPDF.calls s
         ++ Infos_GeoPDF.gdal_Open p
            :: (if raster_done then [Infos_GeoPDF.ogr_Open p] else []))%list).
Proof.
  cbv zeta. split.
  - intros Hcd. now rewrite init_chdir_fails.
  - intros Hcd. destruct gdal_open as [| |geopdf].
    + unfold Infos_GeoPDF.__init__. rewrite Hcd. reflexivity.
    + unfold Infos_GeoPDF.__init__. rewrite Hcd. reflexivity.
    + rewrite init_opened_eq by exact Hcd. unfold Py.bind.
      pose proof (raster_view_meta round env (fun x => x) geopdf (os.abspath env pdfpath)
                    tipo txt err_gdal
                    {| Infos_GeoPDF.dico_geopdf := Infos_GeoPDF.dico_geopdf s;
                       Infos_GeoPDF.alert := 0;
                       Infos_GeoPDF.calls :=
                         (Infos_GeoPDF.calls s
                          ++ [Infos_GeoPDF.gdal_Open (os.abspath env pdfpath)])%list |}) as K.
      cbv beta in K. cbn [Infos_GeoPDF.alert Infos_GeoPDF.calls] in K.
      destruct (Infos_GeoPDF.raster_view _ _ _ _ _ _ _ _) as [[[]|e] s1].
      * cbn [fst snd] in *. injection K as _ Kc.
        destruct (vector_view_outcome ogr_open (os.abspath env pdfpath) txt s1) as [Hc _].
        rewrite Hc, Kc. now rewrite <- app_assoc.
      * cbn [fst snd] in *. now injection K as _ Kc.
Qed.

Lemma GeoPDF_open_calls_witness :
  let run := fun pdfpath =>
    Infos_GeoPDF.__init__ Samples.round_decimal Samples.env_rasters
      (gdal.Opened (Samples.dataset "/data/map.pdf" 1 Samples.srs_projected))
      (gdal.Opened Samples.pdf_vector) (VInt 0, VStr "") pdfpath ".pdf" textos
      Samples.empty_pdf_state in
  os.enters Samples.env_rasters (posixpath.dirname "map.pdf") = false
  /\ fst (run "map.pdf") = Raise OSError
  /\ Infos_GeoPDF.calls (snd (run "map.pdf")) = []
  /\ os.enters Samples.env_rasters (posixpath.dirname "/data/map.pdf") = true
  /\ Infos_GeoPDF.calls (snd (run "/data/map.pdf"))
     = [Infos_GeoPDF.gdal_Open "/data/map.pdf"; Infos_GeoPDF.ogr_Open "/data/map.pdf"].
Proof.
  cbv zeta. split; [reflexivity|].
  destruct (GeoPDF_open_calls Samples.round_decimal Samples.env_rasters
              (gdal.Opened (Samples.dataset "/data/map.pdf" 1 Samples.srs_projected))
              (gdal.Opened Samples.pdf_vector) (VInt 0, VStr "") "map.pdf" ".pdf"
              textos Samples.empty_pdf_state) as [H _].
  destruct (H eq_refl) as [H1 H2].
  split; [exact H1|]. split; [exact H2|]. split; [reflexivity|].
  vm_compute. reflexivity.
Defined.

(** X17: when the working directory cannot be changed to the folder of
    the file, the constructor of [ReadGeoPDF] raises before it sets
    [self.alert] and leaves the record as it was.  Otherwise, whatever the
    two opens answer and whether the constructor ends normally or with an
    exception, [self.alert] is 0 or 1; when it is 1 the record holds the
    error code [err_incomp] or [err_corrupt], and when it is 0 the entry
    [error] of the record is what it was before the call. *)
Theorem GeoPDF_alert_error (round : Q -> Z -> Q) (env : os.OS)
    (gdal_open : gdal.opened gdal.Dataset) (ogr_open : gdal.opened ogr.DataSource)
    (err_gdal : pyval * pyval) (pdfpath tipo : string) (txt : gmap string string)
    (s : Infos_GeoPDF.state) :
  let run := Infos_GeoPDF.__init__ round env gdal_open ogr_open err_gdal
               pdfpath tipo txt s in
  let s' := snd run in
  let error := get "error" (Infos_GeoPDF.dico_geopdf s') in
  (os.enters env (posixpath.dirname pdfpath) = false -> run = (Raise OSError, s))
  /\ (os.enters env (posixpath.dirname pdfpath) = true ->
      (Infos_GeoPDF.alert s' = 1
       /\ (error = Some (VStr "err_incomp") \/ error = Some (VStr "err_corrupt")))
      \/ (Infos_GeoPDF.alert s' = 0
          /\ error = get "error" (Infos_GeoPDF.dico_geopdf s))).
Proof.
  cbv zeta. split; [apply init_chdir_fails|].
  intros Hcd. destruct gdal_open as [| |geopdf].
  - left. unfold Infos_GeoPDF.__init__. rewrite Hcd. split; [reflexivity|]. left.
    unfold Infos_GeoPDF.erratum, Py.bind, Py.ret,
      Infos_GeoPDF.log_call, Infos_GeoPDF.set_pdf, Infos_GeoPDF.set_alert, Py.modify.
    cbn [snd Infos_GeoPDF.dico_geopdf]. apply get_setitem_eq.
  - left. unfold Infos_GeoPDF.__init__. rewrite Hcd. split; [reflexivity|]. left.
    unfold Infos_GeoPDF.erratum, Py.bind, Py.ret,
      Infos_GeoPDF.log_call, Infos_GeoPDF.set_pdf, Infos_GeoPDF.set_alert, Py.modify.
    cbn [snd Infos_GeoPDF.dico_geopdf]. apply get_setitem_eq.
  - rewrite init_opened_eq by exact Hcd. unfold Py.bind.
    set (s0 := {| Infos_GeoPDF.dico_geopdf := Infos_GeoPDF.dico_geopdf s |}).
    pose proof (raster_view_meta round env (fun x => x) geopdf (os.abspath env pdfpath)
                  tipo txt err_gdal s0) as K.
    pose proof (raster_view_error round env geopdf (os.abspath env pdfpath)
                  tipo txt err_gdal s0) as E.
    cbv beta in K, E.
    destruct (Infos_GeoPDF.raster_view _ _ _ _ _ _ _ _) as [[[]|e] s1];
      cbn [fst snd] in *; injection K as Ka _.
    + pose proof (vector_view_outcome ogr_open (os.abspath env pdfpath) txt s1) as [_ H].
      cbv zeta in H. destruct ogr_open as [| |geopdf_v].
      * destruct H as (_ & Ha & He). left. split; [rewrite Ha, Ka; reflexivity|].
        now right.
      * destruct H as (_ & Ha & Hd). right. rewrite Ha, Hd. split; [exact Ka|exact E].
      * destruct H as (_ & Ha & He). right. rewrite Ha, He. split; [exact Ka|exact E].
    + right. split; [exact Ka|exact E].
Qed.

Lemma GeoPDF_alert_error_witness :
  let s := {| Infos_GeoPDF.dico_geopdf := []; Infos_GeoPDF.alert := 7;
              Infos_GeoPDF.calls := [] |} in
  let run := fun pdfpath =>
    Infos_GeoPDF.__init__ Samples.round_decimal Samples.env_rasters gdal.OpenNone
      (gdal.Opened Samples.pdf_vector) (VInt 0, VStr "") pdfpath ".pdf" textos s in
  os.enters Samples.env_rasters (posixpath.dirname "map.pdf") = false
  /\ run "map.pdf" = (Raise OSError, s)
  /\ os.enters Samples.env_rasters (posixpath.dirname "/data/map.pdf") = true
  /\ Infos_GeoPDF.alert (snd (run "/data/map.pdf")) = 1
  /\ get "error" (Infos_GeoPDF.dico_geopdf (snd (run "/data/map.pdf")))
     = Some (VStr "err_incomp").
Proof.
  cbv zeta. split; [reflexivity|]. split.
  - exact (proj1 (GeoPDF_alert_error Samples.round_decimal Samples.env_rasters
                    gdal.OpenNone (gdal.Opened Samples.pdf_vector) (VInt 0, VStr "")
                    "map.pdf" ".pdf" textos _) eq_refl).
  - split; [reflexivity|]. split; reflexivity.
Defined.

(* ===================================================================== *)
(** * ReadGeoPDF: the records of the bands *)
(* ===================================================================== *)

Lemma string_app_inv_head (a s t : string) : a ++ s = a ++ t -> s = t.
Proof.
  induction a as [|c a IH]; [now rewrite !append_nil_l|].
  rewrite !append_cons. intros [= H]. now apply IH.
Qed.

(** Two keys of one band with different suffixes differ. *)
Lemma band_suffix_ne (band : Z) (suffix1 suffix2 : string) :
  suffix1 <> suffix2 ->
  "band" ++ pretty band ++ suffix1 <> "band" ++ pretty band ++ suffix2.
Proof.
  intros Hne H. now do 2 apply string_app_inv_head in H.
Qed.

Section GeoPDFBands.

Variable round : Q -> Z -> Q.
Variable geopdf : gdal.Dataset.

(** [GetStatistics], when it answers, answers the four numbers minimum,
    maximum, mean and standard deviation. *)
Hypothesis four_statistics :
  forall i band_info stats,
    gdal.GetRasterBand geopdf i = Some band_info ->
    gdal.GetStatistics band_info = Ok stats ->
    length stats = 4%nat.

Lemma infos_bands_ok (i : Z) (d : odict) :
  fst (Infos_GeoPDF.infos_bands round geopdf i d) = Ok tt.
Proof.
  unfold Infos_GeoPDF.infos_bands.
  destruct (gdal.GetRasterBand geopdf i) as [b|] eqn:Hb; [|reflexivity].
  destruct (gdal.GetStatistics b) as [stats|e] eqn:Hs; [|reflexivity].
  pose proof (four_statistics i b stats Hb Hs) as H4.
  destruct stats as [|s0 [|s1 [|s2 [|s3 [|]]]]]; try discriminate H4.
  unfold Py.bind, Py.modify, index, Py.ret.
  destruct (gdal.GetMinimum b), (gdal.GetColorTable b); reflexivity.
Qed.

Lemma band_step_eq (i : Z) (s : Infos_GeoPDF.state) :
  (let* dico_band := Infos_GeoPDF.on_fresh_dict (Infos_GeoPDF.infos_bands round geopdf i) in
   Infos_GeoPDF.set_pdf ("band_" ++ pretty i) (VDict dico_band)) s
  = (Ok tt,
     {| Infos_GeoPDF.dico_geopdf :=
          setitem ("band_" ++ pretty i)
                  (VDict (snd (Infos_GeoPDF.infos_bands round geopdf i [])))
                  (Infos_GeoPDF.dico_geopdf s);
        Infos_GeoPDF.alert := Infos_GeoPDF.alert s;
        Infos_GeoPDF.calls := Infos_GeoPDF.calls s |}).
Proof.
  unfold Py.bind, Infos_GeoPDF.on_fresh_dict.
  pose proof (infos_bands_ok i []) as Hok.
  destruct (Infos_GeoPDF.infos_bands round geopdf i []) as [[[]|e] d];
    [reflexivity|discriminate Hok].
Qed.

Lemma bands_for_each (l : list Z) :
  forall s, exists s',
    for_each l
      (fun band_idx =>
         let* dico_band :=
           Infos_GeoPDF.on_fresh_dict (Infos_GeoPDF.infos_bands round geopdf band_idx) in
         Infos_GeoPDF.set_pdf ("band_" ++ pretty band_idx) (VDict dico_band)) s
    = (Ok tt, s')
    /\ forall i, i ∈ l ->
         get ("band_" ++ pretty i) (Infos_GeoPDF.dico_geopdf s')
         = Some (VDict (snd (Infos_GeoPDF.infos_bands round geopdf i []))).
Proof.
  induction l as [|j l IH]; intros s.
  - exists s. split; [reflexivity|]. intros i Hi. inversion Hi.
  - cbn [for_each]. unfold Py.bind at 1. rewrite band_step_eq.
    match goal with
    | |- context [for_each l _ ?s1] => destruct (IH s1) as (s' & E & Hget)
    end.
    exists s'. split; [exact E|]. intros i Hi.
    destruct (decide (i ∈ l)) as [Hl|Hl]; [now apply Hget|].
    apply elem_of_cons in Hi as [->|Hi]; [|done].
    match type of E with
    | for_each l ?body ?s1 = _ =>
        pose proof (keeps_for_each
                      (fun st => get ("band_" ++ pretty j) (Infos_GeoPDF.dico_geopdf st))
                      l body) as K;
        specialize (K (fun x Hx st =>
                         GeoPDF_band_step_other round geopdf x j st
                           (fun Heq => Hl (eq_ind x (fun y => y ∈ l) Hx j Heq)))
                      s1)
    end.
    rewrite E in K. cbn [snd] in K. rewrite K.
    cbn [Infos_GeoPDF.dico_geopdf]. apply get_setitem_eq.
Qed.

End GeoPDFBands.

(** X18: when the statistics that GDAL answers are four numbers, the
    loop over the bands of the constructor of [ReadGeoPDF] ends normally and
    leaves, for every index [i] from 1 to the number of bands excluded, the
    sub-record that [infos_bands] fills under [band_i]; that sub-record is
    empty, without no-data value, scale or unit, when the band is missing
    or its statistics raise. *)
Theorem GeoPDF_band_records (round : Q -> Z -> Q) (geopdf : gdal.Dataset)
    (s : Infos_GeoPDF.state) :
  (forall i band_info stats,
     gdal.GetRasterBand geopdf i = Some band_info ->
     gdal.GetStatistics band_info = Ok stats ->
     length stats = 4%nat) ->
  let run := Infos_GeoPDF.bands_loop round geopdf s in
  fst run = Ok tt
  /\ (forall i, 1 <= i < gdal.RasterCount geopdf ->
        get ("band_" ++ pretty i) (Infos_GeoPDF.dico_geopdf (snd run))
        = Some (VDict (snd (Infos_GeoPDF.infos_bands round geopdf i []))))
  /\ (forall i,
        match gdal.GetRasterBand geopdf i with
        | None => True
        | Some band_info => exists e, gdal.GetStatistics band_info = Raise e
        end ->
        snd (Infos_GeoPDF.infos_bands round geopdf i []) = []).
Proof.
  intros H4. cbv zeta. unfold Infos_GeoPDF.bands_loop.
  destruct (bands_for_each round geopdf H4 (range 1 (gdal.RasterCount geopdf)) s)
    as (s' & E & Hget).
  rewrite E. cbn [fst snd]. split; [reflexivity|]. split.
  - intros i Hi. apply Hget. now apply range_spec.
  - intros i Hi. unfold Infos_GeoPDF.infos_bands.
    destruct (gdal.GetRasterBand geopdf i) as [b|]; [|reflexivity].
    destruct Hi as [e ->]. reflexivity.
Qed.

Lemma GeoPDF_band_records_witness :
  let geopdf := Samples.dataset "/data/map.pdf" 3 Samples.srs_projected in
  (forall i band_info stats,
     gdal.GetRasterBand geopdf i = Some band_info ->
     gdal.GetStatistics band_info = Ok stats ->
     length stats = 4%nat)
  /\ fst (Infos_GeoPDF.bands_loop Samples.round_decimal geopdf Samples.empty_pdf_state)
     = Ok tt
  /\ keys (Infos_GeoPDF.dico_geopdf
             (snd (Infos_GeoPDF.bands_loop Samples.round_decimal geopdf
                     Samples.empty_pdf_state)))
     = ["band_1"; "band_2"].
Proof.
  intros geopdf.
  assert (H4 : forall i band_info stats,
             gdal.GetRasterBand geopdf i = Some band_info ->
             gdal.GetStatistics band_info = Ok stats ->
             length stats = 4%nat).
  { intros i b stats Hb Hs. subst geopdf. cbn in Hb.
    destruct ((1 <=? i)%Z && (i <=? 3)%Z)%bool; [|discriminate Hb].
    injection Hb as <-. injection Hs as <-. reflexivity. }
  split; [exact H4|]. split; [|reflexivity].
  apply (GeoPDF_band_records Samples.round_decimal geopdf Samples.empty_pdf_state H4).
Defined.

(** X19: when the statistics of a band are four numbers, its record
    holds eight entries whose values follow one test on the minimum of the
    band: if [GetMinimum] answers [None], [Min] and [Max] are the minimum
    and the maximum of the statistics; otherwise [Min] is that minimum and
    [Max] is the answer of [GetMaximum], [None] included.  Mean and standard
    deviation are rounded to two decimals, and the count of the color table
    is 0 when the band has none. *)
Theorem GeoPDF_band_values (round : Q -> Z -> Q) (geopdf : gdal.Dataset)
    (band : Z) (band_info : gdal.Band) (s0 s1 s2 s3 : Q) :
  gdal.GetRasterBand geopdf band = Some band_info ->
  gdal.GetStatistics band_info = Ok [s0; s1; s2; s3] ->
  let run := Infos_GeoPDF.infos_bands round geopdf band [] in
  let key := fun suffix => "band" ++ pretty band ++ suffix in
  run
  = (Ok tt,
     [(key "_Min", VFloat (default s0 (gdal.GetMinimum band_info)));
      (key "_Max", match gdal.GetMinimum band_info with
                   | None => VFloat s1
                   | Some _ => opt_val VFloat (gdal.GetMaximum band_info)
                   end);
      (key "_Mean", VFloat (round s2 2));
      (key "_Sdev", VFloat (round s3 2));
      (key "_NoData", opt_val VFloat (gdal.GetNoDataValue band_info));
      (key "_Scale", opt_val VFloat (gdal.GetScale band_info));
      (key "_UnitType", VStr (gdal.GetUnitType band_info));
      (key "_CTabCount", VInt (default 0 (gdal.GetColorTable band_info)))]).
Proof.
  intros Hb Hs. cbv zeta. unfold Infos_GeoPDF.infos_bands. rewrite Hb, Hs.
  unfold Py.bind, Py.modify, index, Py.ret. cbn [lookup list_lookup].
  assert (Hset : forall (suffix : string) (v : pyval) (d : odict),
             Forall (fun kv => exists suffix', suffix' <> suffix
                               /\ fst kv = "band" ++ pretty band ++ suffix') d ->
             setitem ("band" ++ pretty band ++ suffix) v d
             = (d ++ [(("band" ++ pretty band ++ suffix)%string, v)])%list).
  { intros suffix v d Hd. apply setitem_fresh. intros Hin.
    apply list_elem_of_fmap in Hin as ([k w] & Hk & Hin). cbn [fst] in Hk.
    rewrite Forall_forall in Hd. destruct (Hd _ Hin) as (suffix' & Hne & Hk').
    cbn [fst] in Hk'. rewrite Hk' in Hk. now apply band_suffix_ne in Hk. }
  assert (Hall : forall (v1 v2 v8 : pyval),
             setitem ("band" ++ pretty band ++ "_CTabCount") v8
               (setitem ("band" ++ pretty band ++ "_UnitType")
                  (VStr (gdal.GetUnitType band_info))
                  (setitem ("band" ++ pretty band ++ "_Scale")
                     (opt_val VFloat (gdal.GetScale band_info))
                     (setitem ("band" ++ pretty band ++ "_NoData")
                        (opt_val VFloat (gdal.GetNoDataValue band_info))
                        (setitem ("band" ++ pretty band ++ "_Sdev") (VFloat (round s3 2))
                           (setitem ("band" ++ pretty band ++ "_Mean") (VFloat (round s2 2))
                              (setitem ("band" ++ pretty band ++ "_Max") v2
                                 (setitem ("band" ++ pretty band ++ "_Min") v1 [])))))))
             = [("band" ++ pretty band ++ "_Min", v1);
                ("band" ++ pretty band ++ "_Max", v2);
                ("band" ++ pretty band ++ "_Mean", VFloat (round s2 2));
                ("band" ++ pretty band ++ "_Sdev", VFloat (round s3 2));
                ("band" ++ pretty band ++ "_NoData",
                 opt_val VFloat (gdal.GetNoDataValue band_info));
                ("band" ++ pretty band ++ "_Scale", opt_val VFloat (gdal.GetScale band_info));
                ("band" ++ pretty band ++ "_UnitType", VStr (gdal.GetUnitType band_info));
                ("band" ++ pretty band ++ "_CTabCount", v8)]).
  { intros v1 v2 v8.
    rewrite (Hset "_Min" _ []) by constructor. cbn [app].
    rewrite (Hset "_Max" _ [_]);
      [|repeat (apply Forall_cons; split;
                [eexists; split; [|reflexivity]; discriminate|]); constructor].
    cbn [app].
    rewrite (Hset "_Mean" _ [_; _]);
      [|repeat (apply Forall_cons; split;
                [eexists; split; [|reflexivity]; discriminate|]); constructor].
    cbn [app].
    rewrite (Hset "_Sdev" _ [_; _; _]);
      [|repeat (apply Forall_cons; split;
                [eexists; split; [|reflexivity]; discriminate|]); constructor].
    cbn [app].
    rewrite (Hset "_NoData" _ [_; _; _; _]);
      [|repeat (apply Forall_cons; split;
                [eexists; split; [|reflexivity]; discriminate|]); constructor].
    cbn [app].
    rewrite (Hset "_Scale" _ [_; _; _; _; _]);
      [|repeat (apply Forall_cons; split;
                [eexists; split; [|reflexivity]; discriminate|]); constructor].
    cbn [app].
    rewrite (Hset "_UnitType" _ [_; _; _; _; _; _]);
      [|repeat (apply Forall_cons; split;
                [eexists; split; [|reflexivity]; discriminate|]); constructor].
    cbn [app].
    rewrite (Hset "_CTabCount" _ [_; _; _; _; _; _; _]);
      [|repeat (apply Forall_cons; split;
                [eexists; split; [|reflexivity]; discriminate|]); constructor].
    reflexivity. }
  destruct (gdal.GetMinimum band_info), (gdal.GetColorTable band_info);
    cbn [default opt_val]; now rewrite Hall.
Qed.

Lemma GeoPDF_band_values_witness :
  let geopdf := Samples.dataset "/data/map.pdf" 3 Samples.srs_projected in
  gdal.GetRasterBand geopdf 2 = Some Samples.band_byte
  /\ gdal.GetStatistics Samples.band_byte = Ok [0 # 1; 255 # 1; 127 # 1; 12 # 1]
  /\ Infos_GeoPDF.infos_bands Samples.round_decimal geopdf 2 []
     = (Ok tt,
        [("band2_Min", VFloat (0 # 1));
         ("band2_Max", VFloat (255 # 1));
         ("band2_Mean", VFloat (Samples.round_decimal (127 # 1) 2));
         ("band2_Sdev", VFloat (Samples.round_decimal (12 # 1) 2));
         ("band2_NoData", VNone);
         ("band2_Scale", VFloat (1 # 1));
         ("band2_UnitType", VStr "");
         ("band2_CTabCount", VInt 0)]).
Proof.
  intros geopdf. split; [reflexivity|]. split; [reflexivity|].
  exact (GeoPDF_band_values Samples.round_decimal geopdf 2 Samples.band_byte
           (0 # 1) (255 # 1) (127 # 1) (12 # 1) eq_refl eq_refl).
Defined.

(* ===================================================================== *)
(** * The name of the reference and its EPSG code *)
(* ===================================================================== *)

Lemma replace_char_absent (a b : ascii) (s : string) :
  a <> b -> a ∉ list_ascii_of_string (replace_char a b s).
Proof.
  intros Hab. induction s as [|c s IH]; cbn [replace_char list_ascii_of_string].
  - apply not_elem_of_nil.
  - apply not_elem_of_cons. split; [|exact IH].
    destruct (Ascii.eqb_spec c a); congruence.
Qed.

Lemma unicode_opt_ok (o : option string) (u : string) :
  unicode_opt o = Ok u -> u = unicode_text o.
Proof.
  destruct o as [v|]; cbn [unicode_opt unicode_text]; [|now intros [= <-]].
  unfold unicode. destruct (is_ascii v); [now intros [= <-]|discriminate].
Qed.

Lemma InfosGDAL_srs_name_inv (srs : gdal.SpatialReference) (s s1 : InfosGDAL.state) :
  try_except
    (match gdal.GetAttrValue srs "PROJCS" 0 with
     | Some projcs =>
         let* u := lift (unicode projcs) in
         InfosGDAL.set_raster "srs" (VStr (replace_char "_" " " u))
     | None =>
         let* u := lift (unicode_opt (gdal.GetAttrValue srs "PROJECTION" 0)) in
         InfosGDAL.set_raster "srs" (VStr (replace_char "_" " " u))
     end)
    (fun e => match e with UnicodeDecodeError => true | _ => false end)
    (if bool_decide (gdal.GetAttrValue srs "PROJCS" 0 = Some "unnamed")
     then
       let* p := attr (gdal.GetAttrValue srs "PROJECTION" 0) in
       InfosGDAL.set_raster "srs" (VStr (replace_char "_" " " (decode_latin1 p)))
     else
       let* p := attr (gdal.GetAttrValue srs "PROJCS" 0) in
       InfosGDAL.set_raster "srs" (VStr (replace_char "_" " " (decode_latin1 p)))) s
  = (Ok tt, s1) ->
  s1 = {| InfosGDAL.dico_raster :=
            setitem "srs" (VStr (replace_char "_" " " (SrsName.named srs "PROJCS")))
                    (InfosGDAL.dico_raster s);
          InfosGDAL.dico_bands := InfosGDAL.dico_bands s;
          InfosGDAL.alert := InfosGDAL.alert s |}.
Proof.
  unfold SrsName.named, try_except, Py.bind, Py.lift, unicode_opt, unicode, attr,
    InfosGDAL.set_raster, Py.modify, Py.ret, Py.raise, decode_latin1.
  destruct (gdal.GetAttrValue srs "PROJCS" 0) as [v|].
  - destruct (is_ascii v) eqn:Hv; [now intros [= <-]|].
    case_bool_decide as Hun; [|now intros [= <-]].
    injection Hun as ->. discriminate Hv.
  - rewrite bool_decide_false by discriminate.
    destruct (gdal.GetAttrValue srs "PROJECTION" 0) as [p|]; [|now intros [= <-]].
    destruct (is_ascii p); [now intros [= <-]|discriminate].
Qed.

Lemma GeoPDF_srs_name_inv (srs : gdal.SpatialReference) (first : string)
    (s s1 : Infos_GeoPDF.state) :
  (first = "PROJCS" \/ first = "GEOGCS") ->
  Infos_GeoPDF.srs_name srs first s = (Ok tt, s1) ->
  s1 = {| Infos_GeoPDF.dico_geopdf :=
            setitem "srs" (VStr (replace_char "_" " " (SrsName.named srs first)))
                    (Infos_GeoPDF.dico_geopdf s);
          Infos_GeoPDF.alert := Infos_GeoPDF.alert s;
          Infos_GeoPDF.calls := Infos_GeoPDF.calls s |}.
Proof.
  intros Hfirst.
  unfold Infos_GeoPDF.srs_name, SrsName.named, try_except, Py.bind, Py.lift,
    unicode_opt, unicode, attr, Infos_GeoPDF.set_pdf, Py.modify, Py.ret, Py.raise,
    decode_latin1.
  destruct (gdal.GetAttrValue srs first 0) as [v|].
  - destruct (is_ascii v) eqn:Hv; [now intros [= <-]|].
    case_bool_decide as Hun; [|now intros [= <-]].
    injection Hun as ->. discriminate Hv.
  - rewrite bool_decide_false by discriminate.
    destruct (gdal.GetAttrValue srs "PROJECTION" 0) as [p|]; [|now intros [= <-]].
    destruct (is_ascii p); [now intros [= <-]|discriminate].
Qed.

(** X20: when [infos_geom] of [InfosRasters] returns, [srs] is the
    attribute PROJCS of the reference, or PROJECTION when PROJCS is absent,
    with every underscore replaced by a space, and [EPSG] is the authority
    code as a text; an absent name or code is written as the text [None]. *)
Theorem InfosRasters_srs_epsg (ds : gdal.Dataset) (txt : gmap string string)
    (s s' : InfosGDAL.state) :
  InfosGDAL.infos_geom (Some ds) txt s = (Ok tt, s') ->
  let srs := gdal.GetSRS ds in
  get "srs" (InfosGDAL.dico_raster s')
  = Some (VStr (replace_char "_" " " (SrsName.named srs "PROJCS")))
  /\ ("_"%char ∉ list_ascii_of_string
                    (replace_char "_" " " (SrsName.named srs "PROJCS")))
  /\ get "EPSG" (InfosGDAL.dico_raster s')
     = Some (VStr (unicode_text (gdal.GetAttrValue srs "AUTHORITY" 1))).
Proof.
  unfold InfosGDAL.infos_geom. intros H.
  apply bind_ok_inv in H as (ds' & ? & Hds & H). injection Hds as <- _.
  do 12 peel H.
  apply bind_ok_inv in H as ([] & s1 & Hsrs & H).
  apply InfosGDAL_srs_name_inv in Hsrs. subst s1.
  apply bind_ok_inv in H as (epsg & s2 & He & H).
  unfold Py.lift in He. injection He as He <-.
  apply unicode_opt_ok in He. subst epsg.
  injection H as <-. cbn [InfosGDAL.dico_raster].
  split; [|split].
  - rewrite get_setitem_ne by discriminate. apply get_setitem_eq.
  - apply replace_char_absent. discriminate.
  - apply get_setitem_eq.
Qed.

Lemma InfosRasters_srs_epsg_witness :
  let ds := Samples.dataset "/data/dem.tif" 1 Samples.srs_projected in
  let run := InfosGDAL.infos_geom (Some ds) textos Samples.empty_raster_state in
  run = (Ok tt, snd run)
  /\ get "srs" (InfosGDAL.dico_raster (snd run)) = Some (VStr "RGF93 Lambert 93")
  /\ get "EPSG" (InfosGDAL.dico_raster (snd run)) = Some (VStr "2154").
Proof.
  intros ds run.
  assert (H : run = (Ok tt, snd run)) by reflexivity.
  split; [exact H|].
  destruct (InfosRasters_srs_epsg ds textos Samples.empty_raster_state (snd run) H)
    as (H1 & _ & H2).
  split; [exact H1|exact H2].
Defined.

(** X21: when [infos_geom] of [ReadGeoPDF] returns, [srs] is the
    attribute GEOGCS of the reference when [IsProjected] answers 0 and
    PROJCS otherwise, or PROJECTION when that attribute is absent, with
    every underscore replaced by a space, and [EPSG] is the authority code
    as a text; an absent name or code is written as the text [None]. *)
Theorem GeoPDF_srs_epsg (round : Q -> Z -> Q) (geopdf : gdal.Dataset)
    (txt : gmap string string) (s s' : Infos_GeoPDF.state) :
  Infos_GeoPDF.infos_geom round geopdf txt s = (Ok tt, s') ->
  let srs := gdal.GetSRS geopdf in
  let name := replace_char "_" " " (SrsName.named srs (SrsName.first_attribute srs)) in
  get "srs" (Infos_GeoPDF.dico_geopdf s') = Some (VStr name)
  /\ ("_"%char ∉ list_ascii_of_string name)
  /\ get "EPSG" (Infos_GeoPDF.dico_geopdf s')
     = Some (VStr (unicode_text (gdal.GetAttrValue srs "AUTHORITY" 1))).
Proof.
  unfold Infos_GeoPDF.infos_geom. intros H.
  do 12 peel H.
  apply bind_ok_inv in H as ([] & s1 & Hsrs & H).
  match type of Hsrs with
  | _ ?s0 = _ =>
      assert (Hs1 : s1 = {| Infos_GeoPDF.dico_geopdf :=
                              setitem "srs"
                                (VStr (replace_char "_" " "
                                         (SrsName.named (gdal.GetSRS geopdf)
                                            (SrsName.first_attribute (gdal.GetSRS geopdf)))))
                                (Infos_GeoPDF.dico_geopdf s0);
                            Infos_GeoPDF.alert := Infos_GeoPDF.alert s0;
                            Infos_GeoPDF.calls := Infos_GeoPDF.calls s0 |})
  end.
  { unfold SrsName.first_attribute.
    destruct (gdal.IsProjected (gdal.GetSRS geopdf) =? 0)%Z;
      apply GeoPDF_srs_name_inv in Hsrs; auto. }
  subst s1.
  apply bind_ok_inv in H as (epsg & s2 & He & H).
  unfold Py.lift in He. injection He as He <-.
  apply unicode_opt_ok in He. subst epsg.
  injection H as <-. cbn [Infos_GeoPDF.dico_geopdf].
  split; [|split].
  - rewrite get_setitem_ne by discriminate. apply get_setitem_eq.
  - apply replace_char_absent. discriminate.
  - apply get_setitem_eq.
Qed.

Lemma GeoPDF_srs_epsg_witness :
  let geopdf := Samples.dataset "/data/map.pdf" 1 Samples.srs_projected in
  let run := Infos_GeoPDF.infos_geom Samples.round_decimal geopdf textos
               Samples.empty_pdf_state in
  run = (Ok tt, snd run)
  /\ get "srs" (Infos_GeoPDF.dico_geopdf (snd run)) = Some (VStr "RGF93 Lambert 93")
  /\ get "EPSG" (Infos_GeoPDF.dico_geopdf (snd run)) = Some (VStr "2154").
Proof.
  intros geopdf run.
  assert (H : run = (Ok tt, snd run)) by reflexivity.
  split; [exact H|].
  destruct (GeoPDF_srs_epsg Samples.round_decimal geopdf textos
              Samples.empty_pdf_state (snd run) H) as (H1 & _ & H2).
  split; [exact H1|exact H2].
Defined.

(* ===================================================================== *)
(** * InfosRasters: the record of a raster that was read *)
(* ===================================================================== *)

Lemma lift_ok_inv {S A : Type} (r : result A) (s s1 : S) (a : A) :
  Py.lift r s = (Ok a, s1) -> r = Ok a /\ s1 = s.
Proof. unfold Py.lift. now intros [= -> ->]. Qed.

Lemma attr_ok_inv {S A : Type} (o : option A) (s s1 : S) (a : A) :
  attr o s = (Ok a, s1) -> o = Some a /\ s1 = s.
Proof. destruct o; cbn; [now intros [= -> ->]|discriminate]. Qed.

Lemma index_ok_inv {S A : Type} (l : list A) (i : nat) (s s1 : S) (a : A) :
  index l i s = (Ok a, s1) -> l !! i = Some a /\ s1 = s.
Proof. unfold index. destruct (l !! i); cbn; [now intros [= -> ->]|discriminate]. Qed.

Lemma InfosGDAL_set_band_raster {T : Type} (g : odict * Z -> T) (k : string) (v : pyval) :
  keeps (fun s => g (InfosGDAL.dico_raster s, InfosGDAL.alert s)) (InfosGDAL.set_band k v).
Proof. intros s. reflexivity. Qed.

Lemma InfosGDAL_band_loop_raster {T : Type} (g : odict * Z -> T)
    (rast : option gdal.Dataset) :
  keeps (fun s => g (InfosGDAL.dico_raster s, InfosGDAL.alert s))
        (let* bands := InfosGDAL.band_range in for_each bands (InfosGDAL.infos_bands rast)).
Proof.
  unfold InfosGDAL.band_range, InfosGDAL.infos_bands.
  repeat first [ frame_step
               | apply InfosGDAL_set_band_raster
               | apply keeps_for_each; intros ? _ ].
Qed.

(** A step of a sequence that assigns an entry of the record. *)
Ltac set_step H :=
  let E := fresh "E" in
  apply bind_ok_inv in H as ([] & ? & E & H);
  unfold InfosGDAL.set_raster, InfosGDAL.set_alert, Py.modify in E;
  injection E as <-.

Lemma keys_raster_record (v1 v2 v3 v4 v5 v6 v7 v8 v9 v10 v11 v12 v13 v14 v15 v16
    v17 v18 v19 v20 v21 v22 : pyval) :
  keys (setitem "EPSG" v22 (setitem "srs" v21 (setitem "srs_type" v20
       (setitem "orientation" v19 (setitem "pixelHeight" v18
       (setitem "pixelWidth" v17 (setitem "yOrigin" v16 (setitem "xOrigin" v15
       (setitem "date_crea" v14 (setitem "date_actu" v13 (setitem "data_type" v12
       (setitem "num_bands" v11 (setitem "num_rows" v10 (setitem "num_cols" v9
       (setitem "format_version" v8 (setitem "color_ref" v7 (setitem "compr_rate" v6
       (setitem "dependencies" v5 (setitem "title" v4 (setitem "folder" v3
       (setitem "name" v2 (setitem "format" v1 []))))))))))))))))))))))
  = ["format"; "name"; "folder"; "title"; "dependencies"; "compr_rate"; "color_ref";
     "format_version"; "num_cols"; "num_rows"; "num_bands"; "data_type";
     "date_actu"; "date_crea"; "xOrigin"; "yOrigin"; "pixelWidth"; "pixelHeight";
     "orientation"; "srs_type"; "srs"; "EPSG"].
Proof. reflexivity. Qed.

Lemma infos_basics_inv (env : os.OS) (rast : option gdal.Dataset)
    (rasterpath : string) (txt : gmap string string) (s s' : InfosGDAL.state) :
  InfosGDAL.infos_basics env rast rasterpath txt s = (Ok tt, s') ->
  exists ds v4 v5 v6 v7 v8 v9 v10 v11 v12 v13 v14,
    rast = Some ds
    /\ s' = {| InfosGDAL.dico_raster :=
                 setitem "date_crea" v14 (setitem "date_actu" v13
                 (setitem "data_type" v12 (setitem "num_bands" v11
                 (setitem "num_rows" v10 (setitem "num_cols" v9
                 (setitem "format_version" v8 (setitem "color_ref" v7
                 (setitem "compr_rate" v6 (setitem "dependencies" v5
                 (setitem "title" v4
                 (setitem "folder" (VStr (posixpath.dirname rasterpath))
                 (setitem "name" (VStr (posixpath.basename rasterpath))
                    (InfosGDAL.dico_raster s)))))))))))));
               InfosGDAL.dico_bands := InfosGDAL.dico_bands s;
               InfosGDAL.alert := InfosGDAL.alert s |}.
Proof.
  unfold InfosGDAL.infos_basics. intros H.
  do 3 set_step H.
  apply bind_ok_inv in H as (ds & ? & Hds & H).
  apply attr_ok_inv in Hds as [-> ->].
  do 3 set_step H.
  apply bind_ok_inv in H as ([] & s1 & Hv & H).
  match type of Hv with
  | _ ?s0 = _ =>
      assert (Hs1 : exists v8,
                 InfosGDAL.set_raster "format_version" v8 s0 = (Ok tt, s1))
        by (destruct (gdal.GetMetadata ds !! "VERSION") as [[|c v]|]; eauto)
  end.
  clear Hv. destruct Hs1 as [v8 Hv].
  unfold InfosGDAL.set_raster, Py.modify in Hv. injection Hv as <-.
  do 3 set_step H.
  apply bind_ok_inv in H as (band1 & ? & Hb & H).
  apply attr_ok_inv in Hb as [Hb ->].
  do 2 set_step H.
  unfold InfosGDAL.set_raster, Py.modify in H. injection H as <-.
  cbn [snd InfosGDAL.dico_raster InfosGDAL.dico_bands InfosGDAL.alert].
  do 12 eexists. split; reflexivity.
Qed.

Lemma infos_geom_inv (rast : option gdal.Dataset) (txt : gmap string string)
    (s s' : InfosGDAL.state) :
  InfosGDAL.infos_geom rast txt s = (Ok tt, s') ->
  exists v15 v16 v17 v18 v19 v20 v21 v22,
    s' = {| InfosGDAL.dico_raster :=
              setitem "EPSG" v22 (setitem "srs" v21 (setitem "srs_type" v20
              (setitem "orientation" v19 (setitem "pixelHeight" v18
              (setitem "pixelWidth" v17 (setitem "yOrigin" v16
              (setitem "xOrigin" v15 (InfosGDAL.dico_raster s))))))));
            InfosGDAL.dico_bands := InfosGDAL.dico_bands s;
            InfosGDAL.alert := InfosGDAL.alert s |}.
Proof.
  unfold InfosGDAL.infos_geom. intros H.
  apply bind_ok_inv in H as (ds & ? & Hds & H).
  apply attr_ok_inv in Hds as [-> ->]. cbv zeta in H.
  do 5 (let Hi := fresh "Hi" in
        apply bind_ok_inv in H as (? & ? & Hi & H);
        apply index_ok_inv in Hi as [_ ->];
        set_step H).
  apply bind_ok_inv in H as (t & ? & Ht & H).
  rewrite InfosGDAL_srs_type_eq in Ht.
  destruct (Srs.last_matching (gdal.GetSRS ds)); [|discriminate Ht].
  injection Ht as <- <-.
  set_step H.
  apply bind_ok_inv in H as ([] & s1 & Hsrs & H).
  apply InfosGDAL_srs_name_inv in Hsrs. subst s1.
  apply bind_ok_inv in H as (epsg & ? & He & H).
  apply lift_ok_inv in He as [_ ->].
  unfold InfosGDAL.set_raster, Py.modify in H. injection H as <-.
  cbn [InfosGDAL.dico_raster InfosGDAL.dico_bands InfosGDAL.alert].
  do 8 eexists. reflexivity.
Qed.

(** X22: when the constructor of [InfosRasters] returns on an empty
    record, [gdal.Open] had answered a dataset, [self.alert] is 0, and the
    record holds exactly twenty-two entries, in this order: format, name,
    folder, title, dependencies, compr_rate, color_ref, format_version,
    num_cols, num_rows, num_bands, data_type, date_actu, date_crea, xOrigin,
    yOrigin, pixelWidth, pixelHeight, orientation, srs_type, srs, EPSG; no
    entry [error] is among them. *)
Theorem InfosRasters_record_keys (env : os.OS) (gdal_Open : gdal.opened gdal.Dataset)
    (rasterpath tipo : string) (txt : gmap string string) (s s' : InfosGDAL.state) :
  InfosGDAL.dico_raster s = [] ->
  InfosGDAL.__init__ env gdal_Open rasterpath tipo txt s = (Ok tt, s') ->
  (exists ds, gdal_Open = gdal.Opened ds)
  /\ InfosGDAL.alert s' = 0
  /\ keys (InfosGDAL.dico_raster s')
     = ["format"; "name"; "folder"; "title"; "dependencies"; "compr_rate";
        "color_ref"; "format_version"; "num_cols"; "num_rows"; "num_bands";
        "data_type"; "date_actu"; "date_crea"; "xOrigin"; "yOrigin";
        "pixelWidth"; "pixelHeight"; "orientation"; "srs_type"; "srs"; "EPSG"].
Proof.
  intros Hd H. unfold InfosGDAL.__init__ in H.
  set_step H.
  apply bind_ok_inv in H as (rast & ? & Ho & H).
  apply lift_ok_inv in Ho as [Ho ->].
  unfold InfosGDAL.init_body in H.
  apply bind_ok_inv in H as ([] & s1 & Ha & H).
  apply bind_ok_inv in H as ([] & s2 & Hf & H).
  apply bind_ok_inv in H as ([] & s3 & Hb & H).
  apply bind_ok_inv in H as ([] & s4 & Hg & H).
  apply infos_basics_inv in Hb
    as (ds & v4 & v5 & v6 & v7 & v8 & v9 & v10 & v11 & v12 & v13 & v14 & -> & ->).
  apply infos_geom_inv in Hg as (v15 & v16 & v17 & v18 & v19 & v20 & v21 & v22 & ->).
  destruct gdal_Open as [| |ds']; try discriminate Ho. injection Ho as ->.
  unfold Py.ret in Ha. injection Ha as <-.
  unfold InfosGDAL.set_raster, Py.modify in Hf. injection Hf as <-.
  pose proof (InfosGDAL_band_loop_raster (fun x => x) (Some ds)) as K.
  match type of H with ?m ?s4 = _ => specialize (K s4) end.
  cbv beta in K. rewrite H in K. cbn [snd] in K.
  cbn [InfosGDAL.dico_raster InfosGDAL.alert] in K.
  injection K as Kd Ka.
  split; [now exists ds|]. split; [exact Ka|].
  rewrite Kd, Hd. apply keys_raster_record.
Qed.

Lemma InfosRasters_record_keys_witness :
  let run := InfosGDAL.__init__ Samples.env_rasters
               (gdal.Opened (Samples.dataset "/data/dem.tif" 3 Samples.srs_projected))
               "/data/dem.tif" ".tif" textos Samples.empty_raster_state in
  InfosGDAL.dico_raster Samples.empty_raster_state = []
  /\ run = (Ok tt, snd run)
  /\ keys (InfosGDAL.dico_raster (snd run))
     = ["format"; "name"; "folder"; "title"; "dependencies"; "compr_rate";
        "color_ref"; "format_version"; "num_cols"; "num_rows"; "num_bands";
        "data_type"; "date_actu"; "date_crea"; "xOrigin"; "yOrigin";
        "pixelWidth"; "pixelHeight"; "orientation"; "srs_type"; "srs"; "EPSG"].
Proof.
  intros run.
  assert (H : run = (Ok tt, snd run)) by (vm_compute; reflexivity).
  split; [reflexivity|]. split; [exact H|].
  apply (InfosRasters_record_keys Samples.env_rasters _ "/data/dem.tif" ".tif" textos
           Samples.empty_raster_state (snd run) eq_refl H).
Defined.

Lemma band_key_ne (i j : Z) (suffix1 suffix2 : string) :
  i <> j ->
  "band" ++ pretty i ++ String "_" suffix1 <> "band" ++ pretty j ++ String "_" suffix2.
Proof.
  intros Hij H. apply string_app_inv_head in H.
  change (String "_" suffix1) with ("_" ++ suffix1) in H.
  change (String "_" suffix2) with ("_" ++ suffix2) in H.
  apply split_at_underscore in H as [H _]; try apply pretty_Z_low.
  now apply (inj pretty) in H.
Qed.

Lemma keys_of_disjoint (i j : Z) (k : string) :
  i <> j -> k ∈ Bands.keys_of i -> k ∉ Bands.keys_of j.
Proof.
  unfold Bands.keys_of. intros Hij Hi Hj.
  rewrite !elem_of_cons, elem_of_nil in Hi, Hj.
  destruct Hi as [->|[->|[->|[]]]]; destruct Hj as [H|[H|[H|[]]]];
    now apply band_key_ne in H.
Qed.

Lemma keys_setitem_fresh (k : string) (v : pyval) (d : odict) :
  k ∉ keys d -> keys (setitem k v d) = (keys d ++ [k])%list.
Proof. intros H. now rewrite keys_setitem, bool_decide_false. Qed.

Lemma InfosGDAL_infos_bands_keys (ds : gdal.Dataset) (i : Z) (s s' : InfosGDAL.state) :
  (forall k, k ∈ Bands.keys_of i -> k ∉ keys (InfosGDAL.dico_bands s)) ->
  InfosGDAL.infos_bands (Some ds) i s = (Ok tt, s') ->
  keys (InfosGDAL.dico_bands s') = (keys (InfosGDAL.dico_bands s) ++ Bands.keys_of i)%list.
Proof.
  intros Hfresh H. unfold InfosGDAL.infos_bands in H.
  apply bind_ok_inv in H as (ds' & ? & Hds & H). apply attr_ok_inv in Hds as [_ ->].
  apply bind_ok_inv in H as (b & ? & Hb & H). apply attr_ok_inv in Hb as [_ ->].
  unfold Py.bind, InfosGDAL.set_band, Py.modify in H. injection H as <-.
  cbn [InfosGDAL.dico_bands].
  assert (H1 : "band" ++ pretty i ++ "_Min" ∉ keys (InfosGDAL.dico_bands s))
    by (apply Hfresh; unfold Bands.keys_of; set_solver).
  assert (H2 : "band" ++ pretty i ++ "_Max" ∉ keys (InfosGDAL.dico_bands s))
    by (apply Hfresh; unfold Bands.keys_of; set_solver).
  assert (H3 : "band" ++ pretty i ++ "_NoData" ∉ keys (InfosGDAL.dico_bands s))
    by (apply Hfresh; unfold Bands.keys_of; set_solver).
  rewrite keys_setitem_fresh.
  - rewrite keys_setitem_fresh.
    + rewrite keys_setitem_fresh by exact H1.
      unfold Bands.keys_of. now rewrite <- !app_assoc.
    + rewrite keys_setitem_fresh by exact H1.
      rewrite elem_of_app, list_elem_of_singleton. intros [?|E]; [done|].
      now apply band_suffix_ne in E.
  - rewrite keys_setitem_fresh.
    + rewrite keys_setitem_fresh by exact H1.
      rewrite !elem_of_app, !list_elem_of_singleton. intros [[?|E]|E]; [done| |];
        now apply band_suffix_ne in E.
    + rewrite keys_setitem_fresh by exact H1.
      rewrite elem_of_app, list_elem_of_singleton. intros [?|E]; [done|].
      now apply band_suffix_ne in E.
Qed.

Lemma InfosGDAL_band_loop_keys (ds : gdal.Dataset) (l : list Z) :
  forall s s',
    NoDup l ->
    (forall i k, i ∈ l -> k ∈ Bands.keys_of i -> k ∉ keys (InfosGDAL.dico_bands s)) ->
    for_each l (InfosGDAL.infos_bands (Some ds)) s = (Ok tt, s') ->
    keys (InfosGDAL.dico_bands s')
    = (keys (InfosGDAL.dico_bands s) ++ flat_map Bands.keys_of l)%list.
Proof.
  induction l as [|i l IH]; intros s s' Hnd Hfresh H.
  - injection H as <-. cbn. now rewrite app_nil_r.
  - cbn [for_each] in H. apply bind_ok_inv in H as ([] & s1 & H1 & H).
    apply NoDup_cons in Hnd as [Hi Hnd].
    apply InfosGDAL_infos_bands_keys in H1; [|intros k Hk; apply (Hfresh i); [left|exact Hk]].
    rewrite (IH s1 s' Hnd); [|clear IH|exact H].
    + rewrite H1. cbn [flat_map]. now rewrite <- app_assoc.
    + intros j k Hj Hk. rewrite H1, elem_of_app. intros [Hin|Hin].
      * revert Hin. apply (Hfresh j); [now right|exact Hk].
      * revert Hin. apply (keys_of_disjoint j i); [|exact Hk].
        intros ->. contradiction.
Qed.

(** X23: when the constructor of [InfosRasters] returns on an empty
    record of bands, that record holds, for every band index from 1 to the
    number of bands excluded and in that order, the three entries [Min],
    [Max] and [NoData] of the band, and nothing else. *)
Theorem InfosRasters_band_keys (env : os.OS) (ds : gdal.Dataset)
    (rasterpath tipo : string) (txt : gmap string string) (s s' : InfosGDAL.state) :
  InfosGDAL.dico_bands s = [] ->
  InfosGDAL.__init__ env (gdal.Opened ds) rasterpath tipo txt s = (Ok tt, s') ->
  keys (InfosGDAL.dico_bands s')
  = flat_map Bands.keys_of (range 1 (gdal.RasterCount ds)).
Proof.
  intros Hd H. unfold InfosGDAL.__init__ in H.
  set_step H.
  apply bind_ok_inv in H as (rast & ? & Ho & H).
  apply lift_ok_inv in Ho as [Ho ->]. injection Ho as <-.
  unfold InfosGDAL.init_body in H.
  apply bind_ok_inv in H as ([] & s1 & Ha & H).
  apply bind_ok_inv in H as ([] & s2 & Hf & H).
  apply bind_ok_inv in H as ([] & s3 & Hb & H).
  apply bind_ok_inv in H as ([] & s4 & Hg & H).
  unfold Py.ret in Ha. injection Ha as <-.
  unfold InfosGDAL.set_raster, Py.modify in Hf. injection Hf as <-.
  pose proof (InfosGDAL_infos_basics_num_bands _ _ _ _ _ _ Hb) as Hn.
  pose proof (InfosGDAL_infos_geom_num_bands (Some ds) txt s3) as Kn.
  cbv beta in Kn. rewrite Hg in Kn. cbn [snd] in Kn. rewrite Hn in Kn.
  pose proof (InfosGDAL_infos_basics_bands (fun x => x) env (Some ds) rasterpath txt) as Kb.
  match type of Hb with _ ?s2 = _ => specialize (Kb s2) end.
  cbv beta in Kb. rewrite Hb in Kb. cbn [snd InfosGDAL.dico_bands] in Kb.
  pose proof (InfosGDAL_infos_geom_bands (fun x => x) (Some ds) txt s3) as Kg.
  cbv beta in Kg. rewrite Hg in Kg. cbn [snd] in Kg.
  rewrite Kb, Hd in Kg.
  apply bind_ok_inv in H as (bands & s5 & Hr & H).
  unfold InfosGDAL.band_range, Py.bind, Py.gets in Hr. rewrite Kn in Hr.
  injection Hr as <- <-.
  apply InfosGDAL_band_loop_keys in H.
  - now rewrite H, Kg.
  - apply NoDup_seqZ.
  - intros i k _ _. rewrite Kg. apply not_elem_of_nil.
Qed.

Lemma InfosRasters_band_keys_witness :
  let ds := Samples.dataset "/data/dem.tif" 3 Samples.srs_projected in
  let run := InfosGDAL.__init__ Samples.env_rasters (gdal.Opened ds)
               "/data/dem.tif" ".tif" textos Samples.empty_raster_state in
  InfosGDAL.dico_bands Samples.empty_raster_state = []
  /\ run = (Ok tt, snd run)
  /\ keys (InfosGDAL.dico_bands (snd run))
     = flat_map Bands.keys_of (range 1 (gdal.RasterCount ds)).
Proof.
  intros ds run.
  assert (H : run = (Ok tt, snd run)) by (vm_compute; reflexivity).
  split; [reflexivity|]. split; [exact H|].
  apply (InfosRasters_band_keys Samples.env_rasters ds "/data/dem.tif" ".tif" textos
           Samples.empty_raster_state (snd run) eq_refl H).
Defined.

(* ===================================================================== *)
(** * ReadGeoPDF.raster_basics *)
(* ===================================================================== *)

Lemma sum_sizes_ok_total (getsize : string -> option Z) (files : list string) :
  forall t, sizefmt.sum_sizes getsize files = Ok t -> t = Sizes.total getsize files.
Proof.
  induction files as [|f files IH]; intros t; cbn [sizefmt.sum_sizes Sizes.total foldr].
  - now intros [= <-].
  - fold (Sizes.total getsize files).
    destruct (getsize f) as [n|]; [|discriminate].
    destruct (sizefmt.sum_sizes getsize files) as [t'|e]; [|discriminate].
    intros [= <-]. cbn [default]. now rewrite (IH t' eq_refl).
Qed.

Ltac pdf_step H :=
  let E := fresh "E" in
  apply bind_ok_inv in H as ([] & ? & E & H);
  unfold Infos_GeoPDF.set_pdf, Py.modify in E;
  injection E as <-.

(** After the remainder [rest] of a method has returned, the entry [k]
    that it does not assign is what it was. *)
Ltac kept_by_rest H k :=
  match type of H with
  | ?rest ?s1 = (_, ?s') =>
      let Hk := fresh "Hk" in
      assert (Hk : keeps (fun s => get k (Infos_GeoPDF.dico_geopdf s)) rest)
        by frame;
      specialize (Hk s1); rewrite H in Hk; cbn [snd] in Hk; rewrite Hk;
      cbn [Infos_GeoPDF.dico_geopdf]
  end.

(** X24: when [raster_basics] returns, [title] is the entry TITLE of
    the metadata of the PDF, [None] when the metadata have none (the title
    made from the file name is always replaced); [dependencies] lists the
    base names of the other files of the dataset, without the path of the
    PDF that was appended for the sum; and [total_size] is the formatted
    sum of the sizes read under these base names and of the size of the
    PDF. *)
Theorem GeoPDF_raster_basics_entries (env : os.OS) (geopdf : gdal.Dataset)
    (pdfpath : string) (txt : gmap string string) (s s' : Infos_GeoPDF.state) :
  Infos_GeoPDF.raster_basics env geopdf pdfpath txt s = (Ok tt, s') ->
  let d := Infos_GeoPDF.dico_geopdf s' in
  let dependencies := PdfBasics.dependencies geopdf pdfpath in
  get "title" d = Some (opt_val VStr (gdal.GetMetadata geopdf !! "TITLE"))
  /\ get "dependencies" d = Some (VList (map VStr dependencies))
  /\ get "total_size" d
     = Some (VStr (Infos_GeoPDF.sizeof
                     (Sizes.total (os.getsize env) (dependencies ++ [pdfpath])))).
Proof.
  unfold Infos_GeoPDF.raster_basics. intros H. cbv zeta in H |- *.
  fold (PdfBasics.dependencies geopdf pdfpath) in H.
  do 2 pdf_step H.
  apply bind_ok_inv in H as (name & ? & Hname & H).
  apply lift_ok_inv in Hname as [_ ->].
  do 3 pdf_step H.
  apply bind_ok_inv in H as (total_size & ? & Ht & H).
  apply lift_ok_inv in Ht as [Ht ->]. apply sum_sizes_ok_total in Ht. subst total_size.
  do 2 pdf_step H.
  split; [|split].
  - pdf_step H. kept_by_rest H "title". apply get_setitem_eq.
  - kept_by_rest H "dependencies". apply get_setitem_eq.
  - kept_by_rest H "total_size".
    rewrite get_setitem_ne by discriminate. apply get_setitem_eq.
Qed.

Lemma GeoPDF_raster_basics_entries_witness :
  let run := Infos_GeoPDF.raster_basics PdfBasics.env_pdf PdfBasics.dataset_pdf
               "/data/map.pdf" textos Samples.empty_pdf_state in
  let d := Infos_GeoPDF.dico_geopdf (snd run) in
  run = (Ok tt, snd run)
  /\ get "title" d = Some VNone
  /\ get "dependencies" d = Some (VList [VStr "map.aux.xml"])
  /\ get "total_size" d = Some (VStr "5.0 Ko").
Proof.
  intros run d.
  assert (H : run = (Ok tt, snd run)) by (vm_compute; reflexivity).
  split; [exact H|].
  exact (GeoPDF_raster_basics_entries PdfBasics.env_pdf PdfBasics.dataset_pdf
           "/data/map.pdf" textos Samples.empty_pdf_state (snd run) H).
Defined.

Lemma unicode_ok (v u : string) : unicode v = Ok u -> u = v.
Proof. unfold unicode. destruct (is_ascii v); [now intros [= <-]|discriminate]. Qed.

(** X25: when [raster_basics] returns for a PDF whose metadata give
    the creation date as [D:] followed by four characters for the year, two
    for the month, two for the day and anything else, [date_crea] is
    day, month and year separated by slashes. *)
Theorem GeoPDF_creation_date (env : os.OS) (geopdf : gdal.Dataset)
    (pdfpath : string) (txt : gmap string string) (s s' : Infos_GeoPDF.state)
    (year month day rest : string) :
  Infos_GeoPDF.raster_basics env geopdf pdfpath txt s = (Ok tt, s') ->
  gdal.GetMetadata geopdf !! "CREATION_DATE"
  = Some ("D:" ++ year ++ month ++ day ++ rest) ->
  String.length year = 4%nat -> String.length month = 2%nat ->
  String.length day = 2%nat ->
  get "date_crea" (Infos_GeoPDF.dico_geopdf s')
  = Some (VStr (day ++ "/" ++ month ++ "/" ++ year)).
Proof.
  unfold Infos_GeoPDF.raster_basics. intros H Hmd Hy Hm Hd. cbv zeta in H.
  do 2 pdf_step H.
  apply bind_ok_inv in H as (name & ? & Hname & H).
  apply lift_ok_inv in Hname as [_ ->].
  do 3 pdf_step H.
  apply bind_ok_inv in H as (total_size & ? & Ht & H).
  apply lift_ok_inv in Ht as [_ ->].
  do 3 pdf_step H.
  apply bind_ok_inv in H as (creator & ? & Hc & H). apply lift_ok_inv in Hc as [_ ->].
  apply bind_ok_inv in H as (producer & ? & Hp & H). apply lift_ok_inv in Hp as [_ ->].
  do 6 pdf_step H.
  rewrite Hmd in H.
  apply bind_ok_inv in H as (creadate & ? & Hcd & H).
  unfold Py.ret in Hcd. injection Hcd as <- <-.
  apply bind_ok_inv in H as (dd & ? & Hdd & H). apply lift_ok_inv in Hdd as [Hdd ->].
  apply bind_ok_inv in H as (mm & ? & Hmm & H). apply lift_ok_inv in Hmm as [Hmm ->].
  apply bind_ok_inv in H as (yy & ? & Hyy & H). apply lift_ok_inv in Hyy as [Hyy ->].
  apply unicode_ok in Hdd, Hmm, Hyy.
  pdf_step H. kept_by_rest H "date_crea".
  rewrite get_setitem_eq. subst dd mm yy.
  destruct year as [|y1 [|y2 [|y3 [|y4 [|]]]]]; try discriminate Hy.
  destruct month as [|m1 [|m2 [|]]]; try discriminate Hm.
  destruct day as [|d1 [|d2 [|]]]; try discriminate Hd.
  destruct rest; reflexivity.
Qed.

Lemma GeoPDF_creation_date_witness :
  let run := Infos_GeoPDF.raster_basics PdfBasics.env_pdf PdfBasics.dataset_pdf
               "/data/map.pdf" textos Samples.empty_pdf_state in
  run = (Ok tt, snd run)
  /\ gdal.GetMetadata PdfBasics.dataset_pdf !! "CREATION_DATE"
     = Some ("D:" ++ "2016" ++ "04" ++ "08" ++ "101500")
  /\ get "date_crea" (Infos_GeoPDF.dico_geopdf (snd run)) = Some (VStr "08/04/2016").
Proof.
  intros run.
  assert (H : run = (Ok tt, snd run)) by (vm_compute; reflexivity).
  split; [exact H|]. split; [reflexivity|].
  exact (GeoPDF_creation_date PdfBasics.env_pdf PdfBasics.dataset_pdf
           "/data/map.pdf" textos Samples.empty_pdf_state (snd run)
           "2016" "04" "08" "101500" H eq_refl eq_refl eq_refl eq_refl).
Defined.

(* ===================================================================== *)
(** * The error handlers of the GeoPDF reader *)
(* ===================================================================== *)

Lemma length_replace_char (a b : ascii) (s : string) :
  String.length (replace_char a b s) = String.length s.
Proof. induction s as [|c s IH]; cbn; [reflexivity|now rewrite IH]. Qed.

Lemma replace_char_id (a b : ascii) (s : string) :
  a ∉ list_ascii_of_string s -> replace_char a b s = s.
Proof.
  induction s as [|c s IH]; cbn [replace_char list_ascii_of_string]; [reflexivity|].
  intros H. apply not_elem_of_cons in H as [Hc Hs].
  destruct (Ascii.eqb_spec c a); [congruence|]. now rewrite IH.
Qed.

Lemma err_class_names (err_type : Z) :
  default "None" (ErrorHandler.err_class !! err_type)
  = if decide (err_type = 1) then "Debug"
    else if decide (err_type = 2) then "Warning"
    else if decide (err_type = 3) then "Failure"
    else if decide (err_type = 4) then "Fatal"
    else "None".
Proof.
  unfold ErrorHandler.err_class, ErrorHandler.CE_None, ErrorHandler.CE_Debug,
    ErrorHandler.CE_Warning, ErrorHandler.CE_Failure, ErrorHandler.CE_Fatal.
  destruct (decide (err_type = 0)) as [->|H0]; [reflexivity|].
  rewrite lookup_insert_ne by congruence.
  destruct (decide (err_type = 1)) as [->|H1]; [reflexivity|].
  rewrite lookup_insert_ne by congruence.
  destruct (decide (err_type = 2)) as [->|H2]; [reflexivity|].
  rewrite lookup_insert_ne by congruence.
  destruct (decide (err_type = 3)) as [->|H3]; [reflexivity|].
  rewrite lookup_insert_ne by congruence.
  destruct (decide (err_type = 4)) as [->|H4]; [reflexivity|].
  rewrite lookup_insert_ne by congruence. reflexivity.
Qed.

(** X26: the handler of [GdalErrorHandler] and of [OGRErrorHandler]
    decodes the message of the bindings, a byte string, to replace its line
    feeds: a message with a byte above 127 raises [UnicodeDecodeError]
    before anything is stored and before the exceptions of the bindings are
    turned off.  For a message in ASCII the handler returns what it stores:
    the level as given, the name of the class numbered by its second
    argument ([Debug], [Warning], [Failure], [Fatal], and [None] for 0 and
    for every other number), and the message with every line feed replaced
    by a space, of the same length and unchanged when it has no line feed;
    and it leaves the exceptions of the bindings turned off. *)
Theorem handler_stores (err_level err_type : Z) (err_msg : string)
    (s : ErrorHandler.state) :
  let run := ErrorHandler.handler err_level err_type err_msg s in
  let s' := snd run in
  (is_ascii err_msg = false -> run = (Raise UnicodeDecodeError, s))
  /\ (is_ascii err_msg = true ->
      fst run = Ok (ErrorHandler.err_level s', ErrorHandler.err_type s',
                    ErrorHandler.err_msg s')
      /\ ErrorHandler.err_level s' = err_level
      /\ ErrorHandler.err_type s'
         = VStr (if decide (err_type = 1) then "Debug"
                 else if decide (err_type = 2) then "Warning"
                 else if decide (err_type = 3) then "Failure"
                 else if decide (err_type = 4) then "Fatal"
                 else "None")
      /\ ("010"%char ∉ list_ascii_of_string (ErrorHandler.err_msg s'))
      /\ String.length (ErrorHandler.err_msg s') = String.length err_msg
      /\ ("010"%char ∉ list_ascii_of_string err_msg -> ErrorHandler.err_msg s' = err_msg)
      /\ ErrorHandler.use_exceptions s' = false).
Proof.
  cbv zeta. unfold ErrorHandler.handler, Py.bind, Py.lift, unicode. split.
  - intros ->. reflexivity.
  - intros ->. unfold Py.modify, Py.gets, Py.ret.
    cbn [fst snd ErrorHandler.err_level ErrorHandler.err_type ErrorHandler.err_msg
         ErrorHandler.use_exceptions].
    split; [reflexivity|]. split; [reflexivity|].
    split; [now rewrite err_class_names|].
    split; [apply replace_char_absent; discriminate|].
    split; [apply length_replace_char|].
    split; [apply replace_char_id|reflexivity].
Qed.

Lemma handler_stores_witness :
  let s := ErrorHandler.__init__ true in
  let accent := "caf" ++ String "233" ".pdf" in
  is_ascii accent = false
  /\ ErrorHandler.handler 3 3 accent s = (Raise UnicodeDecodeError, s)
  /\ is_ascii "not a PDF" = true
  /\ fst (ErrorHandler.handler 3 3 "not a PDF" s) = Ok (3, VStr "Failure", "not a PDF")
  /\ ErrorHandler.use_exceptions (snd (ErrorHandler.handler 3 3 "not a PDF" s)) = false.
Proof.
  cbv zeta. split; [reflexivity|]. split.
  - exact (proj1 (handler_stores 3 3 ("caf" ++ String "233" ".pdf")
                    (ErrorHandler.__init__ true)) eq_refl).
  - split; [reflexivity|]. split; [reflexivity|].
    exact (proj2 (proj2 (proj2 (proj2 (proj2 (proj2
             (proj2 (handler_stores 3 3 "not a PDF" (ErrorHandler.__init__ true))
                eq_refl))))))).
Defined.

(* ===================================================================== *)
(** * The name of the saved workbook *)
(* ===================================================================== *)

Lemma substring_split (n : nat) (p : string) :
  substring 0 n p ++ substring n (String.length p - n) p = p.
Proof.
  revert n. induction p as [|c p IH]; intros n.
  - destruct n; reflexivity.
  - destruct n as [|n].
    + cbn [substring String.length Nat.sub]. rewrite append_nil_l.
      f_equal. specialize (IH 0%nat). cbn [substring] in IH.
      destruct p; [reflexivity|].
      rewrite Nat.sub_0_r in IH. cbn [substring] in IH |- *.
      rewrite append_nil_l in IH. exact IH.
    + cbn [substring String.length Nat.sub]. rewrite append_cons. f_equal. apply IH.
Qed.

Lemma splitext_app (p : string) :
  fst (posixpath.splitext p) ++ snd (posixpath.splitext p) = p.
Proof.
  assert (Hnil : forall q : string, q ++ "" = q).
  { intros q. induction q as [|c q IH]; [reflexivity|].
    now rewrite append_cons, IH. }
  unfold posixpath.splitext.
  destruct (rfind "/" p <? rfind "." p)%Z; [|apply Hnil].
  destruct (existsb _ _); [|apply Hnil].
  cbn [fst snd]. apply substring_split.
Qed.

(** X27: the name under which [savedico] saves the workbook always
    ends in [.xls]: it is the answer of the file dialog when the extension
    of that answer is exactly [.xls], and the answer followed by [.xls]
    otherwise, so that an answer ending in [.XLS] or an empty answer gets
    the suffix as well. *)
Theorem savedico_extension (saved : string) :
  (exists stem, Workbook.savedico saved = stem ++ ".xls")
  /\ (snd (posixpath.splitext saved) = ".xls" -> Workbook.savedico saved = saved)
  /\ (snd (posixpath.splitext saved) <> ".xls" ->
      Workbook.savedico saved = saved ++ ".xls")
  /\ Workbook.savedico "report.XLS" = "report.XLS.xls"
  /\ Workbook.savedico "" = ".xls".
Proof.
  unfold Workbook.savedico.
  split; [|split; [|split; [|split; reflexivity]]].
  - destruct (String.eqb_spec (snd (posixpath.splitext saved)) ".xls") as [E|_];
      cbn [negb].
    + exists (fst (posixpath.splitext saved)). rewrite <- E.
      symmetry. apply splitext_app.
    + now exists saved.
  - intros ->. reflexivity.
  - intros Hne. destruct (String.eqb_spec (snd (posixpath.splitext saved)) ".xls");
      [contradiction|reflexivity].
Qed.

(* ===================================================================== *)
(** * Erratum on a record that is not empty *)
(* ===================================================================== *)

Lemma setitem_same (k : string) (v : pyval) (d : odict) :
  get k d = Some v -> setitem k v d = d.
Proof.
  induction d as [|[k' v'] d IH]; cbn [get setitem]; [discriminate|].
  destruct (String.eqb_spec k' k) as [->|_].
  - now intros [= ->].
  - intros H. now rewrite IH.
Qed.

Lemma keys_setitem_incl (k : string) (v : pyval) (d : odict) (k' : string) :
  k' ∈ keys d -> k' ∈ keys (setitem k v d).
Proof.
  rewrite keys_setitem. case_bool_decide; [done|]. rewrite elem_of_app. now left.
Qed.

(** X28: on a record that already holds entries, [Utils.erratum] of a
    flat source and [ReadGeoPDF.erratum] assign [name], [folder] and
    [error] and nothing else: every other entry keeps its value, no key
    disappears, and calling the method again with the same arguments
    changes nothing. *)
Theorem erratum_keeps_other_entries (src : string) (mess_type mess : pyval)
    (d : odict) :
  let d' := snd (geoutils.erratum "flat" src mess_type mess d) in
  d' = Infos_GeoPDF.erratum_dict src mess d
  /\ (forall s, Infos_GeoPDF.dico_geopdf (snd (Infos_GeoPDF.erratum src mess s))
                = Infos_GeoPDF.erratum_dict src mess (Infos_GeoPDF.dico_geopdf s))
  /\ get "name" d' = Some (VStr (posixpath.basename src))
  /\ get "folder" d' = Some (VStr (posixpath.dirname src))
  /\ get "error" d' = Some mess
  /\ (forall k, k ∉ ["name"; "folder"; "error"] -> get k d' = get k d)
  /\ (forall k, k ∈ keys d -> k ∈ keys d')
  /\ snd (geoutils.erratum "flat" src mess_type mess d') = d'.
Proof.
  cbv zeta.
  assert (E : forall d0, snd (geoutils.erratum "flat" src mess_type mess d0)
                         = Infos_GeoPDF.erratum_dict src mess d0) by reflexivity.
  rewrite !E. unfold Infos_GeoPDF.erratum_dict.
  split; [reflexivity|]. split; [reflexivity|].
  assert (H1 : get "name" (setitem "error" mess
                 (setitem "folder" (VStr (posixpath.dirname src))
                    (setitem "name" (VStr (posixpath.basename src)) d)))
               = Some (VStr (posixpath.basename src)))
    by (now rewrite !get_setitem_ne, get_setitem_eq by discriminate).
  assert (H2 : get "folder" (setitem "error" mess
                 (setitem "folder" (VStr (posixpath.dirname src))
                    (setitem "name" (VStr (posixpath.basename src)) d)))
               = Some (VStr (posixpath.dirname src)))
    by (now rewrite get_setitem_ne, get_setitem_eq by discriminate).
  split; [exact H1|]. split; [exact H2|]. split; [apply get_setitem_eq|].
  split; [|split].
  - intros k Hk. rewrite !not_elem_of_cons in Hk. destruct Hk as (N1 & N2 & N3 & _).
    now rewrite !get_setitem_ne by congruence.
  - intros k Hk. now do 3 apply keys_setitem_incl.
  - rewrite (setitem_same "name") by exact H1.
    rewrite (setitem_same "folder") by exact H2.
    apply setitem_same, get_setitem_eq.
Qed.

(* ===================================================================== *)
(** * The candidates of DicoShapes are candidates of DicoGIS *)
(* ===================================================================== *)

Lemma lower_ascii_not_letter (c a : ascii) :
  (N_of_ascii a < 65)%N -> Ascii.eqb (lower_ascii c) a = Ascii.eqb c a.
Proof.
  intros Ha. unfold lower_ascii.
  destruct ((65 <=? N_of_ascii c) && (N_of_ascii c <=? 90))%N eqn:Hc; [|reflexivity].
  apply andb_true_iff in Hc as [H1 H2].
  apply N.leb_le in H1. apply N.leb_le in H2.
  destruct (Ascii.eqb_spec c a) as [->|_]; [lia|].
  apply Ascii.eqb_neq. intros E. apply (f_equal N_of_ascii) in E.
  rewrite N_ascii_embedding in E by lia. lia.
Qed.

Lemma rfind_from_lower (a : ascii) (s : string) :
  (N_of_ascii a < 65)%N ->
  forall i last, rfind_from a (lower s) i last = rfind_from a s i last.
Proof.
  intros Ha. induction s as [|c s IH]; intros i last; [reflexivity|].
  cbn [lower rfind_from]. now rewrite lower_ascii_not_letter, IH.
Qed.

Lemma length_lower (s : string) : String.length (lower s) = String.length s.
Proof. induction s as [|c s IH]; cbn; [reflexivity|now rewrite IH]. Qed.

Lemma substring_lower (s : string) :
  forall n m, substring n m (lower s) = lower (substring n m s).
Proof.
  induction s as [|c s IH]; intros [|n] [|m]; cbn [lower substring]; try reflexivity.
  - now rewrite IH.
  - apply IH.
  - apply IH.
Qed.

Lemma existsb_not_dot_lower (s : string) :
  existsb (fun c => negb (Ascii.eqb c ".")) (list_ascii_of_string (lower s))
  = existsb (fun c => negb (Ascii.eqb c ".")) (list_ascii_of_string s).
Proof.
  induction s as [|c s IH]; [reflexivity|].
  cbn [lower list_ascii_of_string existsb].
  rewrite IH, lower_ascii_not_letter; [reflexivity|cbn; lia].
Qed.

(** Lowering the letters of a path lowers the two parts that [splitext]
    makes of it. *)
Lemma splitext_lower (p : string) :
  posixpath.splitext (lower p)
  = (lower (fst (posixpath.splitext p)), lower (snd (posixpath.splitext p))).
Proof.
  unfold posixpath.splitext, rfind, slice.
  rewrite !rfind_from_lower by (cbn; lia).
  destruct (rfind_from "/" p 0 (-1) <? rfind_from "." p 0 (-1))%Z; [|reflexivity].
  rewrite substring_lower, existsb_not_dot_lower.
  destruct (existsb _ _); [|reflexivity].
  cbn [fst snd]. now rewrite !substring_lower, length_lower.
Qed.

(** A candidate of the stand-alone program is a candidate of the same
    format of the main program. *)
Lemma qualifies_shapes_qualifies (env : os.OS) (k : DicoShapes.kind) (p : string) :
  Walk.qualifies_shapes env k p = true ->
  Walk.qualifies env (match k with
                      | DicoShapes.Shp => DicoGIS.Shp
                      | DicoShapes.Tab => DicoGIS.Tab
                      end) p = true.
Proof.
  destruct k.
  - rewrite qualifies_shapes_shp_iff, qualifies_shp_iff.
    unfold Walk.shp_extension, Walk.sidecars_lower, Walk.sidecars_lower_or_upper.
    intros (E & H1 & H2 & H3). rewrite splitext_lower. cbn [snd]. rewrite E.
    split; [reflexivity|]. auto.
  - rewrite qualifies_shapes_tab_iff, qualifies_tab_iff.
    unfold Folders.extension, Folders.tab_sidecars_lower,
      Folders.tab_sidecars_lower_or_upper.
    intros (E & H1 & H2 & H3). rewrite splitext_lower. cbn [snd]. rewrite E.
    split; [reflexivity|]. auto.
Qed.

(** X29: over the same tree, whose names are in ASCII, every file that
    [DicoShapes.ligeofiles] lists as a shapefile is in the list of
    shapefiles of [DicoGIS.ligeofiles], and every file that it lists as a
    MapInfo table is in the list of tables of [DicoGIS.ligeofiles]. *)
Theorem DicoShapes_candidates_in_DicoGIS (env : os.OS) (top : string)
    (s : DicoGIS.state) (p : string) :
  Walk.ascii_tree env top = true ->
  Walk.is_list (DicoGIS.li_gdb s) ->
  let t' := snd (DicoShapes.ligeofiles env top DicoShapes.fresh) in
  let s' := snd (DicoGIS.ligeofiles env top s) in
  (p ∈ items (DicoShapes.li_shp t') -> p ∈ items (DicoGIS.li_shp s'))
  /\ (p ∈ items (DicoShapes.li_tab t') -> p ∈ items (DicoGIS.li_tab s')).
Proof.
  intros Hascii Hgdb. cbv zeta.
  pose proof (DicoShapes_ascii_answered env top Hascii) as Hans.
  pose proof (DicoShapes_elem_of env top DicoShapes.Shp p Hans) as Hshp.
  pose proof (DicoShapes_elem_of env top DicoShapes.Tab p Hans) as Htab.
  cbv zeta in Hshp, Htab. rewrite Hshp, Htab.
  change (DicoGIS.li_shp ?x) with (DicoGIS.get_li DicoGIS.Shp x).
  change (DicoGIS.li_tab ?x) with (DicoGIS.get_li DicoGIS.Tab x).
  rewrite !(fun fm => ligeofiles_elem_of env top s fm p Hascii Hgdb).
  split; intros [Hp Hq]; (split; [exact Hp|]).
  - exact (qualifies_shapes_qualifies env DicoShapes.Shp p Hq).
  - exact (qualifies_shapes_qualifies env DicoShapes.Tab p Hq).
Qed.

Lemma DicoShapes_candidates_in_DicoGIS_witness :
  Walk.ascii_tree Samples.env_folder "/d" = true
  /\ Walk.is_list (DicoGIS.li_gdb DicoGIS.fresh)
  /\ "/d/b.shp" ∈ items (DicoShapes.li_shp
                          (snd (DicoShapes.ligeofiles Samples.env_folder "/d"
                                  DicoShapes.fresh)))
  /\ "/d/b.shp" ∈ items (DicoGIS.li_shp
                          (snd (DicoGIS.ligeofiles Samples.env_folder "/d"
                                  DicoGIS.fresh))).
Proof.
  assert (H : "/d/b.shp" ∈ items (DicoShapes.li_shp
                                   (snd (DicoShapes.ligeofiles Samples.env_folder "/d"
                                           DicoShapes.fresh)))).
  { apply (bool_decide_unpack _). vm_compute. exact I. }
  split; [reflexivity|]. split; [now exists []|]. split; [exact H|].
  apply (DicoShapes_candidates_in_DicoGIS Samples.env_folder "/d" DicoGIS.fresh
           "/d/b.shp"); [reflexivity|now exists []|exact H].
Defined.

(** Without the condition on the names the inclusion fails: a sub-folder
    whose name is not in ASCII, walked before the folder of a shapefile,
    stops the main program before it lists the shapefile, and the
    stand-alone program, which makes no text of the names of folders, lists
    it. *)
Example accent_before_shapefile :
  let env := MoreSamples.env_accent_first in
  Walk.ascii_tree env "/d" = false
  /\ DicoShapes.ligeofiles env "/d" DicoShapes.fresh
     = (Ok tt, {| DicoShapes.li_shp := PyTuple ["/d/z/a.shp"];
                  DicoShapes.li_tab := PyTuple [] |})
  /\ fst (DicoGIS.ligeofiles env "/d" DicoGIS.fresh) = Raise UnicodeEncodeError
  /\ DicoGIS.li_shp (snd (DicoGIS.ligeofiles env "/d" DicoGIS.fresh)) = PyList [].
Proof. repeat split; vm_compute; reflexivity. Qed.

(* ===================================================================== *)
(** * Utils.list_dependencies *)
(* ===================================================================== *)

Lemma filter_bool_prop {A : Type} (b : A -> bool) (P : A -> Prop)
    `{forall x, Decision (P x)} (l : list A) :
  (forall x, b x = true <-> P x) -> List.filter b l = filter P l.
Proof.
  intros Hb. induction l as [|x l IH]; [reflexivity|].
  cbn [List.filter]. rewrite filter_cons, IH.
  destruct (b x) eqn:E.
  - rewrite decide_True by (now apply Hb). reflexivity.
  - rewrite decide_False; [reflexivity|]. intros HP. apply Hb in HP. congruence.
Qed.

(** X30: [Utils.list_dependencies] lists the folder of the main file;
    when the listing raises, so does the method.  Otherwise it answers, in
    the order of the listing and each as often as it is listed, exactly the
    names whose absolute path without extension is the main path without
    extension and whose lower-cased absolute path has not the excluded
    extension, which for ["auto"] is that of the lower-cased absolute main
    path.  So a listed name whose absolute path is the main path itself is
    left out when [exclude] is ["auto"] and the main path is absolute, but
    it is among the dependencies for the default [exclude] as soon as the
    main file has an extension. *)
Theorem list_dependencies_main_file (env : os.OS)
    (listdir : string -> result (list string)) (main_file_path exclude : string) :
  let run := Dependencies.list_dependencies env listdir main_file_path exclude in
  (forall e, listdir (posixpath.dirname main_file_path) = Raise e -> run = Raise e)
  /\ (forall names,
        listdir (posixpath.dirname main_file_path) = Ok names ->
        let dependencies :=
          filter (Dependencies.depends env main_file_path exclude) names in
        run = Ok dependencies
        /\ (forall f, f ∈ dependencies
                      <-> f ∈ names
                          /\ Dependencies.depends env main_file_path exclude f)
        /\ (forall f, f ∈ names -> os.abspath env f = main_file_path ->
              (exclude = "auto" -> os.abspath env main_file_path = main_file_path ->
               f ∉ dependencies)
              /\ (exclude = "" ->
                  snd (posixpath.splitext (lower main_file_path)) <> "" ->
                  f ∈ dependencies))).
Proof.
  cbv zeta. unfold Dependencies.list_dependencies. split.
  - intros e ->. reflexivity.
  - intros names ->. split; [|split].
    + f_equal. apply filter_bool_prop. intros f.
      unfold Dependencies.depends, Dependencies.excluded.
      rewrite andb_true_iff, negb_true_iff, String.eqb_eq, String.eqb_neq. tauto.
    + intros f. rewrite list_elem_of_filter. tauto.
    + intros f Hf Hfm. split.
      * intros -> Hmain. rewrite list_elem_of_filter.
        unfold Dependencies.depends, Dependencies.excluded. cbn [String.eqb Ascii.eqb Bool.eqb].
        rewrite Hfm, Hmain. intros [[_ H] _]. now apply H.
      * intros -> Hext. rewrite list_elem_of_filter.
        unfold Dependencies.depends, Dependencies.excluded. cbn [String.eqb].
        rewrite Hfm. repeat split; [exact Hext|exact Hf].
Qed.

Lemma list_dependencies_main_file_witness :
  Dependencies.listdir_cwd (posixpath.dirname "/d/a.shp")
  = Ok ["a.dbf"; "a.shp"; "a.shx"; "b.shp"; "a"]
  /\ Dependencies.list_dependencies Dependencies.env_cwd Dependencies.listdir_cwd
       "/d/a.shp" "auto"
     = Ok (filter (Dependencies.depends Dependencies.env_cwd "/d/a.shp" "auto")
                  ["a.dbf"; "a.shp"; "a.shx"; "b.shp"; "a"])
  /\ Dependencies.list_dependencies Dependencies.env_cwd Dependencies.listdir_cwd
       "/d/a.shp" "auto" = Ok ["a.dbf"; "a.shx"; "a"]
  /\ Dependencies.list_dependencies Dependencies.env_cwd Dependencies.listdir_cwd
       "/d/a.shp" "" = Ok ["a.dbf"; "a.shp"; "a.shx"]
  /\ Dependencies.listdir_cwd (posixpath.dirname "/e/a.shp") = Raise OSError
  /\ Dependencies.list_dependencies Dependencies.env_cwd Dependencies.listdir_cwd
       "/e/a.shp" "" = Raise OSError.
Proof.
  split; [reflexivity|]. split.
  - exact (proj1 (proj2 (list_dependencies_main_file Dependencies.env_cwd
                           Dependencies.listdir_cwd "/d/a.shp" "auto")
                    ["a.dbf"; "a.shp"; "a.shx"; "b.shp"; "a"] eq_refl)).
  - split; [reflexivity|]. split; [reflexivity|]. split; [reflexivity|].
    exact (proj1 (list_dependencies_main_file Dependencies.env_cwd
                    Dependencies.listdir_cwd "/e/a.shp" "") OSError eq_refl).
Defined.
